(** * wiznote_export: storage, converter and downloader of the web-API exporter

    A shallow embedding of [webapi-export/src/storage.py],
    [webapi-export/src/converter.py] and [webapi-export/src/downloader.py],
    followed by the properties of the exporter that are stated about them.

    Conventions of the embedding.
    - A Python [str] (and a [bytes] value) is a [string]: a sequence of
      characters of type [ascii]; [len] is [String.length], slicing is
      [Py.take]/[Py.drop], and [<] on strings is the lexicographic order on
      character codes ([String.compare]).  White space and word characters
      are those of the ASCII range.
    - [dict] objects that the code uses as records (a note, an index entry)
      are records whose optional keys are [option] fields; the note index,
      whose iteration order the code observes, is an association list in
      insertion order.
    - The disk is a finite map from path to contents together with the set
      of directories; [pathlib.Path] values are their [str()] form.  Writing
      fails on a directory and below a directory that does not exist;
      making a directory fails on a file.
    - Exceptions are the [Raise] case of [exc]; a [try/except Exception]
      is [try_except].
    - The API client, BeautifulSoup, html2text, [base64] and [hashlib] are
      not part of the modelled files: they are functions, which may raise,
      held in the records [api_client] and [html_lib].
    - The thread pool of [_download_folder] is a loop over the notes in the
      order of their submission. *)

From Stdlib Require Import Ascii DecimalString DecimalNat.
From stdpp Require Import gmap strings list.

Local Open Scope stdpp_scope.

(** ** Python string primitives *)

Module Py.

(** [s[:n]] *)
Fixpoint take (n : nat) (s : string) : string :=
  match n, s with
  | S k, String c r => String c (take k r)
  | _, _ => EmptyString
  end.

(** [s[n:]] *)
Fixpoint drop (n : nat) (s : string) : string :=
  match n, s with
  | S k, String _ r => drop k r
  | _, _ => s
  end.

(** [s.startswith(p)] *)
Definition startswith (s p : string) : bool := String.prefix p s.

(** [s.endswith(p)] *)
Definition endswith (s p : string) : bool :=
  (String.length p <=? String.length s)%nat
  && String.eqb (drop (String.length s - String.length p) s) p.

(** [s.replace(old, new)] for a one-character [old] and [new] *)
Fixpoint replace_char (old new : ascii) (s : string) : string :=
  match s with
  | EmptyString => EmptyString
  | String c r =>
      String (if Ascii.eqb c old then new else c) (replace_char old new r)
  end.

(** [s.lstrip(chars)], the set [chars] given by its membership test *)
Fixpoint lstrip (chars : ascii -> bool) (s : string) : string :=
  match s with
  | EmptyString => EmptyString
  | String c r => if chars c then lstrip chars r else s
  end.

(** [s.rstrip(chars)] *)
Fixpoint rstrip (chars : ascii -> bool) (s : string) : string :=
  match s with
  | EmptyString => EmptyString
  | String c r =>
      match rstrip chars r with
      | EmptyString => if chars c then EmptyString else String c EmptyString
      | r' => String c r'
      end
  end.

(** [s.strip(chars)] *)
Definition strip (chars : ascii -> bool) (s : string) : string :=
  rstrip chars (lstrip chars s).

(** The characters [str.rstrip()] removes when it is given no argument:
    the white space of the ASCII range. *)
Definition isspace (c : ascii) : bool :=
  match c with
  | "009" | "010" | "011" | "012" | "013"
  | "028" | "029" | "030" | "031" | " " => true
  | _ => false
  end%char.

(** [s.split(sep)] for a one-character separator: never the empty list *)
Fixpoint split (sep : ascii) (s : string) : list string :=
  match s with
  | EmptyString => [EmptyString]
  | String c r =>
      if Ascii.eqb c sep then EmptyString :: split sep r
      else match split sep r with
           | h :: t => String c h :: t
           | [] => [String c EmptyString]
           end
  end.

(** [sep.join(parts)] *)
Fixpoint join (sep : string) (parts : list string) : string :=
  match parts with
  | [] => EmptyString
  | [x] => x
  | x :: xs => x +:+ sep +:+ join sep xs
  end.

(** [s.rfind(c)], [None] standing for [-1] *)
Fixpoint rfind (c : ascii) (s : string) : option nat :=
  match s with
  | EmptyString => None
  | String a r =>
      match rfind c r with
      | Some i => Some (S i)
      | None => if Ascii.eqb a c then Some 0 else None
      end
  end.

(** Does [s] hold a character other than [c]? *)
Fixpoint has_other (c : ascii) (s : string) : bool :=
  match s with
  | EmptyString => false
  | String a r => negb (Ascii.eqb a c) || has_other c r
  end.

(** [os.path.splitext(p)] of [posixpath]: the extension starts at the last
    dot of the last path component; leading dots of that component do not
    start an extension. *)
Definition splitext (p : string) : string * string :=
  match rfind "."%char p with
  | None => (p, EmptyString)
  | Some dotIndex =>
      let filenameIndex :=
        match rfind "/"%char p with None => 0 | Some sepIndex => S sepIndex end in
      if (filenameIndex <=? dotIndex)%nat
         && has_other "."%char (take (dotIndex - filenameIndex) (drop filenameIndex p))
      then (take dotIndex p, drop dotIndex p)
      else (p, EmptyString)
  end.

(** [str(n)] for a non-negative integer *)
Definition str_of_nat (n : nat) : string :=
  NilEmpty.string_of_uint (Nat.to_uint n).

(** [a > b] on strings *)
Definition gt (a b : string) : bool := String.ltb b a.

(** Truth value of an optional string: [None] and [''] are false *)
Definition truthy (v : option string) : bool :=
  match v with
  | None | Some EmptyString => false
  | Some _ => true
  end.

End Py.

(** ** Exceptions *)

Inductive exc (A : Type) : Type :=
| Ok (a : A)
| Raise (e : string).
Arguments Ok {A} a.
Arguments Raise {A} e.

Definition bind_exc {A B : Type} (m : exc A) (k : A -> exc B) : exc B :=
  match m with
  | Ok a => k a
  | Raise e => Raise e
  end.

(** [try: body  except Exception as e: handler(e)] *)
Definition try_except {A : Type} (body : exc A) (handler : string -> exc A) : exc A :=
  match body with
  | Ok a => Ok a
  | Raise e => handler e
  end.

(** ** Paths and the disk *)

Module Path.

(** [str(Path(d) / seg)] for a directory [d] in normal form.  An absolute
    [seg] replaces [d]; an empty one leaves it.  Separators and dots that
    [seg] holds inside are kept as written. *)
Definition div (d seg : string) : string :=
  if String.eqb seg EmptyString then d
  else if Py.startswith seg "/" then seg
  else if String.eqb d "." then seg
  else if Py.endswith d "/" then d +:+ seg
  else d +:+ "/" +:+ seg.

(** [str(Path(p).parent)] *)
Definition parent (p : string) : string :=
  match Py.rfind "/"%char p with
  | None => "."
  | Some 0 => "/"
  | Some i => Py.take i p
  end.

(** The directory [p] and the directories above it, outermost first *)
Fixpoint parents_from (pre s : string) : list string :=
  match s with
  | EmptyString => [pre]
  | String c r =>
      if Ascii.eqb c "/"%char
      then (if String.eqb pre EmptyString then [] else [pre])
           ++ parents_from (pre +:+ "/") r
      else parents_from (pre +:+ String c EmptyString) r
  end.

Definition with_parents (p : string) : list string :=
  parents_from EmptyString p.

End Path.

(** ** Dictionaries that keep insertion order *)

Module Dict.

(** [d.get(k)] *)
Fixpoint get {V : Type} (k : string) (d : list (string * V)) : option V :=
  match d with
  | [] => None
  | (k', v) :: r => if String.eqb k' k then Some v else get k r
  end.

(** [d[k] = v]: an existing key keeps its place, a new one goes last *)
Fixpoint set {V : Type} (k : string) (v : V) (d : list (string * V))
  : list (string * V) :=
  match d with
  | [] => [(k, v)]
  | (k', v') :: r =>
      if String.eqb k' k then (k, v) :: r else (k', v') :: set k v r
  end.

End Dict.

(** ** Notes and index entries *)

(** The [tags] value of a note: a list of strings or a single string *)
Inductive tags_value : Type :=
| TagList (l : list string)
| TagStr (s : string).

(** A note [dict], with the keys the exporter reads *)
Module Note.
Record t : Type := Build {
  docGuid : option string;
  guid : option string;
  title : option string;
  dataModified : option string;
  modified : option string;
  created : option string;
  tags : option tags_value;
  author : option string;
}.

(** [note.get('docGuid', note.get('guid', ''))] *)
Definition the_guid (n : t) : string :=
  match docGuid n with
  | Some g => g
  | None => default EmptyString (guid n)
  end.

(** [note.get('dataModified', note.get('modified', ''))] *)
Definition the_modified (n : t) : string :=
  match dataModified n with
  | Some m => m
  | None => default EmptyString (modified n)
  end.

(** [note.get('title', 'Untitled')] *)
Definition the_title (n : t) : string := default "Untitled" (title n).
End Note.

(** An entry of the note index *)
Module Entry.
Record t : Type := Build {
  title : string;
  file_path : string;
  team : string;
  folder : string;
  created : option string;
  modified : option string;
  tags : tags_value;
  format : string;
  saved_at : string;
}.
End Entry.

(** ** storage.py: class LocalStorage *)

Module LocalStorage.

(** The object ([base_path], [preserve_structure], [note_index]) and the
    disk it writes to ([files], [dirs]). *)
Record t : Type := Build {
  base_path : string;
  preserve_structure : bool;
  note_index : list (string * Entry.t);
  files : gmap string string;
  dirs : gset string;
}.

Definition with_index (self : t) (ix : list (string * Entry.t)) : t :=
  Build (base_path self) (preserve_structure self) ix (files self) (dirs self).

Definition with_files (self : t) (fs : gmap string string) : t :=
  Build (base_path self) (preserve_structure self) (note_index self) fs (dirs self).

Definition with_dirs (self : t) (ds : gset string) : t :=
  Build (base_path self) (preserve_structure self) (note_index self) (files self) ds.

(** *** The disk *)

Definition is_file (self : t) (p : string) : bool :=
  bool_decide (is_Some (files self !! p)).

(** The working directory and the root always exist. *)
Definition is_dir (self : t) (p : string) : bool :=
  String.eqb p "." || String.eqb p "/" || bool_decide (p ∈ dirs self).

(** [Path(p).exists()] *)
Definition exists_ (self : t) (p : string) : bool :=
  is_file self p || is_dir self p.

(** [Path(d).mkdir(parents=True, exist_ok=True)]: raises when [d] or a
    directory above it is a file. *)
Definition mkdir_parents (self : t) (d : string) : exc t :=
  if existsb (is_file self) (Path.with_parents d)
  then Raise "FileExistsError"
  else Ok (with_dirs self (list_to_set (Path.with_parents d) ∪ dirs self)).

(** [Path(d).mkdir(exist_ok=True)] *)
Definition mkdir (self : t) (d : string) : exc t :=
  if is_dir self d then Ok self
  else if is_file self d then Raise "FileExistsError"
  else if is_dir self (Path.parent d)
  then Ok (with_dirs self ({[ d ]} ∪ dirs self))
  else Raise "FileNotFoundError".

(** [with open(p, 'w') as f: f.write(content)] *)
Definition write_file (self : t) (p content : string) : exc t :=
  if is_dir self p then Raise "IsADirectoryError"
  else if is_dir self (Path.parent p)
  then Ok (with_files self (<[ p := content ]> (files self)))
  else Raise "FileNotFoundError".

(** *** Methods *)

(** The characters of [illegal_chars]: less-than, greater-than, colon,
    double quote, bar, question mark, star, carriage return, newline, tab *)
Definition illegal_chars : list ascii :=
  ["<"; ">"; ":"; "034"; "|"; "?"; "*"; "013"; "010"; "009"]%char.

Definition space_or_dot (c : ascii) : bool :=
  Ascii.eqb c " "%char || Ascii.eqb c "."%char.

Definition sanitize_filename (filename : string) : string :=
  let filename :=
    fold_left (fun f char => Py.replace_char char "_"%char f) illegal_chars filename in
  let filename := Py.strip space_or_dot filename in
  let '(name, ext) := Py.splitext filename in
  let name := if (200 <? String.length name)%nat then Py.take 200 name else name in
  name +:+ ext.

Definition get_team_path (self : t) (team_name : string) : string :=
  let safe_name := sanitize_filename team_name in
  Path.div (base_path self) safe_name.

(** The first identity, in the order of the index, whose entry records
    [file_path] *)
Fixpoint guid_by_path (ix : list (string * Entry.t)) (file_path : string)
  : option string :=
  match ix with
  | [] => None
  | (guid, info) :: r =>
      if String.eqb (Entry.file_path info) file_path then Some guid
      else guid_by_path r file_path
  end.

Definition get_note_guid_by_path (self : t) (file_path : string) : option string :=
  guid_by_path (note_index self) file_path.

Definition is_slash (c : ascii) : bool := Ascii.eqb c "/"%char.

Definition nonempty (s : string) : bool := negb (String.eqb s EmptyString).

(** The directory of the notes of [folder_path] *)
Definition note_dir_of (self : t) (team_name folder_path : string) : string :=
  let team_path := get_team_path self team_name in
  if preserve_structure self && nonempty folder_path then
    let folder_parts :=
      map sanitize_filename
          (filter (fun part => nonempty part = true)
                  (Py.split "/"%char (Py.strip is_slash folder_path))) in
    fold_left Path.div folder_parts team_path
  else team_path.

(** [f"{name}_{note_guid[:8]}{ext}"] with [name, ext = splitext(filename)] *)
Definition suffixed (filename note_guid : string) : string :=
  let '(name, ext) := Py.splitext filename in
  name +:+ "_" +:+ Py.take 8 note_guid +:+ ext.

Definition get_note_path (self : t) (team_name folder_path note_title note_guid : string)
  : exc (string * t) :=
  let note_dir := note_dir_of self team_name folder_path in
  match mkdir_parents self note_dir with
  | Raise e => Raise e
  | Ok self =>
      let safe_title := sanitize_filename note_title in
      let filename := safe_title +:+ ".md" in
      let file_path := Path.div note_dir filename in
      if exists_ self file_path then
        let existing_guid := get_note_guid_by_path self file_path in
        if negb (bool_decide (existing_guid = Some note_guid)) then
          Ok (Path.div note_dir (suffixed filename note_guid), self)
        else Ok (file_path, self)
      else Ok (file_path, self)
  end.

(** [save_note]: the result is [Ok (Some path)], [Ok None] when an
    exception was caught, or [Raise] when the [except] clause itself
    raises (it formats [note['title']]).  [now] is
    [datetime.now().isoformat()]. *)
Definition save_note (self : t) (team_name folder_path : string) (note : Note.t)
    (content format now : string) : exc (option string) * t :=
  match Note.title note with
  | None => (Raise "KeyError: 'title'", self)
  | Some title =>
      match Note.guid note with
      | None => (Ok None, self)
      | Some guid =>
          match get_note_path self team_name folder_path title guid with
          | Raise _ => (Ok None, self)
          | Ok (file_path, self) =>
              match write_file self file_path content with
              | Raise _ => (Ok None, self)
              | Ok self =>
                  let info :=
                    Entry.Build title file_path team_name folder_path
                      (Note.created note) (Note.modified note)
                      (default (TagList []) (Note.tags note)) format now in
                  (Ok (Some file_path),
                   with_index self (Dict.set guid info (note_index self)))
              end
          end
      end
  end.

Definition get_attachment_dir (note_path : string) : string :=
  Path.div (Path.parent note_path) "assets".

(** [f"{name}_{counter}{ext}"] below [attachment_dir] *)
Definition numbered (attachment_dir name ext : string) (counter : nat) : string :=
  Path.div attachment_dir (name +:+ "_" +:+ Py.str_of_nat counter +:+ ext).

(** The loop [while attachment_path.exists(): ...]; [None] when [fuel]
    iterations did not end it. *)
Fixpoint while_exists (self : t) (attachment_dir name ext : string)
    (attachment_path : string) (counter fuel : nat) : option string :=
  match fuel with
  | 0 => None
  | S fuel =>
      if exists_ self attachment_path
      then while_exists self attachment_dir name ext
             (numbered attachment_dir name ext counter) (S counter) fuel
      else Some attachment_path
  end.

(** Iterations that always suffice: one more than the paths that exist *)
Definition enough_fuel (self : t) : nat :=
  size (dom (files self)) + size (dirs self) + 4.

(** The path [save_attachment] opens, once [attachment_dir] is there *)
Definition free_attachment_path (self : t) (attachment_dir safe_name : string)
  : option string :=
  let attachment_path := Path.div attachment_dir safe_name in
  if exists_ self attachment_path then
    let '(name, ext) := Py.splitext safe_name in
    while_exists self attachment_dir name ext attachment_path 1 (enough_fuel self)
  else Some attachment_path.

Definition save_attachment (self : t) (note_path attachment_name content : string)
  : option string * t :=
  let attachment_dir := get_attachment_dir note_path in
  match mkdir self attachment_dir with
  | Raise _ => (None, self)
  | Ok self =>
      let safe_name := sanitize_filename attachment_name in
      match free_attachment_path self attachment_dir safe_name with
      | None => (None, self)
      | Some attachment_path =>
          match write_file self attachment_path content with
          | Raise _ => (None, self)
          | Ok self => (Some attachment_path, self)
          end
      end
  end.

Definition save_resource (self : t) (note_path resource_name content : string)
  : option string * t :=
  save_attachment self note_path resource_name content.

Definition is_note_modified (self : t) (note_guid modified_time : string) : bool :=
  match Dict.get note_guid (note_index self) with
  | None => true
  | Some saved_info =>
      let saved_modified := Entry.modified saved_info in
      if negb (Py.truthy saved_modified) then true
      else Py.gt modified_time (default EmptyString saved_modified)
  end.

(** *** [get_statistics] *)

(** [teams[team] += 1], a team that is new starting from [0] *)
Definition count_team (teams : list (string * nat)) (note_info : Entry.t)
  : list (string * nat) :=
  let team := Entry.team note_info in
  let teams :=
    match Dict.get team teams with
    | None => Dict.set team 0 teams
    | Some _ => teams
    end in
  Dict.set team (default 0 (Dict.get team teams) + 1) teams.

(** [p] lies below the directory [d] *)
Definition below (d p : string) : bool :=
  if String.eqb d "." then negb (Py.startswith p "/")
  else bool_decide (d ∈ Path.with_parents (Path.parent p)) && negb (String.eqb p d).

(** The result of [get_statistics]; [total_size_mb], a rounded quotient of
    [total_size], is left out. *)
Record statistics : Type := Build_statistics {
  stat_total_notes : nat;
  stat_teams : list (string * nat);
  stat_total_files : nat;
  stat_total_size : nat;
}.

Definition get_statistics (self : t) : statistics :=
  let total_notes := length (note_index self) in
  let teams := fold_left count_team (map snd (note_index self)) [] in
  let found :=
    List.filter (fun '(path, _) => below (base_path self) path)
      (map_to_list (files self)) in
  Build_statistics total_notes teams (length found)
    (fold_left (fun total_size '(_, content) => total_size + String.length content)
       found 0).

(** [LocalStorage(base_path, preserve_structure)] on an empty disk *)
Definition init (base_path : string) (preserve_structure : bool) : t :=
  let metadata_dir := Path.div base_path "_metadata" in
  Build base_path preserve_structure []
    ∅ (list_to_set (metadata_dir :: Path.with_parents base_path)).

End LocalStorage.

(** ** converter.py *)

(** The line feed, as a character and as a string *)
Definition LF : ascii := "010"%char.
Definition nl : string := String LF EmptyString.

(** [c in s] *)
Fixpoint contains_char (c : ascii) (s : string) : bool :=
  match s with
  | EmptyString => false
  | String a r => Ascii.eqb a c || contains_char c r
  end.

(** [s.replace(old, new)] for a non-empty [old], which is also
    [re.sub(old, new, s)] for a pattern without special characters: the
    occurrences are taken from the left and do not overlap.  [skip] counts
    the characters of a replaced occurrence that are still to be passed. *)
Fixpoint replace_from (old new : string) (skip : nat) (s : string) : string :=
  match s with
  | EmptyString => EmptyString
  | String c r =>
      match skip with
      | S k => replace_from old new k r
      | 0 =>
          if String.prefix old s
          then new +:+ replace_from old new (String.length old - 1) r
          else String c (replace_from old new 0 r)
      end
  end.

Definition replace (old new s : string) : string := replace_from old new 0 s.

(** A resource [dict] of the converter *)
Module Resource.
Record t : Type := Build {
  filename : string;
  type : string;
  data : option string;
  image_type : option string;
  original_src : option string;
}.
End Resource.

(** What the converter takes from outside the repository: [base64] and
    [hashlib] for inline images, and BeautifulSoup and html2text, on which
    [_preprocess_html] and [h2t.handle] rest.  Each may raise. *)
Record html_lib : Type := {
  b64decode : string -> exc string;
  md5_hexdigest : string -> string;
  preprocess_html : bool -> string -> list string -> exc (string * list Resource.t);
  h2t_handle : string -> exc string;
}.

(** The front-matter lines both [_add_metadata] methods share *)
Definition tags_truthy (v : option tags_value) : bool :=
  match v with
  | None | Some (TagList []) | Some (TagStr EmptyString) => false
  | Some _ => true
  end.

Definition tags_line (v : tags_value) : string :=
  match v with
  | TagList tags => "tags: [" +:+ Py.join ", " tags +:+ "]"
  | TagStr tags => "tags: [" +:+ tags +:+ "]"
  end.

Definition optional_line (key : string) (v : option string) : list string :=
  if Py.truthy v then [key +:+ ": " +:+ default EmptyString v] else [].

Definition optional_tags (v : option tags_value) : list string :=
  match v with
  | Some tags => if tags_truthy v then [tags_line tags] else []
  | None => []
  end.

Module HTMLToMarkdownConverter.

Record t : Type := Build {
  lib : html_lib;
  extract_images : bool;
  add_metadata : bool;
}.

(** The characters that [\w] matches, in the ASCII range: letters, digits
    and the underscore *)
Definition is_word (c : ascii) : bool :=
  let n := nat_of_ascii c in
  ((48 <=? n) && (n <=? 57) || (65 <=? n) && (n <=? 90)
   || (97 <=? n) && (n <=? 122) || (n =? 95))%nat.

(** The longest prefix of [s] whose characters satisfy [p] *)
Fixpoint span (p : ascii -> bool) (s : string) : string :=
  match s with
  | EmptyString => EmptyString
  | String c r => if p c then String c (span p r) else EmptyString
  end.

(** [re.match(r'data:image/(\w+);base64,(.+)', data_uri)]: the two groups.
    [\w+] is followed by a semicolon, which is no word character, and
    [.+] stops at a line feed, so both groups are the longest runs. *)
Definition match_data_uri (data_uri : string) : option (string * string) :=
  if Py.startswith data_uri "data:image/" then
    let rest := Py.drop 11 data_uri in
    let image_type := span is_word rest in
    let rest := Py.drop (String.length image_type) rest in
    if String.eqb image_type EmptyString then None
    else if Py.startswith rest ";base64," then
      let base64_data := span (fun c => negb (Ascii.eqb c LF)) (Py.drop 8 rest) in
      if String.eqb base64_data EmptyString then None
      else Some (image_type, base64_data)
    else None
  else None.


Definition _preprocess_html (self : t) (html_content : string) (resources : list string)
  : exc (string * list Resource.t) :=
  preprocess_html (lib self) (extract_images self) html_content resources.

(** The number of line feeds at the head of [s] *)
Fixpoint leading_newlines (s : string) : nat :=
  match s with
  | EmptyString => 0
  | String c r => if Ascii.eqb c LF then S (leading_newlines r) else 0
  end.

(** [re.sub(r'\n{3,}', '\n\n', s)]: where three or more line feeds start,
    the match takes all of them, the quantifier being greedy, and two are
    put in their place; [skip] counts the characters of the match that are
    still to be passed. *)
Fixpoint sub_newline_runs (skip : nat) (s : string) : string :=
  match s with
  | EmptyString => EmptyString
  | String c r =>
      match skip with
      | S k => sub_newline_runs k r
      | 0 =>
          if (3 <=? leading_newlines s)%nat
          then String LF (String LF (sub_newline_runs (leading_newlines s - 1) r))
          else String c (sub_newline_runs 0 r)
      end
  end.

Definition collapse_newlines (s : string) : string := sub_newline_runs 0 s.

(** The text before its lines are trimmed *)
Definition fix_fences (markdown_content : string) : string :=
  let markdown_content := collapse_newlines markdown_content in
  let markdown_content := replace ("```" +:+ nl +:+ nl) ("```" +:+ nl) markdown_content in
  replace (nl +:+ nl +:+ "```") (nl +:+ "```") markdown_content.

Definition _postprocess_markdown (markdown_content : string) : string :=
  let markdown_content := fix_fences markdown_content in
  let lines := Py.split LF markdown_content in
  let lines := map (Py.rstrip Py.isspace) lines in
  let markdown_content := Py.join nl lines in
  if negb (Py.endswith markdown_content nl) then markdown_content +:+ nl
  else markdown_content.

Definition _add_metadata (markdown_content : string) (note_info : Note.t) : string :=
  let metadata :=
    ["---"; "title: " +:+ Note.the_title note_info]
    ++ optional_line "created" (Note.created note_info)
    ++ optional_line "modified" (Note.modified note_info)
    ++ optional_tags (Note.tags note_info)
    ++ optional_line "author" (Note.author note_info)
    ++ ["---"; EmptyString] in
  Py.join nl metadata +:+ markdown_content.

(** The text between the heading and the fenced block of the fallback *)
Definition failure_notice : string := "转换失败，以下为原始HTML：".

Definition fallback (html_content : string) (note_info : Note.t) : string :=
  "# " +:+ Note.the_title note_info +:+ nl +:+ nl +:+ failure_notice +:+ nl +:+ nl
  +:+ "```html" +:+ nl +:+ html_content +:+ nl +:+ "```".

(** The body of the [try] block of [convert] *)
Definition convert_steps (self : t) (html_content : string) (note_info : Note.t)
    (resources : list string) : exc (string * list Resource.t) :=
  bind_exc (_preprocess_html self html_content resources) (fun '(processed_html, extracted_resources) =>
  bind_exc (h2t_handle (lib self) processed_html) (fun markdown_content =>
  let markdown_content := _postprocess_markdown markdown_content in
  let markdown_content :=
    if add_metadata self then _add_metadata markdown_content note_info
    else markdown_content in
  Ok (markdown_content, extracted_resources))).

Definition convert (self : t) (html_content : string) (note_info : Note.t)
    (resources : list string) : exc (string * list Resource.t) :=
  try_except (convert_steps self html_content note_info resources)
    (fun e => Ok (fallback html_content note_info, [])).

(** A note of [convert_batch] and the result for it *)
Record batch_note : Type := Build_batch_note {
  batch_html_content : option string;
  batch_info : option Note.t;
  batch_resources : option (list string);
  batch_title : option string;
  batch_guid : option string;
}.

Inductive batch_result : Type :=
| BatchConverted (guid : option string) (markdown_content : string)
    (extracted_resources : list Resource.t)
| BatchFailed (guid : option string) (error : string).

(** The empty [dict] that [note.get('info', {})] falls back to *)
Definition no_info : Note.t := Note.Build None None None None None None None None.

Definition convert_one (self : t) (note : batch_note) : batch_result :=
  let html_content := default EmptyString (batch_html_content note) in
  let note_info := default no_info (batch_info note) in
  let resources := default [] (batch_resources note) in
  match convert self html_content note_info resources with
  | Ok (markdown_content, extracted_resources) =>
      BatchConverted (Note.guid note_info) markdown_content extracted_resources
  | Raise e => BatchFailed (batch_guid note) e
  end.

Definition convert_batch (self : t) (notes : list batch_note) : list batch_result :=
  fold_left (fun results note => results ++ [convert_one self note]) notes [].

End HTMLToMarkdownConverter.

(** [re.sub(pattern, repl, s)] for a pattern that matches no empty text:
    [m s] is the length of the match of the pattern at the head of [s], the
    matches are taken from the left and do not overlap, and [skip] counts
    the characters of a match that are still to be passed. *)
Fixpoint re_sub (m : string -> option nat) (repl : string) (skip : nat) (s : string)
  : string :=
  match s with
  | EmptyString => EmptyString
  | String c r =>
      match skip with
      | S k => re_sub m repl k r
      | 0 =>
          match m s with
          | Some (S len) => repl +:+ re_sub m repl len r
          | _ => String c (re_sub m repl 0 r)
          end
      end
  end.

Definition not_char (a : ascii) (c : ascii) : bool := negb (Ascii.eqb c a).

(** The pattern [<[^>]+>]: an opening bracket, one character or more that
    are no closing bracket, taken as far as they go, and a closing bracket. *)
Definition match_tag (s : string) : option nat :=
  match s with
  | String c r =>
      if Ascii.eqb c "<"%char then
        let inner := HTMLToMarkdownConverter.span (not_char ">"%char) r in
        if String.eqb inner EmptyString then None
        else if Py.startswith (Py.drop (String.length inner) r) ">"
        then Some (String.length inner + 2)
        else None
      else None
  | EmptyString => None
  end.

(** The pattern of three backquotes, [\s*\n\s*] and three backquotes: the
    white space between the two fences, taken as far as it goes, holds a
    line feed. *)
Definition match_empty_fence (s : string) : option nat :=
  if Py.startswith s "```" then
    let space := HTMLToMarkdownConverter.span Py.isspace (Py.drop 3 s) in
    if contains_char LF space
       && Py.startswith (Py.drop (3 + String.length space) s) "```"
    then Some (String.length space + 6)
    else None
  else None.

Module DirectMarkdownHandler.

Definition _add_metadata (markdown_content : string) (note_info : Note.t) : string :=
  if Py.startswith markdown_content ("---" +:+ nl) then markdown_content
  else
    let metadata :=
      ["---"; "title: " +:+ Note.the_title note_info]
      ++ optional_line "created" (Note.created note_info)
      ++ optional_line "modified" (Note.modified note_info)
      ++ optional_tags (Note.tags note_info)
      ++ ["---"; EmptyString] in
    Py.join nl metadata +:+ markdown_content.

Definition _clean_markdown (content : string) : string :=
  let content := re_sub match_tag EmptyString 0 content in
  let content := HTMLToMarkdownConverter.collapse_newlines content in
  let content := re_sub match_empty_fence ("```" +:+ nl +:+ "```") 0 content in
  Py.strip Py.isspace content +:+ nl.

(** [process], [add_metadata] being the attribute of the handler *)
Definition process (add_metadata : bool) (markdown_content : string) (note_info : Note.t)
  : string :=
  let markdown_content := _clean_markdown markdown_content in
  if add_metadata then _add_metadata markdown_content note_info
  else markdown_content.

End DirectMarkdownHandler.

(** ** downloader.py *)

(** An attachment [dict] of the remote API *)
Module Attachment.
Record t : Type := Build {
  guid : option string;
  name : option string;
}.
End Attachment.

(** The API client, which is not part of the modelled files: each call is a
    function of its arguments that may raise.  A reply that Python takes
    for false ([None], an empty [dict] or an empty string) is [None] or the
    empty string. *)
Record api_client : Type := {
  get_all_folders : list string;
  get_all_notes_in_folder : string -> list Note.t;
  get_note_info : string -> exc (option Note.t);
  (** [download_note(guid)]: [None] for a reply that is false, [Some h] for
      a reply [d] with [d.get('html', '') = h] *)
  download_note : string -> exc (option string);
  get_note_html : string -> exc string;
  get_attachments : string -> exc (list Attachment.t);
  download_attachment : string -> string -> exc (option string);
}.

(** The keys of [config] the downloader reads *)
Record config : Type := {
  max_concurrent : nat;
  download_attachments : bool;
  incremental : bool;
  exclude_folders : list string;
  convert_to_markdown : bool;
  format_extract_images : bool;
}.

(** [self.stats], without the two wall-clock times *)
Record stats : Type := {
  total_notes : nat;
  downloaded_notes : nat;
  failed_notes : nat;
  skipped_notes : nat;
  total_attachments : nat;
  downloaded_attachments : nat;
  failed_attachments : nat;
  total_size : nat;
}.

(** An element of [self.failed_items] *)
Inductive failed_item : Type :=
| FailedNote (title guid error : string)
| FailedAttachment (name note_guid error : string).

Module NoteDownloader.

(** The downloader with the objects it holds.  [clock] is the reading of
    [datetime.now().isoformat()] during the run; [extract_resources] is
    [_extract_resources_from_html], a regular-expression scan whose result
    only reaches the converter and the log. *)
Record t : Type := Build {
  api : api_client;
  storage : LocalStorage.t;
  converter : option HTMLToMarkdownConverter.t;
  cfg : config;
  kb_name : string;
  stat : stats;
  failed_items : list failed_item;
  clock : string;
  extract_resources : string -> list string;
}.

Definition with_storage (self : t) (s : LocalStorage.t) : t :=
  Build (api self) s (converter self) (cfg self) (kb_name self) (stat self)
    (failed_items self) (clock self) (extract_resources self).

Definition with_stat (self : t) (s : stats) : t :=
  Build (api self) (storage self) (converter self) (cfg self) (kb_name self) s
    (failed_items self) (clock self) (extract_resources self).

Definition with_failed_items (self : t) (l : list failed_item) : t :=
  Build (api self) (storage self) (converter self) (cfg self) (kb_name self)
    (stat self) l (clock self) (extract_resources self).

(** [NoteDownloader(api_client, storage, converter)] *)
Definition init (a : api_client) (s : LocalStorage.t)
    (c : option HTMLToMarkdownConverter.t) (g : config) (now : string)
    (scan : string -> list string) : t :=
  Build a s c g "Personal" (Build_stats 0 0 0 0 0 0 0 0) [] now scan.

Definition set_kb_name (self : t) (name : string) : t :=
  Build (api self) (storage self) (converter self) (cfg self) name (stat self)
    (failed_items self) (clock self) (extract_resources self).

(** Increments of the counters *)
Definition add_total_notes (n : nat) (s : stats) : stats :=
  Build_stats (total_notes s + n) (downloaded_notes s) (failed_notes s) (skipped_notes s)
    (total_attachments s) (downloaded_attachments s) (failed_attachments s) (total_size s).
Definition add_downloaded_notes (s : stats) : stats :=
  Build_stats (total_notes s) (downloaded_notes s + 1) (failed_notes s) (skipped_notes s)
    (total_attachments s) (downloaded_attachments s) (failed_attachments s) (total_size s).
Definition add_failed_notes (s : stats) : stats :=
  Build_stats (total_notes s) (downloaded_notes s) (failed_notes s + 1) (skipped_notes s)
    (total_attachments s) (downloaded_attachments s) (failed_attachments s) (total_size s).
Definition add_skipped_notes (s : stats) : stats :=
  Build_stats (total_notes s) (downloaded_notes s) (failed_notes s) (skipped_notes s + 1)
    (total_attachments s) (downloaded_attachments s) (failed_attachments s) (total_size s).
Definition add_total_attachments (n : nat) (s : stats) : stats :=
  Build_stats (total_notes s) (downloaded_notes s) (failed_notes s) (skipped_notes s)
    (total_attachments s + n) (downloaded_attachments s) (failed_attachments s) (total_size s).
Definition add_downloaded_attachment (bytes : nat) (s : stats) : stats :=
  Build_stats (total_notes s) (downloaded_notes s) (failed_notes s) (skipped_notes s)
    (total_attachments s) (downloaded_attachments s + 1) (failed_attachments s)
    (total_size s + bytes).
Definition add_failed_attachments (s : stats) : stats :=
  Build_stats (total_notes s) (downloaded_notes s) (failed_notes s) (skipped_notes s)
    (total_attachments s) (downloaded_attachments s) (failed_attachments s + 1) (total_size s).

(** [note_info.update(full_note_info)] *)
Definition update (note_info full : Note.t) : Note.t :=
  let pick {A : Type} (f : Note.t -> option A) : option A :=
    match f full with Some v => Some v | None => f note_info end in
  Note.Build (pick Note.docGuid) (pick Note.guid) (pick Note.title)
    (pick Note.dataModified) (pick Note.modified) (pick Note.created)
    (pick Note.tags) (pick Note.author).

(** The four assignments that give both names to the identity and to the
    modification time *)
Definition normalize (n : Note.t) : Note.t :=
  let docGuid := match Note.docGuid n with None => Note.guid n | v => v end in
  let guid := match Note.guid n with None => docGuid | v => v end in
  let dataModified :=
    match Note.dataModified n with None => Note.modified n | v => v end in
  let modified := match Note.modified n with None => dataModified | v => v end in
  Note.Build docGuid guid (Note.title n) dataModified modified
    (Note.created n) (Note.tags n) (Note.author n).

(** One turn of the loop of [_download_attachments] *)
Definition download_one_attachment (note_guid note_path : string)
    (self : t) (attachment : Attachment.t) : t :=
  let att_guid := default EmptyString (Attachment.guid attachment) in
  let att_name := default "attachment" (Attachment.name attachment) in
  if String.eqb att_guid EmptyString then self
  else
    match download_attachment (api self) note_guid att_guid with
    | Raise e =>
        let self := with_stat self (add_failed_attachments (stat self)) in
        with_failed_items self
          (failed_items self ++ [FailedAttachment att_name note_guid e])
    | Ok content =>
        if Py.truthy content then
          let content := default EmptyString content in
          let '(_, s) := LocalStorage.save_attachment (storage self) note_path att_name content in
          let self := with_storage self s in
          with_stat self (add_downloaded_attachment (String.length content) (stat self))
        else with_stat self (add_failed_attachments (stat self))
    end.

Definition _download_attachments (self : t) (note_guid note_path : string)
    (attachments : list Attachment.t) : t :=
  fold_left (download_one_attachment note_guid note_path) attachments self.

(** The loop over [extracted_resources] after a note was saved *)
Definition save_extracted (note_path : string) (self : t) (resource : Resource.t) : t :=
  if String.eqb (Resource.type resource) "base64" && Py.truthy (Resource.data resource)
  then
    let '(_, s) :=
      LocalStorage.save_resource (storage self) note_path
        (Resource.filename resource) (default EmptyString (Resource.data resource)) in
    with_storage self s
  else self.

(** The part of [_download_note] that follows the saving of the note *)
Definition after_save (self : t) (note_guid : string) (note_path : option string)
  : bool * t :=
  match note_path with
  | None => (false, self)
  | Some note_path =>
      match get_attachments (api self) note_guid with
      | Raise _ => (false, self)
      | Ok attachments =>
          let self :=
            if negb (bool_decide (attachments = [])) && download_attachments (cfg self)
            then
              let self :=
                with_stat self (add_total_attachments (length attachments) (stat self)) in
              _download_attachments self note_guid note_path attachments
            else self in
          (true, self)
      end
  end.

(** The part of [_download_note] that follows the fetch of the content *)
Definition store_content (self : t) (folder_path note_guid html_content : string)
    (note_info : Note.t) : bool * t :=
  let resources := extract_resources self html_content in
  match converter self with
  | Some conv =>
      if convert_to_markdown (cfg self) then
        match HTMLToMarkdownConverter.convert conv html_content note_info resources with
        | Raise _ => (false, self)
        | Ok (markdown_content, extracted_resources) =>
            match LocalStorage.save_note (storage self) (kb_name self) folder_path
                    note_info markdown_content "md" (clock self) with
            | (Raise _, s) => (false, with_storage self s)
            | (Ok note_path, s) =>
                let self := with_storage self s in
                let self :=
                  match note_path with
                  | Some p => fold_left (save_extracted p) extracted_resources self
                  | None => self
                  end in
                after_save self note_guid note_path
            end
        end
      else
        match LocalStorage.save_note (storage self) (kb_name self) folder_path
                note_info html_content "html" (clock self) with
        | (Raise _, s) => (false, with_storage self s)
        | (Ok note_path, s) => after_save (with_storage self s) note_guid note_path
        end
  | None =>
      match LocalStorage.save_note (storage self) (kb_name self) folder_path
              note_info html_content "html" (clock self) with
      | (Raise _, s) => (false, with_storage self s)
      | (Ok note_path, s) => after_save (with_storage self s) note_guid note_path
      end
  end.

(** [_download_note]: the whole body is a [try] whose [except] returns
    [False], so the result is never an exception; the note is returned
    as the method leaves it, since it updates the caller's [dict]. *)
Definition _download_note (self : t) (folder_path : string) (note_info : Note.t)
  : exc bool * Note.t * t :=
  let note_guid := Note.the_guid note_info in
  match get_note_info (api self) note_guid with
  | Raise _ => (Ok false, note_info, self)
  | Ok full_note_info =>
      let note_info :=
        match full_note_info with
        | Some full => update note_info full
        | None => note_info
        end in
      let note_info := normalize note_info in
      match download_note (api self) note_guid with
      | Raise _ => (Ok false, note_info, self)
      | Ok None => (Ok false, note_info, self)
      | Ok (Some html_content) =>
          if String.eqb html_content EmptyString then
            match get_note_html (api self) note_guid with
            | Raise _ => (Ok false, note_info, self)
            | Ok html_content =>
                if String.eqb html_content EmptyString
                then (Ok false, note_info, self)
                else
                  let '(ok, self) :=
                    store_content self folder_path note_guid html_content note_info in
                  (Ok ok, note_info, self)
            end
          else
            let '(ok, self) :=
              store_content self folder_path note_guid html_content note_info in
            (Ok ok, note_info, self)
      end
  end.

(** The loop that selects the notes to download *)
Definition select_note (acc : list Note.t * t) (note : Note.t) : list Note.t * t :=
  let '(notes_to_download, self) := acc in
  if incremental (cfg self)
     && negb (LocalStorage.is_note_modified (storage self)
                (Note.the_guid note) (Note.the_modified note))
  then (notes_to_download, with_stat self (add_skipped_notes (stat self)))
  else (notes_to_download ++ [note], self).

(** One completed future of [_download_folder] *)
Definition complete_note (folder_path : string) (self : t) (note : Note.t) : t :=
  match _download_note self folder_path note with
  | (Ok success, _, self) =>
      if success then with_stat self (add_downloaded_notes (stat self))
      else with_stat self (add_failed_notes (stat self))
  | (Raise e, note, self) =>
      let self := with_stat self (add_failed_notes (stat self)) in
      with_failed_items self
        (failed_items self ++ [FailedNote (Note.the_title note) (Note.the_guid note) e])
  end.

(** [_download_folder]: the notes are downloaded by a pool of threads and
    their futures are handled as they complete; here they complete one
    after the other, in the order in which they were submitted. *)
Definition _download_folder (self : t) (folder_path : string) : t :=
  let notes := get_all_notes_in_folder (api self) folder_path in
  match notes with
  | [] => self
  | _ =>
      let self := with_stat self (add_total_notes (length notes) (stat self)) in
      let '(notes_to_download, self) := fold_left select_note notes ([], self) in
      fold_left (complete_note folder_path) notes_to_download self
  end.

(** [download_all]: the index and the synchronisation state, which are
    written below [_metadata] at the end, are not among the files of
    the model. *)
Definition download_all (self : t) (folders_filter : list string) : t :=
  let all_folders := get_all_folders (api self) in
  match all_folders with
  | [] => self
  | _ =>
      let folders_to_process :=
        match folders_filter with
        | _ :: _ =>
            filter (fun f => f ∈ folders_filter) all_folders
        | [] =>
            match exclude_folders (cfg self) with
            | _ :: _ =>
                filter (fun f => existsb (fun ex => Py.startswith f ex)
                                   (exclude_folders (cfg self)) = false)
                       all_folders
            | [] => all_folders
            end
        end in
      fold_left _download_folder folders_to_process self
  end.

(** *** [_extract_resources_from_html] *)

Definition dquote : ascii := "034"%char.

(** The text [src=] followed by a double quote *)
Definition src_open : string := "src=" +:+ String dquote EmptyString.

(** The rest of the pattern after [<img[^>]+], tried at the offset [k] of
    [rest] and then at the smaller ones, as the greedy [[^>]+] gives
    characters back: [src=], a double quote, one character or more that
    are no double quote, and a double quote.  The result is the group and
    the length of what is matched from [rest]. *)
Fixpoint find_src (k : nat) (rest : string) : option (string * nat) :=
  match k with
  | 0 => None
  | S k' =>
      let t := Py.drop k rest in
      let group :=
        HTMLToMarkdownConverter.span (not_char dquote) (Py.drop 5 t) in
      if Py.startswith t src_open
         && negb (String.eqb group EmptyString)
         && Py.startswith (Py.drop (5 + String.length group) t) (String dquote EmptyString)
      then Some (group, k + 5 + String.length group + 1)
      else find_src k' rest
  end.

(** The match of [img_pattern] at the head of [s]: its group and its length *)
Definition match_img (s : string) : option (string * nat) :=
  if Py.startswith s "<img" then
    let rest := Py.drop 4 s in
    let run := HTMLToMarkdownConverter.span (not_char ">"%char) rest in
    match find_src (String.length run) rest with
    | Some (group, len) => Some (group, 4 + len)
    | None => None
    end
  else None.

(** [[m.group(1) for m in re.finditer(img_pattern, s)]] *)
Fixpoint img_sources (skip : nat) (s : string) : list string :=
  match s with
  | EmptyString => []
  | String c r =>
      match skip with
      | S k => img_sources k r
      | 0 =>
          match match_img s with
          | Some (group, S len) => group :: img_sources len r
          | _ => img_sources 0 r
          end
      end
  end.

(** [os.path.basename(p)] *)
Definition basename (p : string) : string :=
  match Py.rfind "/"%char p with
  | None => p
  | Some i => Py.drop (S i) p
  end.

Definition is_external (src : string) : bool :=
  Py.startswith src "http://" || Py.startswith src "https://"
  || Py.startswith src "data:".

(** One turn of the loop over the matches *)
Definition add_resource (resources : list string) (src : string) : list string :=
  if negb (is_external src) then
    let resource_name := basename src in
    if negb (String.eqb resource_name EmptyString)
       && negb (bool_decide (resource_name ∈ resources))
    then resources ++ [resource_name]
    else resources
  else resources.

Definition _extract_resources_from_html (html_content : string) : list string :=
  fold_left add_resource (img_sources 0 html_content) [].

End NoteDownloader.


(** ** Notions used in the statements *)


(** The collapse of the runs of line feeds in one pass: [run] is the number
    of line feeds read since the last other character, which are written,
    two for three or more, when the run ends. *)
Definition flush (run : nat) (k : string) : string :=
  if (3 <=? run)%nat then String LF (String LF k)
  else Nat.iter run (String LF) k.

Fixpoint collapse_from (run : nat) (s : string) : string :=
  match s with
  | EmptyString => flush run EmptyString
  | String c r =>
      if Ascii.eqb c LF then collapse_from (S run) r
      else flush run (String c (collapse_from 0 r))
  end.







(** [t] is [s] without some of its line feeds *)
Inductive del_lf : string -> string -> Prop :=
| del_nil : del_lf EmptyString EmptyString
| del_keep (c : ascii) (s t : string) : del_lf s t -> del_lf (String c s) (String c t)
| del_drop (s t : string) : del_lf s t -> del_lf (String LF s) t.

(** An element of the failure list that stands for a note *)
Definition is_failed_note (item : failed_item) : bool :=
  match item with
  | FailedNote _ _ _ => true
  | FailedAttachment _ _ _ => false
  end.

(** The entries of the failure list that stand for notes *)
Definition failed_note_entries (self : NoteDownloader.t) : list failed_item :=
  List.filter is_failed_note (NoteDownloader.failed_items self).




(** The attachment has an identity: [attachment.get('guid', '')] is not empty *)
Definition has_identity (attachment : Attachment.t) : bool :=
  negb (String.eqb (default EmptyString (Attachment.guid attachment)) EmptyString).

(** The notes and the attachments that the counters tell the outcome of *)
Definition settled_notes (s : stats) : nat :=
  downloaded_notes s + failed_notes s + skipped_notes s.

Definition settled_attachments (s : stats) : nat :=
  downloaded_attachments s + failed_attachments s.

(** The four counters of notes *)
Definition note_counters (s : stats) : nat * nat * nat * nat :=
  (total_notes s, downloaded_notes s, failed_notes s, skipped_notes s).

(** Every file, directory and index entry of [s] is still there in [s'] *)
Definition nothing_removed (s s' : LocalStorage.t) : Prop :=
  dom (LocalStorage.files s) ⊆ dom (LocalStorage.files s')
  /\ LocalStorage.dirs s ⊆ LocalStorage.dirs s'
  /\ forall guid, is_Some (Dict.get guid (LocalStorage.note_index s)) ->
                  is_Some (Dict.get guid (LocalStorage.note_index s')).

(** The attachments were counted at most once: the settled ones grew by
    no more than the total *)
Definition attachments_within_total (s s' : stats) : Prop :=
  settled_attachments s' + total_attachments s
  <= settled_attachments s + total_attachments s'.

(** No match of the tag pattern in [s]: every opening bracket is followed
    at once by a closing one, or by no closing one at all *)
Fixpoint tag_free (s : string) : bool :=
  match s with
  | EmptyString => true
  | String c r =>
      (if Ascii.eqb c "<"%char
       then Py.startswith r ">" || negb (contains_char ">"%char r)
       else true)
      && tag_free r
  end.

(** [t] is [s] without some of its white space *)
Inductive del_space : string -> string -> Prop :=
| dsp_nil : del_space EmptyString EmptyString
| dsp_keep (c : ascii) (s t : string) :
    del_space s t -> del_space (String c s) (String c t)
| dsp_drop (c : ascii) (s t : string) :
    Py.isspace c = true -> del_space s t -> del_space (String c s) t.

(** [s'] has the index of [s] and every file of [s] *)
Definition index_kept (s s' : LocalStorage.t) : Prop :=
  LocalStorage.note_index s' = LocalStorage.note_index s
  /\ dom (LocalStorage.files s) ⊆ dom (LocalStorage.files s').

(** ** Sample data *)

(** A store whose index holds one note, saved with the modification time [m] *)
Definition one_entry (m : option string) : Entry.t :=
  Entry.Build "T" "out/Personal/T.md" "Personal" "" None m (TagList []) "md" "t0".

Definition one_note_store (g : string) (m : option string) : LocalStorage.t :=
  LocalStorage.Build "out" true [(g, one_entry m)]
    {[ "out/Personal/T.md" := "text" ]} {[ "out"; "out/Personal" ]}.

(** Stand-ins for the libraries: the decoder rejects a text that holds an
    exclamation mark at its head, the digest is the text itself followed by
    zeros, the HTML parser and the renderer reject a text that starts with
    an opening bracket without a name. *)
Definition sample_lib : html_lib := {|
  b64decode := fun s => if Py.startswith s "!" then Raise "binascii.Error" else Ok s;
  md5_hexdigest := fun s => s +:+ "00000000";
  preprocess_html := fun _ h _ => Ok (h, []);
  h2t_handle := fun h => if Py.startswith h "< " then Raise "AssertionError" else Ok h;
|}.

Definition sample_converter : HTMLToMarkdownConverter.t :=
  HTMLToMarkdownConverter.Build sample_lib true true.

Definition sample_note (g t : string) (m : option string) : Note.t :=
  Note.Build None (Some g) (Some t) None m None None None.

(** A store in which the note [T] has the attachment [a.txt] twice *)
Definition store_with_attachments : LocalStorage.t :=
  LocalStorage.Build "out" true [("g1", one_entry (Some "2024-01-01"))]
    {[ "out/Personal/T.md" := "text";
       "out/Personal/assets/a.txt" := "first";
       "out/Personal/assets/a_1.txt" := "second" ]}
    {[ "out"; "out/Personal"; "out/Personal/assets" ]}.

(** A remote source with one folder of three notes.  The note [empty_guid]
    has no content: its reply holds no HTML and the separate request for
    the HTML is empty too.  The first note has one attachment. *)
Definition three_notes (m : option string) : list Note.t :=
  [sample_note "g1" "Alpha" m; sample_note "g2" "Beta" m; sample_note "g3" "Gamma" m].

Definition sample_api (m : option string) (empty_guid : string) : api_client := {|
  get_all_folders := ["/Notes/Work/"];
  get_all_notes_in_folder :=
    fun folder_path =>
      if String.eqb folder_path "/Notes/Work/" then three_notes m else [];
  get_note_info := fun _ => Ok None;
  download_note :=
    fun guid => if String.eqb guid empty_guid then Ok (Some EmptyString)
                else Ok (Some ("<p>" +:+ guid +:+ "</p>"));
  get_note_html := fun _ => Ok EmptyString;
  get_attachments :=
    fun guid => if String.eqb guid "g1"
                then Ok [Attachment.Build (Some "a1") (Some "a.txt")]
                else Ok [];
  download_attachment := fun _ _ => Ok (Some "bytes");
|}.

Definition sample_config (incr : bool) : config := {|
  max_concurrent := 4;
  download_attachments := true;
  incremental := incr;
  exclude_folders := [];
  convert_to_markdown := true;
  format_extract_images := true;
|}.

(** A run of the exporter on the sample source, from the store [s] *)
Definition sample_downloader (m : option string) (empty_guid : string) (incr : bool)
    (s : LocalStorage.t) (now : string) : NoteDownloader.t :=
  NoteDownloader.init (sample_api m empty_guid) s
    (Some (HTMLToMarkdownConverter.Build sample_lib true false))
    (sample_config incr) now (fun _ => []).

Definition sample_run (m : option string) (empty_guid : string) (incr : bool)
    (s : LocalStorage.t) (now : string) : NoteDownloader.t :=
  NoteDownloader.download_all (sample_downloader m empty_guid incr s now) [].

(** A first run on an empty store, and a second run on the store it leaves *)
Definition first_run (m : option string) (empty_guid : string) (incr : bool)
  : NoteDownloader.t :=
  sample_run m empty_guid incr (LocalStorage.init "out" true) "t1".

Definition first_run_store (m : option string) (empty_guid : string) (incr : bool)
  : LocalStorage.t :=
  NoteDownloader.storage (first_run m empty_guid incr).


(** Two notes of one title saved into an empty store, and the first saved
    again *)
Definition saved_once : exc (option string) * LocalStorage.t :=
  LocalStorage.save_note (LocalStorage.init "out" true) "Personal" "/Work/"
    (sample_note "11111111-aaaa" "Plan" None) "one" "md" "t1".

Definition saved_other : exc (option string) * LocalStorage.t :=
  LocalStorage.save_note (snd saved_once) "Personal" "/Work/"
    (sample_note "22222222-bbbb" "Plan" None) "two" "md" "t2".

Definition saved_again : exc (option string) * LocalStorage.t :=
  LocalStorage.save_note (snd saved_other) "Personal" "/Work/"
    (sample_note "11111111-aaaa" "Plan" None) "one again" "md" "t3".

(** A remote source whose only note has no title, neither in the listing
    nor in its full information *)
Definition untitled_note : Note.t :=
  Note.Build None (Some "g9") None None (Some "2024-01-01") None None None.

Definition untitled_api : api_client := {|
  get_all_folders := ["/Notes/"];
  get_all_notes_in_folder := fun _ => [untitled_note];
  get_note_info :=
    fun guid => Ok (Some (Note.Build (Some guid) None None None None (Some "2023-12-31")
                            None None));
  download_note := fun _ => Ok (Some "<p>text</p>");
  get_note_html := fun _ => Ok EmptyString;
  get_attachments := fun _ => Ok [];
  download_attachment := fun _ _ => Ok None;
|}.

Definition untitled_downloader : NoteDownloader.t :=
  NoteDownloader.init untitled_api (LocalStorage.init "out" true)
    (Some sample_converter) (sample_config false) "t1" (fun _ => []).


(** The download of the second note of the sample source into an empty
    store *)
Definition downloaded_beta : exc bool * Note.t * NoteDownloader.t :=
  NoteDownloader._download_note
    (sample_downloader (Some "2024-01-01") "none" false (LocalStorage.init "out" true) "t1")
    "/Notes/Work/" (sample_note "g2" "Beta" (Some "2024-01-01")).

(** A store in which a file stands where the attachment directory of the
    note would be, and a downloader on it *)
Definition blocked_store : LocalStorage.t :=
  LocalStorage.Build "out" true [("g1", one_entry (Some "2024-01-01"))]
    {[ "out/Personal/T.md" := "text"; "out/Personal/assets" := "not a directory" ]}
    {[ "out"; "out/Personal" ]}.

Definition blocked_downloader : NoteDownloader.t :=
  sample_downloader (Some "2024-01-01") "none" false blocked_store "t1".

(** The sample source with a request for the attachments that fails *)
Definition unlisted_api : api_client := {|
  get_all_folders := ["/Notes/Work/"];
  get_all_notes_in_folder := fun _ => three_notes (Some "2024-01-01");
  get_note_info := fun _ => Ok None;
  download_note := fun guid => Ok (Some ("<p>" +:+ guid +:+ "</p>"));
  get_note_html := fun _ => Ok EmptyString;
  get_attachments := fun _ => Raise "ConnectionError";
  download_attachment := fun _ _ => Ok None;
|}.

Definition unlisted_downloader : NoteDownloader.t :=
  NoteDownloader.init unlisted_api (LocalStorage.init "out" true)
    (Some sample_converter) (sample_config false) "t1" (fun _ => []).
(** * Properties *)

(** Closed goals are settled by evaluation; an equation between finite
    sets or maps is first turned into its decision. *)
Ltac by_compute := vm_compute; reflexivity.
Ltac by_decide := apply (bool_decide_eq_true_1 _); vm_compute; reflexivity.

(** ** Strings *)

Lemma app_cons (x : ascii) (a b : string) : String x a +:+ b = String x (a +:+ b).
Proof. reflexivity. Qed.

Lemma length_app (a b : string) :
  String.length (a +:+ b) = String.length a + String.length b.
Proof. induction a as [|c a IH]; simpl; [reflexivity | now rewrite IH]. Qed.

Lemma app_assoc_s (a b c : string) : (a +:+ b) +:+ c = a +:+ (b +:+ c).
Proof. induction a as [|x a IH]; [reflexivity | rewrite !app_cons; now f_equal]. Qed.

Lemma app_empty_r (a : string) : a +:+ EmptyString = a.
Proof. induction a as [|x a IH]; [reflexivity | rewrite app_cons; now f_equal]. Qed.


Lemma list_of_app (a b : string) :
  String.list_ascii_of_string (a +:+ b) = String.list_ascii_of_string a ++ String.list_ascii_of_string b.
Proof.
  induction a as [|x a IH]; [reflexivity |].
  rewrite app_cons. simpl. now f_equal.
Qed.

Lemma list_of_string_inj (a b : string) :
  String.list_ascii_of_string a = String.list_ascii_of_string b -> a = b.
Proof.
  intros H. rewrite <- (String.string_of_list_ascii_of_string a),
    <- (String.string_of_list_ascii_of_string b). now rewrite H.
Qed.

Lemma app_inv_tail_s (a b c : string) : a +:+ c = b +:+ c -> a = b.
Proof.
  intros H. apply list_of_string_inj.
  apply (f_equal String.list_ascii_of_string) in H. rewrite !list_of_app in H.
  now apply app_inv_tail in H.
Qed.

Lemma take_drop (n : nat) (s : string) : Py.take n s +:+ Py.drop n s = s.
Proof.
  revert s; induction n as [|n IH]; intros [|c s]; simpl; try reflexivity.
  rewrite app_cons. now rewrite IH.
Qed.

Lemma prefix_app (p s : string) : String.prefix p s = true -> exists r, s = p +:+ r.
Proof.
  revert s; induction p as [|a p IH]; intros s H.
  - now exists s.
  - destruct s as [|b s]; [discriminate|]. simpl in H.
    destruct (ascii_dec a b) as [E|]; [subst b|discriminate].
    destruct (IH _ H) as [r ->]. now exists r.
Qed.

Lemma prefix_of_app (p r : string) : String.prefix p (p +:+ r) = true.
Proof.
  induction p as [|a p IH]; [now destruct r|].
  rewrite app_cons. simpl. destruct (ascii_dec a a); [exact IH | congruence].
Qed.

(** [splitext] cuts its argument in two. *)
Lemma splitext_app (p : string) : fst (Py.splitext p) +:+ snd (Py.splitext p) = p.
Proof.
  unfold Py.splitext. destruct (Py.rfind "."%char p) as [d|]; simpl.
  - match goal with |- context [if ?b then _ else _] => destruct b end; simpl.
    + apply take_drop.
    + apply app_empty_r.
  - apply app_empty_r.
Qed.

(** ** The primitives on sample values *)

Example splitext_samples :
  Py.splitext "archive.tar.gz" = ("archive.tar", ".gz")
  /\ Py.splitext ".bashrc" = (".bashrc", EmptyString)
  /\ Py.splitext "a.b/c" = ("a.b/c", EmptyString)
  /\ Py.splitext "Plan.md" = ("Plan", ".md").
Proof. repeat split. Qed.

Example sanitize_filename_samples :
  LocalStorage.sanitize_filename " ..a:b?.txt. " = "a_b_.txt"
  /\ LocalStorage.sanitize_filename "T." = "T"
  /\ LocalStorage.sanitize_filename "..." = EmptyString.
Proof. repeat split. Qed.

Example path_samples :
  Path.div "out" "Personal" = "out/Personal"
  /\ Path.div "out" "/etc/x.md" = "/etc/x.md"
  /\ Path.div "out" EmptyString = "out"
  /\ Path.parent "out/Personal/T.md" = "out/Personal"
  /\ Path.with_parents "out/Personal/Work" = ["out"; "out/Personal"; "out/Personal/Work"]
  /\ LocalStorage.get_attachment_dir "out/Personal/T.md" = "out/Personal/assets"
  /\ LocalStorage.note_dir_of (LocalStorage.init "out" true) "Personal" "/Notes/Work/"
     = "out/Personal/Notes/Work"
  /\ LocalStorage.note_dir_of (LocalStorage.init "out" false) "Personal" "/Notes/Work/"
     = "out/Personal".
Proof. repeat split. Qed.

Example string_samples :
  Py.split LF ("a" +:+ nl +:+ nl +:+ "b") = ["a"; EmptyString; "b"]
  /\ Py.join ", " ["x"; "y"; "z"] = "x, y, z"
  /\ Py.rstrip Py.isspace "a b  " = "a b"
  /\ Py.str_of_nat 12 = "12"
  /\ Py.gt "2024-01-02" "2024-01-01" = true
  /\ Py.gt "2024-01-01" "2024-01-01" = false
  /\ replace "aa" "b" "aaaaa" = "bba".
Proof. repeat split. Qed.

Example postprocess_samples :
  HTMLToMarkdownConverter.collapse_newlines ("a" +:+ nl +:+ nl +:+ nl +:+ nl +:+ nl +:+ "b")
  = "a" +:+ nl +:+ nl +:+ "b"
  /\ HTMLToMarkdownConverter._postprocess_markdown
       ("```" +:+ nl +:+ nl +:+ "code  " +:+ nl +:+ nl +:+ "```")
     = "```" +:+ nl +:+ "code" +:+ nl +:+ "```" +:+ nl
  /\ HTMLToMarkdownConverter._postprocess_markdown EmptyString = nl.
Proof. repeat split. Qed.

Example data_uri_samples :
  HTMLToMarkdownConverter.match_data_uri "data:image/png;base64,iVBORw0KGgo="
  = Some ("png", "iVBORw0KGgo=")
  /\ HTMLToMarkdownConverter.match_data_uri "data:image/svg+xml;base64,AAAA" = None
  /\ HTMLToMarkdownConverter.match_data_uri "data:text/plain;base64,AAAA" = None.
Proof. repeat split. Qed.

(** ** The index of notes: [is_note_modified] *)

Section IsNoteModified.
Import LocalStorage.
Variable self : LocalStorage.t.

Lemma not_in_index_modified (note_guid modified_time : string) :
  Dict.get note_guid (note_index self) = None ->
  is_note_modified self note_guid modified_time = true.
Proof. unfold is_note_modified. now intros ->. Qed.

Lemma marker_compared (note_guid modified_time : string) (info : Entry.t) (M : string) :
  Dict.get note_guid (note_index self) = Some info ->
  Entry.modified info = Some M ->
  M <> EmptyString ->
  is_note_modified self note_guid modified_time = Py.gt modified_time M.
Proof.
  unfold is_note_modified. intros -> -> HM.
  destruct M; [congruence | reflexivity].
Qed.

Lemma no_marker_modified (note_guid modified_time : string) (info : Entry.t) :
  Dict.get note_guid (note_index self) = Some info ->
  Py.truthy (Entry.modified info) = false ->
  is_note_modified self note_guid modified_time = true.
Proof. unfold is_note_modified. now intros -> ->. Qed.
End IsNoteModified.

(** C1, as it is stated, fails: an entry whose stored modification time is
    the empty string makes [is_note_modified] answer [True] for the empty
    remote time, which is not greater than the stored one. *)
Lemma is_note_modified_empty_marker_counterexample :
  LocalStorage.is_note_modified (one_note_store "g1" (Some EmptyString)) "g1" EmptyString
  = true
  /\ Py.gt EmptyString EmptyString = false
  /\ ~ (forall (self : LocalStorage.t) (note_guid M' M : string) (info : Entry.t),
          Dict.get note_guid (LocalStorage.note_index self) = Some info ->
          Entry.modified info = Some M ->
          (LocalStorage.is_note_modified self note_guid M' = true <-> Py.gt M' M = true)).
Proof.
  split; [reflexivity|]. split; [reflexivity|].
  intros H.
  specialize (H (one_note_store "g1" (Some EmptyString)) "g1" EmptyString EmptyString
                (one_entry (Some EmptyString)) eq_refl eq_refl).
  destruct H as [H _]. specialize (H eq_refl). discriminate H.
Qed.

(** C1, amended: [is_note_modified] answers [True] for an identity without an
    index entry, and for an entry whose stored modification time [M] is not
    empty it answers [True] exactly when the remote time is greater than [M]
    as a string. *)
Theorem is_note_modified_spec :
  forall (self : LocalStorage.t) (note_guid M' : string),
    (Dict.get note_guid (LocalStorage.note_index self) = None ->
     LocalStorage.is_note_modified self note_guid M' = true)
    /\ (forall (info : Entry.t) (M : string),
          Dict.get note_guid (LocalStorage.note_index self) = Some info ->
          Entry.modified info = Some M ->
          M <> EmptyString ->
          (LocalStorage.is_note_modified self note_guid M' = true <-> Py.gt M' M = true)).
Proof.
  intros self note_guid M'. split.
  - apply not_in_index_modified.
  - intros info M Hget Hm HM.
    now rewrite (marker_compared self note_guid M' info M Hget Hm HM).
Qed.

Lemma is_note_modified_spec_witness :
  LocalStorage.is_note_modified (one_note_store "g1" (Some "2024-01-01")) "g2" "2024-01-01" = true
  /\ (LocalStorage.is_note_modified (one_note_store "g1" (Some "2024-01-01")) "g1" "2024-01-02" = true
      <-> Py.gt "2024-01-02" "2024-01-01" = true)
  /\ (LocalStorage.is_note_modified (one_note_store "g1" (Some "2024-01-01")) "g1" "2024-01-01" = true
      <-> Py.gt "2024-01-01" "2024-01-01" = true).
Proof.
  split; [|split].
  - apply (proj1 (is_note_modified_spec (one_note_store "g1" (Some "2024-01-01")) "g2" "2024-01-01")).
    reflexivity.
  - apply (proj2 (is_note_modified_spec (one_note_store "g1" (Some "2024-01-01")) "g1" "2024-01-02")
             (one_entry (Some "2024-01-01")) "2024-01-01");
      [reflexivity | reflexivity | discriminate].
  - apply (proj2 (is_note_modified_spec (one_note_store "g1" (Some "2024-01-01")) "g1" "2024-01-01")
             (one_entry (Some "2024-01-01")) "2024-01-01");
      [reflexivity | reflexivity | discriminate].
Defined.

(** C8: an identity whose index entry has no modification time, the field
    being absent or the empty string, is reported as modified whatever the
    remote modification time is. *)
Theorem is_note_modified_without_marker :
  forall (self : LocalStorage.t) (note_guid modified_time : string) (info : Entry.t),
    Dict.get note_guid (LocalStorage.note_index self) = Some info ->
    Entry.modified info = None \/ Entry.modified info = Some EmptyString ->
    LocalStorage.is_note_modified self note_guid modified_time = true.
Proof.
  intros self note_guid modified_time info Hget Hm.
  apply (no_marker_modified self note_guid modified_time info Hget).
  destruct Hm as [-> | ->]; reflexivity.
Qed.

Lemma is_note_modified_without_marker_witness :
  LocalStorage.is_note_modified (one_note_store "g1" None) "g1" "2020-01-01" = true
  /\ LocalStorage.is_note_modified (one_note_store "g1" (Some EmptyString)) "g1" "" = true.
Proof.
  split.
  - apply (is_note_modified_without_marker (one_note_store "g1" None) "g1" "2020-01-01"
             (one_entry None) eq_refl).
    left; reflexivity.
  - apply (is_note_modified_without_marker (one_note_store "g1" (Some EmptyString)) "g1" ""
             (one_entry (Some EmptyString)) eq_refl).
    right; reflexivity.
Defined.

(** ** The converter *)

Section Convert.
Import HTMLToMarkdownConverter.
Variables (self : HTMLToMarkdownConverter.t) (html_content : string)
          (note_info : Note.t) (resources : list string).

Lemma convert_ok :
  forall r, convert_steps self html_content note_info resources = Ok r ->
            convert self html_content note_info resources = Ok r.
Proof. unfold convert. now intros r ->. Qed.

Lemma convert_caught :
  forall e, convert_steps self html_content note_info resources = Raise e ->
            convert self html_content note_info resources
            = Ok (fallback html_content note_info, []).
Proof. unfold convert. now intros e ->. Qed.

Lemma steps_fail_preprocess :
  forall e, _preprocess_html self html_content resources = Raise e ->
            convert_steps self html_content note_info resources = Raise e.
Proof. unfold convert_steps. now intros e ->. Qed.

Lemma steps_fail_handle :
  forall processed_html extracted e,
    _preprocess_html self html_content resources = Ok (processed_html, extracted) ->
    h2t_handle (lib self) processed_html = Raise e ->
    convert_steps self html_content note_info resources = Raise e.
Proof. unfold convert_steps. intros p x e -> . simpl. now intros ->. Qed.

Lemma steps_succeed :
  forall processed_html extracted markdown_content,
    _preprocess_html self html_content resources = Ok (processed_html, extracted) ->
    h2t_handle (lib self) processed_html = Ok markdown_content ->
    convert_steps self html_content note_info resources
    = Ok (if add_metadata self
          then _add_metadata (_postprocess_markdown markdown_content) note_info
          else _postprocess_markdown markdown_content, extracted).
Proof. unfold convert_steps. intros p x m ->. simpl. now intros ->. Qed.
End Convert.

(** C3: [convert] always returns a document and a list of media, never an
    exception; when a step of the conversion raises, what it returns is the
    heading with the title of the note, the notice of the failure and the
    fenced block that holds the markup as it was given, with no media. *)
Theorem convert_never_raises :
  forall (self : HTMLToMarkdownConverter.t) (html_content : string)
         (note_info : Note.t) (resources : list string),
    (exists markdown_content extracted,
        HTMLToMarkdownConverter.convert self html_content note_info resources
        = Ok (markdown_content, extracted))
    /\ (forall e,
          HTMLToMarkdownConverter.convert_steps self html_content note_info resources
          = Raise e ->
          HTMLToMarkdownConverter.convert self html_content note_info resources
          = Ok ("# " +:+ Note.the_title note_info +:+ nl +:+ nl
                +:+ HTMLToMarkdownConverter.failure_notice +:+ nl +:+ nl
                +:+ "```html" +:+ nl +:+ html_content +:+ nl +:+ "```", []))
    /\ (forall e,
          HTMLToMarkdownConverter._preprocess_html self html_content resources = Raise e ->
          HTMLToMarkdownConverter.convert_steps self html_content note_info resources
          = Raise e)
    /\ (forall processed_html extracted e,
          HTMLToMarkdownConverter._preprocess_html self html_content resources
          = Ok (processed_html, extracted) ->
          h2t_handle (HTMLToMarkdownConverter.lib self) processed_html = Raise e ->
          HTMLToMarkdownConverter.convert_steps self html_content note_info resources
          = Raise e).
Proof.
  intros self html_content note_info resources. repeat split.
  - destruct (HTMLToMarkdownConverter.convert_steps self html_content note_info resources)
      as [[m x]|e] eqn:E.
    + exists m, x. now apply convert_ok.
    + eexists _, _. now apply (convert_caught _ _ _ _ e).
  - intros e E. now apply (convert_caught _ _ _ _ e).
  - apply steps_fail_preprocess.
  - apply steps_fail_handle.
Qed.

Lemma convert_never_raises_witness :
  HTMLToMarkdownConverter.convert sample_converter "< p" (sample_note "g1" "T" None) []
  = Ok ("# T" +:+ nl +:+ nl +:+ HTMLToMarkdownConverter.failure_notice +:+ nl +:+ nl
        +:+ "```html" +:+ nl +:+ "< p" +:+ nl +:+ "```", []).
Proof.
  apply (proj1 (proj2 (convert_never_raises sample_converter "< p"
                         (sample_note "g1" "T" None) [])) "AssertionError").
  apply (proj2 (proj2 (proj2 (convert_never_raises sample_converter "< p"
                                (sample_note "g1" "T" None) []))) "< p" [] "AssertionError");
    reflexivity.
Defined.




(** ** Front matter *)

Lemma join_two (sep x y : string) (l : list string) :
  Py.join sep (x :: y :: l) = x +:+ sep +:+ Py.join sep (y :: l).
Proof. reflexivity. Qed.

Lemma html_add_metadata_header (markdown_content : string) (note_info : Note.t) :
  exists rest,
    HTMLToMarkdownConverter._add_metadata markdown_content note_info
    = ("---" +:+ nl +:+ "title: " +:+ Note.the_title note_info +:+ nl +:+ rest)
      +:+ markdown_content.
Proof.
  unfold HTMLToMarkdownConverter._add_metadata.
  set (tail := _ ++ _ ++ _ ++ _ ++ ["---"; EmptyString]).
  assert (exists y l, tail = y :: l) as (y & l & ->).
  { subst tail. destruct (optional_line "created" _) as [|a la]; simpl; eauto.
    destruct (optional_line "modified" _) as [|b lb]; simpl; eauto.
    destruct (optional_tags _) as [|c lc]; simpl; eauto.
    destruct (optional_line "author" _) as [|d ld]; simpl; eauto. }
  exists (Py.join nl (y :: l)).
  change (["---"; "title: " +:+ Note.the_title note_info] ++ y :: l)
    with ("---" :: ("title: " +:+ Note.the_title note_info) :: y :: l).
  rewrite !join_two. now rewrite !app_assoc_s.
Qed.

(** C10: the converter of HTML puts the front matter before every body,
    also before one that starts with the delimiter line, so that the result
    differs from the body; the handler of Markdown returns a body that
    starts with the delimiter line as it is. *)
Theorem html_path_prepends_front_matter_unconditionally :
  forall (markdown_content : string) (note_info : Note.t),
    (exists header,
        HTMLToMarkdownConverter._add_metadata markdown_content note_info
        = header +:+ markdown_content
        /\ Py.startswith header ("---" +:+ nl +:+ "title: ") = true)
    /\ (Py.startswith markdown_content ("---" +:+ nl) = true ->
        DirectMarkdownHandler._add_metadata markdown_content note_info = markdown_content
        /\ HTMLToMarkdownConverter._add_metadata markdown_content note_info
           <> markdown_content).
Proof.
  intros markdown_content note_info.
  destruct (html_add_metadata_header markdown_content note_info) as [rest Hh].
  split.
  - eexists; split; [exact Hh|].
    apply (prefix_of_app ("---" +:+ nl +:+ "title: ")
             (Note.the_title note_info +:+ nl +:+ rest)).
  - intros Hpre. split.
    + unfold DirectMarkdownHandler._add_metadata. now rewrite Hpre.
    + rewrite Hh. intros E. apply (f_equal String.length) in E.
      rewrite !length_app in E. simpl in E. lia.
Qed.

Lemma html_path_prepends_front_matter_unconditionally_witness :
  DirectMarkdownHandler._add_metadata ("---" +:+ nl +:+ "title: old" +:+ nl +:+ "---" +:+ nl)
    (sample_note "g1" "T" None)
  = "---" +:+ nl +:+ "title: old" +:+ nl +:+ "---" +:+ nl
  /\ HTMLToMarkdownConverter._add_metadata
       ("---" +:+ nl +:+ "title: old" +:+ nl +:+ "---" +:+ nl) (sample_note "g1" "T" None)
     <> "---" +:+ nl +:+ "title: old" +:+ nl +:+ "---" +:+ nl.
Proof.
  apply (proj2 (html_path_prepends_front_matter_unconditionally
                  ("---" +:+ nl +:+ "title: old" +:+ nl +:+ "---" +:+ nl)
                  (sample_note "g1" "T" None))).
  reflexivity.
Defined.

(** ** Attachments: [save_attachment] *)














Lemma mkdir_files (self self1 : LocalStorage.t) (d : string) :
  LocalStorage.mkdir self d = Ok self1 -> LocalStorage.files self1 = LocalStorage.files self.
Proof.
  unfold LocalStorage.mkdir.
  destruct (LocalStorage.is_dir self d); [now intros [= <-]|].
  destruct (LocalStorage.is_file self d); [discriminate|].
  destruct (LocalStorage.is_dir self (Path.parent d)); [now intros [= <-] | discriminate].
Qed.

Lemma write_file_files (self self1 : LocalStorage.t) (p content : string) :
  LocalStorage.write_file self p content = Ok self1 ->
  LocalStorage.files self1 = <[ p := content ]> (LocalStorage.files self)
  /\ LocalStorage.dirs self1 = LocalStorage.dirs self
  /\ LocalStorage.note_index self1 = LocalStorage.note_index self.
Proof.
  unfold LocalStorage.write_file.
  destruct (LocalStorage.is_dir self p); [discriminate|].
  destruct (LocalStorage.is_dir self (Path.parent p)); [now intros [= <-] | discriminate].
Qed.


(** The outcomes of [save_attachment] *)
Lemma save_attachment_cases (self : LocalStorage.t) (note_path attachment_name content : string) :
  (fst (LocalStorage.save_attachment self note_path attachment_name content) = None
   /\ LocalStorage.files (snd (LocalStorage.save_attachment self note_path attachment_name content))
      = LocalStorage.files self)
  \/ exists self1 p,
       LocalStorage.mkdir self (LocalStorage.get_attachment_dir note_path) = Ok self1
       /\ LocalStorage.free_attachment_path self1 (LocalStorage.get_attachment_dir note_path)
            (LocalStorage.sanitize_filename attachment_name) = Some p
       /\ fst (LocalStorage.save_attachment self note_path attachment_name content) = Some p
       /\ LocalStorage.files (snd (LocalStorage.save_attachment self note_path attachment_name content))
          = <[ p := content ]> (LocalStorage.files self).
Proof.
  unfold LocalStorage.save_attachment.
  destruct (LocalStorage.mkdir self _) as [self1|e] eqn:Hmk; [|now left].
  pose proof (mkdir_files _ _ _ Hmk) as Hf.
  destruct (LocalStorage.free_attachment_path self1 _ _) as [p|] eqn:Hp; [|now left].
  destruct (LocalStorage.write_file self1 p content) as [self2|e] eqn:Hw; [|now left].
  right. exists self1, p. repeat split; auto. simpl.
  destruct (write_file_files _ _ _ _ Hw) as (-> & _). now rewrite Hf.
Qed.



(** The third copy of [a.txt] goes to [a_2.txt]. *)
Example save_attachment_third_copy :
  fst (LocalStorage.save_attachment store_with_attachments
         "out/Personal/T.md" "a.txt" "first")
  = Some "out/Personal/assets/a_2.txt".
Proof. reflexivity. Qed.

(** ** Note paths: [get_note_path] *)







Section Collision.
Import LocalStorage.
Variables (self : LocalStorage.t) (team_name folder_path : string).
Variables (title1 title2 g1 : string).

Let note_dir := note_dir_of self team_name folder_path.
Let filename := sanitize_filename title1 +:+ ".md".
Let file_path := Path.div note_dir filename.
Let self1 :=
  with_dirs self (list_to_set (Path.with_parents note_dir) ∪ dirs self).

Hypothesis same_title : sanitize_filename title1 = sanitize_filename title2.
Hypothesis dirs_free : existsb (is_file self) (Path.with_parents note_dir) = false.
Hypothesis file_there : is_file self file_path = true.
Hypothesis recorded : get_note_guid_by_path self file_path = Some g1.





End Collision.



(** Two notes of one title saved into an empty store, and the first saved
    again: two files. *)
Example two_notes_one_title :
  fst saved_once = Ok (Some "out/Personal/Work/Plan.md")
  /\ fst saved_other = Ok (Some "out/Personal/Work/Plan_22222222.md")
  /\ fst saved_again = Ok (Some "out/Personal/Work/Plan.md")
  /\ dom (LocalStorage.files (snd saved_again))
     = {[ "out/Personal/Work/Plan.md"; "out/Personal/Work/Plan_22222222.md" ]}.
Proof. split; [|split; [|split]]; [by_compute | by_compute | by_compute | by_decide]. Qed.

(** ** Normalisation of white space: [_postprocess_markdown] *)

Lemma drop_app_length (a b : string) : Py.drop (String.length a) (a +:+ b) = b.
Proof. induction a as [|c a IH]; [now destruct b | exact IH]. Qed.

Lemma endswith_iff (s p : string) :
  Py.endswith s p = true <-> exists a, s = a +:+ p.
Proof.
  unfold Py.endswith. rewrite andb_true_iff, Nat.leb_le, String.eqb_eq. split.
  - intros [_ H]. exists (Py.take (String.length s - String.length p) s).
    transitivity (Py.take (String.length s - String.length p) s
                  +:+ Py.drop (String.length s - String.length p) s).
    + symmetry. apply take_drop.
    + now f_equal.
  - intros [a ->]. rewrite length_app. split; [lia|].
    replace (String.length a + String.length p - String.length p)
      with (String.length a) by lia.
    apply drop_app_length.
Qed.

Lemma del_refl (s : string) : del_lf s s.
Proof. induction s; constructor; auto. Qed.

Lemma iter_lf_shift (run : nat) (s : string) :
  Nat.iter run (String LF) (String LF s) = Nat.iter (S run) (String LF) s.
Proof. induction run as [|run IH]; simpl; [reflexivity | now rewrite IH]. Qed.

Lemma del_iter_keep (run : nat) (s t : string) :
  del_lf s t -> del_lf (Nat.iter run (String LF) s) (Nat.iter run (String LF) t).
Proof. intros H. induction run; simpl; [exact H | now constructor]. Qed.

Lemma del_iter_drop (run : nat) (s t : string) :
  del_lf s t -> del_lf (Nat.iter run (String LF) s) t.
Proof. intros H. induction run; simpl; [exact H | now constructor]. Qed.

Lemma del_flush (run : nat) (s t : string) :
  del_lf s t ->
  del_lf (Nat.iter run (String LF) s) (flush run t).
Proof.
  intros H. unfold flush.
  destruct (3 <=? run)%nat eqn:E.
  - apply Nat.leb_le in E. destruct run as [|[|[|run]]]; try lia.
    simpl. do 2 constructor. constructor. now apply del_iter_drop.
  - now apply del_iter_keep.
Qed.

(** The collapse of the runs of line feeds only takes line feeds away. *)
Lemma collapse_from_del (s : string) :
  forall run, del_lf (Nat.iter run (String LF) s)
                (collapse_from run s).
Proof.
  induction s as [|c s IH]; intros run; simpl.
  - apply del_flush. constructor.
  - destruct (Ascii.eqb c LF) eqn:E.
    + apply Ascii.eqb_eq in E. subst c. rewrite iter_lf_shift. apply IH.
    + apply del_flush. constructor. apply (IH 0).
Qed.

Section NewlineRuns.
Import HTMLToMarkdownConverter.

Lemma leading_newlines_iter (k : nat) (t : string) :
  leading_newlines (Nat.iter k (String LF) t) = k + leading_newlines t.
Proof. induction k as [|k IH]; simpl; [reflexivity | now rewrite IH]. Qed.

Lemma sub_newline_runs_skip (k : nat) (t : string) :
  sub_newline_runs k (Nat.iter k (String LF) t) = sub_newline_runs 0 t.
Proof. induction k as [|k IH]; simpl; [reflexivity | exact IH]. Qed.

Lemma sub_newline_runs_other (c : ascii) (r : string) :
  Ascii.eqb c LF = false ->
  sub_newline_runs 0 (String c r) = String c (sub_newline_runs 0 r).
Proof. intros E. simpl. now rewrite E. Qed.

(** A run of line feeds before a text that starts with none *)
Lemma sub_newline_runs_run (run : nat) (t : string) :
  leading_newlines t = 0 ->
  sub_newline_runs 0 (Nat.iter run (String LF) t) = flush run (sub_newline_runs 0 t).
Proof.
  intros Ht. unfold flush. destruct (3 <=? run)%nat eqn:E.
  - apply Nat.leb_le in E. destruct run as [|run]; [lia|].
    change (Nat.iter (S run) (String LF) t) with (String LF (Nat.iter run (String LF) t)).
    cbn [sub_newline_runs].
    change (leading_newlines (String LF (Nat.iter run (String LF) t)))
      with (S (leading_newlines (Nat.iter run (String LF) t))).
    rewrite leading_newlines_iter, Ht, Nat.add_0_r.
    apply Nat.leb_le in E. rewrite E.
    replace (S run - 1) with run by lia. now rewrite sub_newline_runs_skip.
  - apply Nat.leb_gt in E.
    assert (Hone : forall u, leading_newlines u < 2 ->
                     sub_newline_runs 0 (String LF u) = String LF (sub_newline_runs 0 u)).
    { intros u Hu. cbn [sub_newline_runs].
      change (leading_newlines (String LF u)) with (S (leading_newlines u)).
      destruct (3 <=? S (leading_newlines u))%nat eqn:E3; [|reflexivity].
      apply Nat.leb_le in E3. lia. }
    destruct run as [|[|[|run]]]; try lia; simpl Nat.iter.
    + reflexivity.
    + apply Hone. lia.
    + rewrite Hone by (simpl; lia). rewrite Hone by lia. reflexivity.
Qed.

(** The substitution reads the runs of line feeds as the one-pass collapse
    does. *)
Lemma sub_newline_runs_collapse (s : string) :
  forall run, sub_newline_runs 0 (Nat.iter run (String LF) s) = collapse_from run s.
Proof.
  induction s as [|c s IH]; intros run.
  - now rewrite sub_newline_runs_run.
  - simpl collapse_from. destruct (Ascii.eqb c LF) eqn:E.
    + apply Ascii.eqb_eq in E. subst c. rewrite iter_lf_shift. apply IH.
    + rewrite sub_newline_runs_run by (simpl; now rewrite E).
      rewrite (sub_newline_runs_other c s E).
      pose proof (IH 0) as H0. change (Nat.iter 0 (String LF) s) with s in H0.
      now rewrite H0.
Qed.

Lemma collapse_newlines_eq (s : string) :
  HTMLToMarkdownConverter.collapse_newlines s = collapse_from 0 s.
Proof. apply (sub_newline_runs_collapse s 0). Qed.

End NewlineRuns.

Lemma collapse_newlines_del (s : string) :
  del_lf s (HTMLToMarkdownConverter.collapse_newlines s).
Proof. rewrite collapse_newlines_eq. apply (collapse_from_del s 0). Qed.










(** *** Lines *)









Lemma rstrip_cons (chars : ascii -> bool) (c : ascii) (r : string) :
  Py.rstrip chars (String c r)
  = match Py.rstrip chars r with
    | EmptyString => if chars c then EmptyString else String c EmptyString
    | String a r' => String c (String a r')
    end.
Proof. simpl. now destruct (Py.rstrip chars r). Qed.

Lemma rstrip_idem (chars : ascii -> bool) (s : string) :
  Py.rstrip chars (Py.rstrip chars s) = Py.rstrip chars s.
Proof.
  induction s as [|c s IH]; [reflexivity|].
  rewrite (rstrip_cons chars c s).
  destruct (Py.rstrip chars s) as [|a r'] eqn:E.
  - destruct (chars c) eqn:Ec; [reflexivity|]. simpl. now rewrite Ec.
  - rewrite (rstrip_cons chars c (String a r')), IH. reflexivity.
Qed.










Section Postprocess.
Import HTMLToMarkdownConverter.
Variable markdown_content : string.

Let fixed := fix_fences markdown_content.
Let lines := map (Py.rstrip Py.isspace) (Py.split LF fixed).






End Postprocess.




(** ** The downloader *)

(** [_download_note] hands every failure back as [False]. *)
Lemma download_note_never_raises (self : NoteDownloader.t) (folder_path : string)
    (note_info : Note.t) :
  exists success note self',
    NoteDownloader._download_note self folder_path note_info = (Ok success, note, self').
Proof.
  unfold NoteDownloader._download_note.
  destruct (get_note_info _ _) as [full|]; [|eauto].
  destruct (download_note _ _) as [[html|]|]; [|eauto|eauto].
  destruct (String.eqb html EmptyString).
  - destruct (get_note_html _ _) as [html'|]; [|eauto].
    destruct (String.eqb html' EmptyString); [eauto|].
    destruct (NoteDownloader.store_content _ _ _ _ _); eauto.
  - destruct (NoteDownloader.store_content _ _ _ _ _); eauto.
Qed.

(** A note without content makes [_download_note] return [False] and leave
    the downloader as it was. *)
Lemma download_note_empty_content (self : NoteDownloader.t) (folder_path : string)
    (note_info : Note.t) (full : option Note.t) :
  get_note_info (NoteDownloader.api self) (Note.the_guid note_info) = Ok full ->
  download_note (NoteDownloader.api self) (Note.the_guid note_info) = Ok (Some EmptyString) ->
  get_note_html (NoteDownloader.api self) (Note.the_guid note_info) = Ok EmptyString ->
  exists note,
    NoteDownloader._download_note self folder_path note_info = (Ok false, note, self).
Proof.
  intros H1 H2 H3. unfold NoteDownloader._download_note. rewrite H1, H2. simpl.
  rewrite H3. simpl. eauto.
Qed.

(** Such a note is counted as failed, and the failure list stays as it is. *)
Lemma complete_note_empty_content (self : NoteDownloader.t) (folder_path : string)
    (note_info : Note.t) (full : option Note.t) :
  get_note_info (NoteDownloader.api self) (Note.the_guid note_info) = Ok full ->
  download_note (NoteDownloader.api self) (Note.the_guid note_info) = Ok (Some EmptyString) ->
  get_note_html (NoteDownloader.api self) (Note.the_guid note_info) = Ok EmptyString ->
  NoteDownloader.complete_note folder_path self note_info
  = NoteDownloader.with_stat self (NoteDownloader.add_failed_notes (NoteDownloader.stat self)).
Proof.
  intros H1 H2 H3. unfold NoteDownloader.complete_note.
  destruct (download_note_empty_content self folder_path note_info full H1 H2 H3)
    as [note ->]. reflexivity.
Qed.

(** C4: of the three notes of the sample folder the second has no content.
    The run counts one failed and two downloaded notes and none skipped,
    and its failure list is empty: the note is counted, but no entry with
    its title and identity is recorded. *)
Theorem empty_content_counted_but_not_listed :
  failed_notes (NoteDownloader.stat (first_run (Some "2024-01-01") "g2" false)) = 1
  /\ downloaded_notes (NoteDownloader.stat (first_run (Some "2024-01-01") "g2" false)) = 2
  /\ skipped_notes (NoteDownloader.stat (first_run (Some "2024-01-01") "g2" false)) = 0
  /\ NoteDownloader.failed_items (first_run (Some "2024-01-01") "g2" false) = []
  /\ dom (LocalStorage.files (first_run_store (Some "2024-01-01") "g2" false))
     = {[ "out/Personal/Notes/Work/Alpha.md"; "out/Personal/Notes/Work/Gamma.md";
          "out/Personal/Notes/Work/assets/a.txt" ]}.
Proof.
  split; [|split; [|split; [|split]]];
    [by_compute | by_compute | by_compute | by_compute | by_decide].
Qed.

(** *** The failure list receives no note *)

Lemma fold_left_preserves {A B C : Type} (g : A -> C) (f : A -> B -> A) (l : list B) :
  (forall a b, g (f a b) = g a) -> forall a, g (fold_left f l a) = g a.
Proof.
  intros H. induction l as [|b l IH]; intros a; simpl; [reflexivity|].
  now rewrite IH, H.
Qed.

Lemma download_one_attachment_notes (note_guid note_path : string)
    (self : NoteDownloader.t) (attachment : Attachment.t) :
  failed_note_entries
    (NoteDownloader.download_one_attachment note_guid note_path self attachment)
  = failed_note_entries self.
Proof.
  unfold NoteDownloader.download_one_attachment, failed_note_entries.
  destruct (String.eqb _ EmptyString); [reflexivity|].
  destruct (download_attachment _ _ _) as [content|e]; simpl.
  - destruct (Py.truthy content); [|reflexivity].
    now destruct (LocalStorage.save_attachment _ _ _ _).
  - rewrite List.filter_app. simpl. apply app_nil_r.
Qed.

Lemma save_extracted_notes (note_path : string) (self : NoteDownloader.t)
    (resource : Resource.t) :
  failed_note_entries (NoteDownloader.save_extracted note_path self resource)
  = failed_note_entries self.
Proof.
  unfold NoteDownloader.save_extracted.
  destruct (_ && _); [|reflexivity].
  unfold LocalStorage.save_resource. now destruct (LocalStorage.save_attachment _ _ _ _).
Qed.

Lemma after_save_notes (self : NoteDownloader.t) (note_guid : string)
    (note_path : option string) :
  failed_note_entries (snd (NoteDownloader.after_save self note_guid note_path))
  = failed_note_entries self.
Proof.
  unfold NoteDownloader.after_save.
  destruct note_path as [p|]; [|reflexivity].
  destruct (get_attachments _ _) as [attachments|]; [|reflexivity]. simpl.
  destruct (_ && _); [|reflexivity].
  unfold NoteDownloader._download_attachments.
  now rewrite (fold_left_preserves failed_note_entries _ _
                 (download_one_attachment_notes note_guid p)).
Qed.

Lemma save_note_then_after_notes (self : NoteDownloader.t)
    (folder_path note_guid content format : string) (note_info : Note.t) :
  failed_note_entries
    (snd (match LocalStorage.save_note (NoteDownloader.storage self)
                  (NoteDownloader.kb_name self) folder_path note_info content format
                  (NoteDownloader.clock self) with
          | (Raise _, s) => (false, NoteDownloader.with_storage self s)
          | (Ok note_path, s) =>
              NoteDownloader.after_save (NoteDownloader.with_storage self s)
                note_guid note_path
          end))
  = failed_note_entries self.
Proof.
  destruct (LocalStorage.save_note _ _ _ _ _ _ _) as [[note_path|e] s]; [|reflexivity].
  now rewrite after_save_notes.
Qed.

Lemma store_content_notes (self : NoteDownloader.t)
    (folder_path note_guid html_content : string) (note_info : Note.t) :
  failed_note_entries
    (snd (NoteDownloader.store_content self folder_path note_guid html_content note_info))
  = failed_note_entries self.
Proof.
  unfold NoteDownloader.store_content.
  destruct (NoteDownloader.converter self) as [conv|];
    [|apply save_note_then_after_notes].
  destruct (convert_to_markdown _); [|apply save_note_then_after_notes].
  destruct (HTMLToMarkdownConverter.convert _ _ _ _) as [[md extracted]|]; [|reflexivity].
  destruct (LocalStorage.save_note _ _ _ _ _ _ _) as [[note_path|e] s]; [|reflexivity].
  rewrite after_save_notes. destruct note_path as [p|]; [|reflexivity].
  now rewrite (fold_left_preserves failed_note_entries _ _ (save_extracted_notes p)).
Qed.

Lemma download_note_notes (self : NoteDownloader.t) (folder_path : string)
    (note_info : Note.t) :
  failed_note_entries (snd (NoteDownloader._download_note self folder_path note_info))
  = failed_note_entries self.
Proof.
  unfold NoteDownloader._download_note.
  destruct (get_note_info _ _) as [full|]; [|reflexivity].
  destruct (download_note _ _) as [[html|]|]; [|reflexivity|reflexivity].
  destruct (String.eqb html EmptyString).
  - destruct (get_note_html _ _) as [html'|]; [|reflexivity].
    destruct (String.eqb html' EmptyString); [reflexivity|].
    rewrite <- (store_content_notes self folder_path (Note.the_guid note_info) html'
                  (NoteDownloader.normalize
                     match full with
                     | Some f => NoteDownloader.update note_info f
                     | None => note_info
                     end)).
    now destruct (NoteDownloader.store_content _ _ _ _ _).
  - rewrite <- (store_content_notes self folder_path (Note.the_guid note_info) html
                  (NoteDownloader.normalize
                     match full with
                     | Some f => NoteDownloader.update note_info f
                     | None => note_info
                     end)).
    now destruct (NoteDownloader.store_content _ _ _ _ _).
Qed.

Lemma complete_note_notes (folder_path : string) (self : NoteDownloader.t) (note : Note.t) :
  failed_note_entries (NoteDownloader.complete_note folder_path self note)
  = failed_note_entries self.
Proof.
  unfold NoteDownloader.complete_note.
  pose proof (download_note_notes self folder_path note) as H.
  destruct (download_note_never_raises self folder_path note) as (ok & n & s & E).
  rewrite E in *. simpl in H. now destruct ok.
Qed.

Lemma select_note_notes (acc : list Note.t * NoteDownloader.t) (note : Note.t) :
  failed_note_entries (snd (NoteDownloader.select_note acc note))
  = failed_note_entries (snd acc).
Proof.
  unfold NoteDownloader.select_note. destruct acc as [l self].
  now destruct (_ && _).
Qed.

Lemma download_folder_notes (self : NoteDownloader.t) (folder_path : string) :
  failed_note_entries (NoteDownloader._download_folder self folder_path)
  = failed_note_entries self.
Proof.
  unfold NoteDownloader._download_folder.
  destruct (get_all_notes_in_folder _ _) as [|n notes] eqn:E; [reflexivity|].
  pose proof (fold_left_preserves (fun acc => failed_note_entries (snd acc))
                NoteDownloader.select_note (n :: notes) select_note_notes
                ([], NoteDownloader.with_stat self
                       (NoteDownloader.add_total_notes (length (n :: notes))
                          (NoteDownloader.stat self)))) as H.
  destruct (fold_left NoteDownloader.select_note _ _) as [to_download self'].
  simpl in H.
  now rewrite (fold_left_preserves failed_note_entries _ _
                 (complete_note_notes folder_path)).
Qed.

(** Whatever the remote source answers, a run adds no note to the failure
    list: only attachments are ever recorded there. *)
Lemma download_all_lists_no_note (self : NoteDownloader.t) (folders_filter : list string) :
  failed_note_entries (NoteDownloader.download_all self folders_filter)
  = failed_note_entries self.
Proof.
  unfold NoteDownloader.download_all.
  destruct (get_all_folders _); [reflexivity|].
  apply (fold_left_preserves failed_note_entries _ _ download_folder_notes).
Qed.

(** *** A run over notes that are up to date *)












(** * Further properties of the three files *)

(** ** Characters of a string *)

Lemma contains_char_app (c : ascii) (a b : string) :
  contains_char c (a +:+ b) = contains_char c a || contains_char c b.
Proof.
  induction a as [|x a IH]; [reflexivity|].
  rewrite app_cons. simpl. rewrite IH. now rewrite orb_assoc.
Qed.

Lemma contains_char_take (c : ascii) (n : nat) (s : string) :
  contains_char c s = false -> contains_char c (Py.take n s) = false.
Proof.
  revert s; induction n as [|n IH]; intros [|x s]; simpl; auto.
  intros H. apply orb_false_elim in H as [-> H]. now apply IH.
Qed.

Lemma contains_char_drop (c : ascii) (n : nat) (s : string) :
  contains_char c s = false -> contains_char c (Py.drop n s) = false.
Proof.
  revert s; induction n as [|n IH]; intros [|x s]; simpl; auto.
  intros H. apply orb_false_elim in H as [_ H]. now apply IH.
Qed.

Lemma contains_char_lstrip (c : ascii) (chars : ascii -> bool) (s : string) :
  contains_char c s = false -> contains_char c (Py.lstrip chars s) = false.
Proof.
  induction s as [|x s IH]; simpl; [reflexivity|].
  intros H. destruct (chars x); [|exact H].
  apply orb_false_elim in H as [_ H]. now apply IH.
Qed.

Lemma contains_char_rstrip (c : ascii) (chars : ascii -> bool) (s : string) :
  contains_char c s = false -> contains_char c (Py.rstrip chars s) = false.
Proof.
  induction s as [|x s IH]; [reflexivity|]. simpl contains_char at 1.
  intros H. apply orb_false_elim in H as [Hx Hs]. specialize (IH Hs).
  rewrite rstrip_cons. destruct (Py.rstrip chars s) as [|a r'].
  - destruct (chars x); simpl; [reflexivity | now rewrite Hx].
  - simpl in *. now rewrite Hx, IH.
Qed.

Lemma contains_char_splitext (c : ascii) (p : string) :
  contains_char c p = false ->
  contains_char c (fst (Py.splitext p)) = false
  /\ contains_char c (snd (Py.splitext p)) = false.
Proof.
  intros H. unfold Py.splitext.
  destruct (Py.rfind "."%char p) as [d|]; [|now split].
  destruct (_ && _); simpl; [|now split].
  split; [now apply contains_char_take | now apply contains_char_drop].
Qed.

Lemma contains_char_replace_other (c old new : ascii) (s : string) :
  Ascii.eqb new c = false ->
  contains_char c s = false -> contains_char c (Py.replace_char old new s) = false.
Proof.
  intros Hnew. induction s as [|x s IH]; simpl; [reflexivity|].
  intros H. apply orb_false_elim in H as [Hx Hs]. rewrite (IH Hs), orb_false_r.
  now destruct (Ascii.eqb x old).
Qed.

Lemma contains_char_replace_same (old new : ascii) (s : string) :
  Ascii.eqb new old = false ->
  contains_char old (Py.replace_char old new s) = false.
Proof.
  intros Hnew. induction s as [|x s IH]; simpl; [reflexivity|].
  rewrite IH, orb_false_r. destruct (Ascii.eqb x old) eqn:E; [exact Hnew | exact E].
Qed.

Lemma replace_all_absent (l : list ascii) (new c : ascii) :
  Ascii.eqb new c = false ->
  forall s, (c ∈ l \/ contains_char c s = false) ->
            contains_char c (fold_left (fun f char => Py.replace_char char new f) l s) = false.
Proof.
  intros Hnew. induction l as [|x l IH]; intros s H; simpl.
  - destruct H as [H|H]; [|exact H]. now apply elem_of_nil in H.
  - apply IH. destruct H as [H|H].
    + apply elem_of_cons in H as [->|H]; [|now left].
      right. now apply contains_char_replace_same.
    + right. now apply contains_char_replace_other.
Qed.

(** X1: the name that [sanitize_filename] returns holds none of the
    characters of [illegal_chars]. *)
Theorem sanitize_filename_no_illegal_char :
  forall (filename : string) (c : ascii),
    c ∈ LocalStorage.illegal_chars ->
    contains_char c (LocalStorage.sanitize_filename filename) = false.
Proof.
  intros filename c Hc. unfold LocalStorage.sanitize_filename.
  set (replaced := fold_left _ LocalStorage.illegal_chars filename).
  assert (Hr : contains_char c replaced = false).
  { apply replace_all_absent; [|now left].
    unfold LocalStorage.illegal_chars in Hc.
    repeat (apply elem_of_cons in Hc as [->|Hc]; [reflexivity|]).
    now apply elem_of_nil in Hc. }
  assert (Hs : contains_char c (Py.strip LocalStorage.space_or_dot replaced) = false).
  { unfold Py.strip. now apply contains_char_rstrip, contains_char_lstrip. }
  destruct (contains_char_splitext c _ Hs) as [Hn He].
  destruct (Py.splitext (Py.strip LocalStorage.space_or_dot replaced)) as [name ext].
  simpl in Hn, He. rewrite contains_char_app, He, orb_false_r.
  destruct (200 <? String.length name)%nat; [now apply contains_char_take | exact Hn].
Qed.

Lemma sanitize_filename_no_illegal_char_witness :
  contains_char "?"%char (LocalStorage.sanitize_filename " what?: a <b>.txt ") = false.
Proof.
  apply (sanitize_filename_no_illegal_char " what?: a <b>.txt " "?"%char).
  unfold LocalStorage.illegal_chars. set_solver.
Defined.

(** ** [sanitize_filename]: the ends of the name *)

Lemma lstrip_fixed (chars : ascii -> bool) (s : string) :
  Py.lstrip chars (Py.lstrip chars s) = Py.lstrip chars s.
Proof.
  induction s as [|c r IH]; [reflexivity|]. simpl.
  destruct (chars c) eqn:E; [exact IH|]. simpl. now rewrite E.
Qed.

Lemma lstrip_rstrip (chars : ascii -> bool) (s : string) :
  Py.lstrip chars s = s -> Py.lstrip chars (Py.rstrip chars s) = Py.rstrip chars s.
Proof.
  destruct s as [|c r]; [reflexivity|]. intros H.
  assert (Hc : chars c = false).
  { simpl in H. destruct (chars c) eqn:E; [|reflexivity].
    exfalso. assert (L : forall t, String.length (Py.lstrip chars t) <= String.length t).
    { induction t as [|x t IHt]; simpl; [lia|]. destruct (chars x); simpl; lia. }
    specialize (L r). rewrite H in L. simpl in L. lia. }
  rewrite rstrip_cons. destruct (Py.rstrip chars r); rewrite ?Hc; simpl; now rewrite Hc.
Qed.

Lemma strip_lstrip (chars : ascii -> bool) (s : string) :
  Py.lstrip chars (Py.strip chars s) = Py.strip chars s.
Proof. unfold Py.strip. apply lstrip_rstrip, lstrip_fixed. Qed.

Lemma lstrip_head (chars : ascii -> bool) (s : string) :
  Py.lstrip chars s = s ->
  s = EmptyString \/ exists c r, s = String c r /\ chars c = false.
Proof.
  destruct s as [|c r]; [now left|]. intros H. right. exists c, r. split; [reflexivity|].
  simpl in H. destruct (chars c) eqn:E; [|reflexivity].
  exfalso. assert (L : forall t, String.length (Py.lstrip chars t) <= String.length t).
  { induction t as [|x t IHt]; simpl; [lia|]. destruct (chars x); simpl; lia. }
  specialize (L r). rewrite H in L. simpl in L. lia.
Qed.

Lemma length_replace_char (old new : ascii) (s : string) :
  String.length (Py.replace_char old new s) = String.length s.
Proof. induction s as [|c r IH]; simpl; [reflexivity | now rewrite IH]. Qed.

Lemma length_lstrip_le (chars : ascii -> bool) (s : string) :
  String.length (Py.lstrip chars s) <= String.length s.
Proof. induction s as [|c r IH]; simpl; [lia|]. destruct (chars c); simpl; lia. Qed.

Lemma length_rstrip_le (chars : ascii -> bool) (s : string) :
  String.length (Py.rstrip chars s) <= String.length s.
Proof.
  induction s as [|c r IH]; [simpl; lia|]. rewrite rstrip_cons.
  destruct (Py.rstrip chars r); [destruct (chars c)|]; simpl in *; lia.
Qed.

Lemma length_replace_all (l : list ascii) (new : ascii) (s : string) :
  String.length (fold_left (fun f char => Py.replace_char char new f) l s) = String.length s.
Proof.
  revert s; induction l as [|x l IH]; intros s; simpl; [reflexivity|].
  now rewrite IH, length_replace_char.
Qed.

Lemma length_splitext_fst (p : string) :
  String.length (fst (Py.splitext p)) <= String.length p.
Proof.
  rewrite <- (splitext_app p) at 2. rewrite length_app. lia.
Qed.

(** X2: the name that [sanitize_filename] returns does not start with a
    space or a dot; when the given name has at most 200 characters it does
    not end with one either, and stripping it again changes nothing. *)
Theorem sanitize_filename_stripped :
  forall filename : string,
    Py.lstrip LocalStorage.space_or_dot (LocalStorage.sanitize_filename filename)
    = LocalStorage.sanitize_filename filename
    /\ (String.length filename <= 200 ->
        Py.strip LocalStorage.space_or_dot (LocalStorage.sanitize_filename filename)
        = LocalStorage.sanitize_filename filename).
Proof.
  intros filename. unfold LocalStorage.sanitize_filename.
  set (replaced := fold_left _ LocalStorage.illegal_chars filename).
  set (stripped := Py.strip LocalStorage.space_or_dot replaced).
  pose proof (splitext_app stripped) as Happ.
  pose proof (length_splitext_fst stripped) as Hlen.
  pose proof (strip_lstrip LocalStorage.space_or_dot replaced) as Hl. fold stripped in Hl.
  destruct (Py.splitext stripped) as [name ext]. simpl in Happ, Hlen. split.
  - destruct (200 <? String.length name)%nat eqn:E; [|now rewrite Happ].
    apply Nat.ltb_lt in E.
    destruct (lstrip_head _ _ Hl) as [H0|(c & r & Hs & Hc)].
    + rewrite H0 in Hlen. simpl in Hlen. lia.
    + destruct name as [|c' name']; [simpl in E; lia|].
      rewrite Hs, app_cons in Happ. injection Happ as -> _.
      simpl. now rewrite Hc.
  - intros Hf.
    assert (Hs : String.length stripped <= 200).
    { unfold stripped, Py.strip.
      pose proof (length_rstrip_le LocalStorage.space_or_dot
                    (Py.lstrip LocalStorage.space_or_dot replaced)).
      pose proof (length_lstrip_le LocalStorage.space_or_dot replaced).
      unfold replaced in *. rewrite length_replace_all in *. lia. }
    destruct (200 <? String.length name)%nat eqn:E; [apply Nat.ltb_lt in E; lia|].
    rewrite Happ. unfold Py.strip at 1. rewrite Hl.
    unfold stripped, Py.strip. apply rstrip_idem.
Qed.

Lemma sanitize_filename_stripped_witness :
  Py.lstrip LocalStorage.space_or_dot (LocalStorage.sanitize_filename " ..notes. ")
  = LocalStorage.sanitize_filename " ..notes. "
  /\ (String.length " ..notes. " <= 200 ->
      Py.strip LocalStorage.space_or_dot (LocalStorage.sanitize_filename " ..notes. ")
      = LocalStorage.sanitize_filename " ..notes. ").
Proof. exact (sanitize_filename_stripped " ..notes. "). Defined.

(** ** [get_note_guid_by_path] *)

(** X3: [get_note_guid_by_path] answers [None] exactly when no entry of the
    index records the path, and otherwise the identity of the first entry,
    in the order of the index, that records it. *)
Theorem get_note_guid_by_path_spec :
  forall (self : LocalStorage.t) (file_path : string),
    match LocalStorage.get_note_guid_by_path self file_path with
    | None =>
        Forall (fun e => Entry.file_path (snd e) <> file_path) (LocalStorage.note_index self)
    | Some guid =>
        exists before info after,
          LocalStorage.note_index self = before ++ (guid, info) :: after
          /\ Entry.file_path info = file_path
          /\ Forall (fun e => Entry.file_path (snd e) <> file_path) before
    end.
Proof.
  intros self file_path. unfold LocalStorage.get_note_guid_by_path.
  induction (LocalStorage.note_index self) as [|[g info] ix IH]; simpl.
  - constructor.
  - destruct (String.eqb (Entry.file_path info) file_path) eqn:E.
    + apply String.eqb_eq in E. exists [], info, ix. repeat split; [exact E | constructor].
    + apply String.eqb_neq in E.
      destruct (LocalStorage.guid_by_path ix file_path) as [guid|].
      * destruct IH as (before & info' & after & -> & Hp & Hb).
        exists ((g, info) :: before), info', after. repeat split; [exact Hp|].
        constructor; [exact E | exact Hb].
      * constructor; [exact E | exact IH].
Qed.

(** ** [get_statistics] *)

Lemma dict_get_set_same {V : Type} (k : string) (v : V) (d : list (string * V)) :
  Dict.get k (Dict.set k v d) = Some v.
Proof.
  induction d as [|[k' v'] d IH]; simpl.
  - now rewrite String.eqb_refl.
  - destruct (String.eqb k' k) eqn:E; simpl; [now rewrite String.eqb_refl | now rewrite E].
Qed.

Lemma dict_get_set_other {V : Type} (k k' : string) (v : V) (d : list (string * V)) :
  k' <> k -> Dict.get k' (Dict.set k v d) = Dict.get k' d.
Proof.
  intros Hk. induction d as [|[k0 v0] d IH]; simpl.
  - apply String.eqb_neq in Hk. rewrite String.eqb_sym in Hk. now rewrite Hk.
  - destruct (String.eqb k0 k) eqn:E; simpl.
    + apply String.eqb_eq in E. subst k0.
      assert (H : String.eqb k k' = false) by (apply String.eqb_neq; congruence).
      now rewrite H.
    + now rewrite IH.
Qed.

Lemma dict_set_sum (k : string) (v : nat) (d : list (string * nat)) :
  list_sum (map snd (Dict.set k v d)) + default 0 (Dict.get k d)
  = list_sum (map snd d) + v.
Proof.
  induction d as [|[k' v'] d IH]; simpl; [lia|].
  destruct (String.eqb k' k); simpl; lia.
Qed.

Lemma count_team_get (teams : list (string * nat)) (note_info : Entry.t) (team : string) :
  default 0 (Dict.get team (LocalStorage.count_team teams note_info))
  = default 0 (Dict.get team teams)
    + (if String.eqb (Entry.team note_info) team then 1 else 0).
Proof.
  unfold LocalStorage.count_team.
  destruct (String.eqb (Entry.team note_info) team) eqn:E.
  - apply String.eqb_eq in E. subst team. rewrite dict_get_set_same. simpl.
    destruct (Dict.get (Entry.team note_info) teams) eqn:G; simpl.
    + now rewrite G.
    + now rewrite dict_get_set_same.
  - apply String.eqb_neq in E.
    rewrite dict_get_set_other by congruence.
    destruct (Dict.get (Entry.team note_info) teams);
      [|rewrite dict_get_set_other by congruence]; lia.
Qed.

Lemma count_team_listed (teams : list (string * nat)) (note_info : Entry.t) (team : string) :
  is_Some (Dict.get team (LocalStorage.count_team teams note_info))
  <-> is_Some (Dict.get team teams) \/ Entry.team note_info = team.
Proof.
  unfold LocalStorage.count_team.
  destruct (String.eqb_spec (Entry.team note_info) team) as [->|N].
  - rewrite dict_get_set_same. split; [now right | eauto].
  - rewrite dict_get_set_other by congruence.
    destruct (Dict.get (Entry.team note_info) teams);
      [|rewrite dict_get_set_other by congruence]; tauto.
Qed.

Lemma count_team_sum (teams : list (string * nat)) (note_info : Entry.t) :
  list_sum (map snd (LocalStorage.count_team teams note_info))
  = list_sum (map snd teams) + 1.
Proof.
  unfold LocalStorage.count_team.
  destruct (Dict.get (Entry.team note_info) teams) as [n|] eqn:G.
  - pose proof (dict_set_sum (Entry.team note_info) (default 0 (Some n) + 1) teams) as H.
    rewrite G in H. rewrite ?G. simpl in *. lia.
  - pose proof (dict_set_sum (Entry.team note_info) 0 teams) as H0. rewrite G in H0.
    pose proof (dict_set_sum (Entry.team note_info)
                  (default 0 (Dict.get (Entry.team note_info)
                                (Dict.set (Entry.team note_info) 0 teams)) + 1)
                  (Dict.set (Entry.team note_info) 0 teams)) as H1.
    rewrite dict_get_set_same in H1. rewrite dict_get_set_same. simpl in *. lia.
Qed.

(** X4: in the result of [get_statistics] the count of a team is the number
    of index entries of that team, a team is listed exactly when an entry
    has it, and the counts of all teams add up to [total_notes]. *)
Theorem get_statistics_teams :
  forall (self : LocalStorage.t) (team : string),
    let st := LocalStorage.get_statistics self in
    default 0 (Dict.get team (LocalStorage.stat_teams st))
    = length (List.filter (fun e => String.eqb (Entry.team (snd e)) team)
                (LocalStorage.note_index self))
    /\ (is_Some (Dict.get team (LocalStorage.stat_teams st))
        <-> Exists (fun e => Entry.team (snd e) = team) (LocalStorage.note_index self))
    /\ list_sum (map snd (LocalStorage.stat_teams st)) = LocalStorage.stat_total_notes st.
Proof.
  intros self team. simpl.
  assert (G : forall l teams,
             default 0 (Dict.get team (fold_left LocalStorage.count_team (map snd l) teams))
             = default 0 (Dict.get team teams)
               + length (List.filter (fun e : string * Entry.t =>
                                        String.eqb (Entry.team (snd e)) team) l)).
  { induction l as [|[g e] l IH]; intros teams; simpl; [lia|].
    rewrite IH, count_team_get. destruct (String.eqb (Entry.team e) team); simpl; lia. }
  assert (L : forall l teams,
             is_Some (Dict.get team (fold_left LocalStorage.count_team (map snd l) teams))
             <-> is_Some (Dict.get team teams)
                 \/ Exists (fun e : string * Entry.t => Entry.team (snd e) = team) l).
  { induction l as [|[g e] l IH]; intros teams; simpl.
    - rewrite Exists_nil. tauto.
    - rewrite IH, count_team_listed, Exists_cons. simpl. tauto. }
  assert (S : forall l teams,
             list_sum (map snd (fold_left LocalStorage.count_team (map snd l) teams))
             = list_sum (map snd teams) + length (l : list (string * Entry.t))).
  { induction l as [|[g e] l IH]; intros teams; simpl; [lia|].
    rewrite IH, count_team_sum. lia. }
  split; [|split].
  - now rewrite G.
  - rewrite L. simpl. split; [intros [[x H]|H]; [discriminate | exact H] | now right].
  - now rewrite S.
Qed.

(** ** [save_note] *)

Lemma gt_irrefl (s : string) : Py.gt s s = false.
Proof.
  unfold Py.gt, String.ltb. destruct (String.compare s s) eqn:E; try reflexivity.
  pose proof (String.compare_antisym s s) as H. rewrite E in H. discriminate H.
Qed.

Lemma get_note_path_frame (self self1 : LocalStorage.t)
    (team_name folder_path note_title note_guid p : string) :
  LocalStorage.get_note_path self team_name folder_path note_title note_guid = Ok (p, self1) ->
  LocalStorage.files self1 = LocalStorage.files self
  /\ LocalStorage.note_index self1 = LocalStorage.note_index self
  /\ LocalStorage.dirs self ⊆ LocalStorage.dirs self1.
Proof.
  unfold LocalStorage.get_note_path, LocalStorage.mkdir_parents.
  destruct (existsb _ _); [discriminate|].
  set (s1 := LocalStorage.with_dirs self _).
  assert (H1 : LocalStorage.files s1 = LocalStorage.files self
               /\ LocalStorage.note_index s1 = LocalStorage.note_index self
               /\ LocalStorage.dirs self ⊆ LocalStorage.dirs s1).
  { repeat split. simpl. apply union_subseteq_r. }
  destruct (LocalStorage.exists_ s1 _); [destruct (negb _)|];
    intros E; injection E as _ <-; exact H1.
Qed.

Lemma save_note_inv (self self' : LocalStorage.t) (team_name folder_path : string)
    (note : Note.t) (content format now p : string) :
  LocalStorage.save_note self team_name folder_path note content format now
  = (Ok (Some p), self') ->
  exists title guid self1 self2,
    Note.title note = Some title /\ Note.guid note = Some guid
    /\ LocalStorage.get_note_path self team_name folder_path title guid = Ok (p, self1)
    /\ LocalStorage.write_file self1 p content = Ok self2
    /\ self' = LocalStorage.with_index self2
                 (Dict.set guid
                    (Entry.Build title p team_name folder_path (Note.created note)
                       (Note.modified note) (default (TagList []) (Note.tags note))
                       format now)
                    (LocalStorage.note_index self2)).
Proof.
  unfold LocalStorage.save_note.
  destruct (Note.title note) as [title|]; [|discriminate].
  destruct (Note.guid note) as [guid|]; [|discriminate].
  destruct (LocalStorage.get_note_path self team_name folder_path title guid)
    as [[file_path self1]|] eqn:Hp; [|discriminate].
  destruct (LocalStorage.write_file self1 file_path content) as [self2|] eqn:Hw;
    [|discriminate].
  intros E. injection E as <- <-.
  exists title, guid, self1, self2. repeat split; assumption.
Qed.

(** X5: when [save_note] returns a path, the file at that path holds the
    content and the index holds, under the identity of the note, an entry
    with that path, the title, the team, the folder, the times and the
    format of the note.  From then on [is_note_modified] answers for that
    identity by comparing with the modification time of the note when it
    is not empty, and [True] for every time when the note has none. *)
Theorem save_note_records :
  forall (self self' : LocalStorage.t) (team_name folder_path : string)
         (note : Note.t) (content format now p : string),
    LocalStorage.save_note self team_name folder_path note content format now
    = (Ok (Some p), self') ->
    exists title guid,
      Note.title note = Some title /\ Note.guid note = Some guid
      /\ LocalStorage.files self' !! p = Some content
      /\ Dict.get guid (LocalStorage.note_index self')
         = Some (Entry.Build title p team_name folder_path (Note.created note)
                   (Note.modified note) (default (TagList []) (Note.tags note))
                   format now)
      /\ (forall modified_time,
            LocalStorage.is_note_modified self' guid modified_time
            = if Py.truthy (Note.modified note)
              then Py.gt modified_time (default EmptyString (Note.modified note))
              else true)
      /\ (Py.truthy (Note.modified note) = true ->
          LocalStorage.is_note_modified self' guid
            (default EmptyString (Note.modified note)) = false).
Proof.
  intros self self' team_name folder_path note content format now p H.
  destruct (save_note_inv _ _ _ _ _ _ _ _ _ H)
    as (title & guid & self1 & self2 & Ht & Hg & Hp & Hw & ->).
  destruct (write_file_files _ _ _ _ Hw) as (Hf & _ & _).
  exists title, guid. split; [exact Ht|]. split; [exact Hg|].
  assert (Hm : forall modified_time,
             LocalStorage.is_note_modified
               (LocalStorage.with_index self2
                  (Dict.set guid
                     (Entry.Build title p team_name folder_path (Note.created note)
                        (Note.modified note) (default (TagList []) (Note.tags note))
                        format now)
                     (LocalStorage.note_index self2))) guid modified_time
             = if Py.truthy (Note.modified note)
               then Py.gt modified_time (default EmptyString (Note.modified note))
               else true).
  { intros modified_time. unfold LocalStorage.is_note_modified. simpl.
    rewrite dict_get_set_same. simpl. now destruct (Py.truthy (Note.modified note)). }
  split; [|split; [|split]].
  - simpl. rewrite Hf. apply lookup_insert_eq.
  - simpl. apply dict_get_set_same.
  - exact Hm.
  - intros Htr. rewrite Hm, Htr. apply gt_irrefl.
Qed.

Lemma save_note_records_witness :
  exists title guid,
    Note.title (sample_note "11111111-aaaa" "Plan" (Some "2024-01-01")) = Some title
    /\ Note.guid (sample_note "11111111-aaaa" "Plan" (Some "2024-01-01")) = Some guid
    /\ LocalStorage.files
         (snd (LocalStorage.save_note (LocalStorage.init "out" true) "Personal" "/Work/"
                 (sample_note "11111111-aaaa" "Plan" (Some "2024-01-01")) "one" "md" "t1"))
       !! "out/Personal/Work/Plan.md" = Some "one"
    /\ Dict.get guid
         (LocalStorage.note_index
            (snd (LocalStorage.save_note (LocalStorage.init "out" true) "Personal" "/Work/"
                    (sample_note "11111111-aaaa" "Plan" (Some "2024-01-01")) "one" "md" "t1")))
       = Some (Entry.Build title "out/Personal/Work/Plan.md" "Personal" "/Work/"
                 (Note.created (sample_note "11111111-aaaa" "Plan" (Some "2024-01-01")))
                 (Note.modified (sample_note "11111111-aaaa" "Plan" (Some "2024-01-01")))
                 (default (TagList [])
                    (Note.tags (sample_note "11111111-aaaa" "Plan" (Some "2024-01-01"))))
                 "md" "t1")
    /\ (forall modified_time,
          LocalStorage.is_note_modified
            (snd (LocalStorage.save_note (LocalStorage.init "out" true) "Personal" "/Work/"
                    (sample_note "11111111-aaaa" "Plan" (Some "2024-01-01")) "one" "md" "t1"))
            guid modified_time
          = if Py.truthy (Note.modified (sample_note "11111111-aaaa" "Plan" (Some "2024-01-01")))
            then Py.gt modified_time
                   (default EmptyString
                      (Note.modified (sample_note "11111111-aaaa" "Plan" (Some "2024-01-01"))))
            else true)
    /\ (Py.truthy (Note.modified (sample_note "11111111-aaaa" "Plan" (Some "2024-01-01"))) = true ->
        LocalStorage.is_note_modified
          (snd (LocalStorage.save_note (LocalStorage.init "out" true) "Personal" "/Work/"
                  (sample_note "11111111-aaaa" "Plan" (Some "2024-01-01")) "one" "md" "t1"))
          guid
          (default EmptyString
             (Note.modified (sample_note "11111111-aaaa" "Plan" (Some "2024-01-01"))))
        = false).
Proof.
  apply (save_note_records (LocalStorage.init "out" true)
           (snd (LocalStorage.save_note (LocalStorage.init "out" true) "Personal" "/Work/"
                   (sample_note "11111111-aaaa" "Plan" (Some "2024-01-01")) "one" "md" "t1"))
           "Personal" "/Work/" (sample_note "11111111-aaaa" "Plan" (Some "2024-01-01"))
           "one" "md" "t1" "out/Personal/Work/Plan.md").
  vm_compute. reflexivity.
Defined.

(** X6: whatever its outcome, [save_note] leaves the index entries of the
    other identities and every file other than the one it returns as they
    were, and removes no directory. *)
Theorem save_note_frame :
  forall (self self' : LocalStorage.t) (team_name folder_path : string)
         (note : Note.t) (content format now : string) (result : exc (option string)),
    LocalStorage.save_note self team_name folder_path note content format now
    = (result, self') ->
    (forall guid, Note.guid note <> Some guid ->
                  Dict.get guid (LocalStorage.note_index self')
                  = Dict.get guid (LocalStorage.note_index self))
    /\ (forall path, result <> Ok (Some path) ->
                     LocalStorage.files self' !! path = LocalStorage.files self !! path)
    /\ LocalStorage.dirs self ⊆ LocalStorage.dirs self'.
Proof.
  intros self self' team_name folder_path note content format now result.
  unfold LocalStorage.save_note.
  destruct (Note.title note) as [title|];
    [|intros E; injection E as <- <-; repeat split; reflexivity].
  destruct (Note.guid note) as [guid|];
    [|intros E; injection E as <- <-; repeat split; reflexivity].
  destruct (LocalStorage.get_note_path self team_name folder_path title guid)
    as [[file_path self1]|] eqn:Hp;
    [|intros E; injection E as <- <-; repeat split; reflexivity].
  destruct (get_note_path_frame _ _ _ _ _ _ _ Hp) as (Hf1 & Hi1 & Hd1).
  destruct (LocalStorage.write_file self1 file_path content) as [self2|] eqn:Hw.
  - destruct (write_file_files _ _ _ _ Hw) as (Hf2 & Hd2 & Hi2).
    intros E. injection E as <- <-. simpl. split; [|split].
    + intros g Hg. rewrite dict_get_set_other by congruence. now rewrite Hi2, Hi1.
    + intros path Hpath. rewrite Hf2, Hf1. apply lookup_insert_ne. congruence.
    + now rewrite Hd2.
  - intros E. injection E as <- <-. split; [|split].
    + intros g _. now rewrite Hi1.
    + intros path _. now rewrite Hf1.
    + exact Hd1.
Qed.

Lemma save_note_frame_witness :
  (forall guid, Note.guid (sample_note "22222222-bbbb" "Plan" None) <> Some guid ->
                Dict.get guid (LocalStorage.note_index (snd saved_other))
                = Dict.get guid (LocalStorage.note_index (snd saved_once)))
  /\ (forall path, fst saved_other <> Ok (Some path) ->
                   LocalStorage.files (snd saved_other) !! path
                   = LocalStorage.files (snd saved_once) !! path)
  /\ LocalStorage.dirs (snd saved_once) ⊆ LocalStorage.dirs (snd saved_other).
Proof.
  apply (save_note_frame (snd saved_once) (snd saved_other) "Personal" "/Work/"
           (sample_note "22222222-bbbb" "Plan" None) "two" "md" "t2" (fst saved_other)).
  unfold saved_other. now destruct (LocalStorage.save_note _ _ _ _ _ _ _).
Defined.

(** ** [_download_note] on a note without a title *)

Lemma store_content_without_title (self : NoteDownloader.t)
    (folder_path note_guid html_content : string) (note_info : Note.t) :
  Note.title note_info = None ->
  fst (NoteDownloader.store_content self folder_path note_guid html_content note_info) = false
  /\ NoteDownloader.storage
       (snd (NoteDownloader.store_content self folder_path note_guid html_content note_info))
     = NoteDownloader.storage self
  /\ NoteDownloader.stat
       (snd (NoteDownloader.store_content self folder_path note_guid html_content note_info))
     = NoteDownloader.stat self
  /\ NoteDownloader.failed_items
       (snd (NoteDownloader.store_content self folder_path note_guid html_content note_info))
     = NoteDownloader.failed_items self.
Proof.
  intros Ht. unfold NoteDownloader.store_content, LocalStorage.save_note. rewrite Ht.
  destruct (NoteDownloader.converter self) as [conv|]; [|now repeat split].
  destruct (convert_to_markdown (NoteDownloader.cfg self)); [|now repeat split].
  destruct (HTMLToMarkdownConverter.convert conv html_content note_info _) as [[md ex]|];
    now repeat split.
Qed.

(** X7: a note that has no title, neither as it is listed nor in the full
    information of the API, cannot be downloaded: [save_note] reads
    [note['title']] in its [try] block and again in its [except] clause, so
    [_download_note] returns [False], and the storage, the counters and the
    failure list stay as they were. *)
Theorem download_note_without_title :
  forall (self : NoteDownloader.t) (folder_path : string) (note_info : Note.t),
    Note.title note_info = None ->
    (forall full,
        get_note_info (NoteDownloader.api self) (Note.the_guid note_info) = Ok (Some full) ->
        Note.title full = None) ->
    fst (fst (NoteDownloader._download_note self folder_path note_info)) = Ok false
    /\ NoteDownloader.storage (snd (NoteDownloader._download_note self folder_path note_info))
       = NoteDownloader.storage self
    /\ NoteDownloader.stat (snd (NoteDownloader._download_note self folder_path note_info))
       = NoteDownloader.stat self
    /\ NoteDownloader.failed_items (snd (NoteDownloader._download_note self folder_path note_info))
       = NoteDownloader.failed_items self.
Proof.
  intros self folder_path note_info Ht Hfull. unfold NoteDownloader._download_note.
  destruct (get_note_info (NoteDownloader.api self) (Note.the_guid note_info))
    as [full_note_info|] eqn:Hi; [|now repeat split].
  set (merged := NoteDownloader.normalize _).
  assert (Hm : Note.title merged = None).
  { unfold merged. destruct full_note_info as [full|]; simpl; [|exact Ht].
    rewrite (Hfull full eq_refl). exact Ht. }
  destruct (download_note (NoteDownloader.api self) (Note.the_guid note_info))
    as [[html_content|]|]; try now repeat split.
  destruct (String.eqb html_content EmptyString).
  - destruct (get_note_html (NoteDownloader.api self) (Note.the_guid note_info))
      as [html|]; [|now repeat split].
    destruct (String.eqb html EmptyString); [now repeat split|].
    pose proof (store_content_without_title self folder_path (Note.the_guid note_info)
                  html merged Hm) as H.
    destruct (NoteDownloader.store_content _ _ _ _ _) as [ok self']. simpl in *.
    destruct H as (-> & H). now split.
  - pose proof (store_content_without_title self folder_path (Note.the_guid note_info)
                  html_content merged Hm) as H.
    destruct (NoteDownloader.store_content _ _ _ _ _) as [ok self']. simpl in *.
    destruct H as (-> & H). now split.
Qed.

Lemma download_note_without_title_witness :
  fst (fst (NoteDownloader._download_note untitled_downloader "/Notes/" untitled_note))
  = Ok false
  /\ NoteDownloader.storage
       (snd (NoteDownloader._download_note untitled_downloader "/Notes/" untitled_note))
     = NoteDownloader.storage untitled_downloader
  /\ NoteDownloader.stat
       (snd (NoteDownloader._download_note untitled_downloader "/Notes/" untitled_note))
     = NoteDownloader.stat untitled_downloader
  /\ NoteDownloader.failed_items
       (snd (NoteDownloader._download_note untitled_downloader "/Notes/" untitled_note))
     = NoteDownloader.failed_items untitled_downloader.
Proof.
  apply (download_note_without_title untitled_downloader "/Notes/" untitled_note).
  - reflexivity.
  - intros full H. injection H as <-. reflexivity.
Defined.

(** ** [save_attachment]: where the file goes *)







Lemma prefix_char (p c : ascii) (r : string) :
  String.prefix (String p EmptyString) (String c r) = Ascii.eqb c p.
Proof.
  simpl. destruct (ascii_dec p c) as [->|N].
  - rewrite Ascii.eqb_refl. now destruct r.
  - symmetry. apply Ascii.eqb_neq. congruence.
Qed.














(** ** [DirectMarkdownHandler] *)

Lemma direct_add_metadata_starts (markdown_content : string) (note_info : Note.t) :
  Py.startswith (DirectMarkdownHandler._add_metadata markdown_content note_info)
    ("---" +:+ nl) = true.
Proof.
  unfold DirectMarkdownHandler._add_metadata.
  destruct (Py.startswith markdown_content ("---" +:+ nl)) eqn:E; [exact E|].
  cbn [app]. rewrite join_two. unfold Py.startswith.
  rewrite <- !app_assoc_s. rewrite app_assoc_s. apply prefix_of_app.
Qed.

(** X10: the front matter of [DirectMarkdownHandler] is added once: the
    result of [_add_metadata] starts with the delimiter line, and adding
    the metadata to it again returns it as it is. *)
Theorem direct_add_metadata_idempotent :
  forall (markdown_content : string) (note_info other_info : Note.t),
    Py.startswith (DirectMarkdownHandler._add_metadata markdown_content note_info)
      ("---" +:+ nl) = true
    /\ DirectMarkdownHandler._add_metadata
         (DirectMarkdownHandler._add_metadata markdown_content note_info) other_info
       = DirectMarkdownHandler._add_metadata markdown_content note_info.
Proof.
  intros markdown_content note_info other_info.
  pose proof (direct_add_metadata_starts markdown_content note_info) as H.
  split; [exact H|].
  unfold DirectMarkdownHandler._add_metadata at 1. now rewrite H.
Qed.

(** X11: on a text that does not start with the delimiter line, and for a
    note without an author, the two [_add_metadata] methods give the same
    result. *)
Theorem add_metadata_methods_agree :
  forall (markdown_content : string) (note_info : Note.t),
    Py.startswith markdown_content ("---" +:+ nl) = false ->
    Py.truthy (Note.author note_info) = false ->
    DirectMarkdownHandler._add_metadata markdown_content note_info
    = HTMLToMarkdownConverter._add_metadata markdown_content note_info.
Proof.
  intros markdown_content note_info Hs Ha.
  unfold DirectMarkdownHandler._add_metadata, HTMLToMarkdownConverter._add_metadata.
  rewrite Hs.
  assert (E : optional_line "author" (Note.author note_info) = [])
    by (unfold optional_line; now rewrite Ha).
  now rewrite E.
Qed.

Lemma add_metadata_methods_agree_witness :
  DirectMarkdownHandler._add_metadata ("# Plan" +:+ nl)
    (Note.Build None (Some "g1") (Some "Plan") None (Some "2024-01-02") (Some "2024-01-01")
       (Some (TagList ["a"; "b"])) (Some EmptyString))
  = HTMLToMarkdownConverter._add_metadata ("# Plan" +:+ nl)
      (Note.Build None (Some "g1") (Some "Plan") None (Some "2024-01-02") (Some "2024-01-01")
         (Some (TagList ["a"; "b"])) (Some EmptyString)).
Proof.
  apply (add_metadata_methods_agree ("# Plan" +:+ nl)
           (Note.Build None (Some "g1") (Some "Plan") None (Some "2024-01-02")
              (Some "2024-01-01") (Some (TagList ["a"; "b"])) (Some EmptyString)));
    reflexivity.
Defined.

Lemma rstrip_app_char (chars : ascii -> bool) (a : string) (c : ascii) :
  chars c = true -> Py.rstrip chars (a +:+ String c EmptyString) = Py.rstrip chars a.
Proof.
  intros Hc. induction a as [|x a IH].
  - simpl. now rewrite Hc.
  - rewrite app_cons, !rstrip_cons, IH. reflexivity.
Qed.

Lemma strip_fixed (chars : ascii -> bool) (s : string) :
  Py.strip chars (Py.strip chars s) = Py.strip chars s.
Proof.
  unfold Py.strip at 1. rewrite strip_lstrip. unfold Py.strip. apply rstrip_idem.
Qed.

(** X12: the text that [_clean_markdown] returns is a body that has no
    white space at either end, followed by one line feed: it never ends
    with two line feeds. *)
Theorem clean_markdown_one_final_newline :
  forall content : string,
    exists body,
      DirectMarkdownHandler._clean_markdown content = body +:+ nl
      /\ Py.strip Py.isspace body = body
      /\ Py.endswith (DirectMarkdownHandler._clean_markdown content) (nl +:+ nl) = false.
Proof.
  intros content. unfold DirectMarkdownHandler._clean_markdown.
  set (body := Py.strip Py.isspace _).
  assert (Hb : Py.strip Py.isspace body = body) by apply strip_fixed.
  exists body. split; [reflexivity|]. split; [exact Hb|].
  destruct (Py.endswith (body +:+ nl) (nl +:+ nl)) eqn:E; [|reflexivity].
  apply endswith_iff in E as [a E]. rewrite <- app_assoc_s in E.
  apply app_inv_tail_s in E.
  assert (Hr : Py.rstrip Py.isspace body = body).
  { rewrite <- Hb at 2. unfold Py.strip. rewrite <- Hb at 1. unfold Py.strip.
    apply rstrip_idem. }
  rewrite E in Hr. unfold nl in Hr. rewrite rstrip_app_char in Hr by reflexivity.
  pose proof (length_rstrip_le Py.isspace a) as L. rewrite Hr, length_app in L.
  simpl in L. lia.
Qed.

(** ** [convert_batch] *)

Lemma convert_total (self : HTMLToMarkdownConverter.t) (html_content : string)
    (note_info : Note.t) (resources : list string) :
  exists r, HTMLToMarkdownConverter.convert self html_content note_info resources = Ok r.
Proof.
  destruct (HTMLToMarkdownConverter.convert_steps self html_content note_info resources)
    as [r|e] eqn:E.
  - exists r. now apply convert_ok.
  - eexists. now apply (convert_caught _ _ _ _ e).
Qed.

Lemma convert_batch_map (self : HTMLToMarkdownConverter.t)
    (notes : list HTMLToMarkdownConverter.batch_note) :
  HTMLToMarkdownConverter.convert_batch self notes
  = map (HTMLToMarkdownConverter.convert_one self) notes.
Proof.
  unfold HTMLToMarkdownConverter.convert_batch.
  assert (G : forall acc,
             fold_left (fun results note =>
                          results ++ [HTMLToMarkdownConverter.convert_one self note])
               notes acc
             = acc ++ map (HTMLToMarkdownConverter.convert_one self) notes).
  { induction notes as [|n notes IH]; intros acc; simpl.
    - now rewrite app_nil_r.
    - now rewrite IH, <- app_assoc. }
  apply G.
Qed.

(** X13: [convert_batch] returns one result for each note, in the order of
    the notes, and each of them is a success that carries the identity of
    the note's information and the result of [convert]: since [convert]
    catches its own exceptions, the failure branch is never taken. *)
Theorem convert_batch_all_succeed :
  forall (self : HTMLToMarkdownConverter.t)
         (notes : list HTMLToMarkdownConverter.batch_note),
    Forall2
      (fun note result =>
         exists markdown_content extracted_resources,
           HTMLToMarkdownConverter.convert self
             (default EmptyString (HTMLToMarkdownConverter.batch_html_content note))
             (default HTMLToMarkdownConverter.no_info
                (HTMLToMarkdownConverter.batch_info note))
             (default [] (HTMLToMarkdownConverter.batch_resources note))
           = Ok (markdown_content, extracted_resources)
           /\ result
              = HTMLToMarkdownConverter.BatchConverted
                  (Note.guid (default HTMLToMarkdownConverter.no_info
                                (HTMLToMarkdownConverter.batch_info note)))
                  markdown_content extracted_resources)
      notes (HTMLToMarkdownConverter.convert_batch self notes).
Proof.
  intros self notes. rewrite convert_batch_map.
  induction notes as [|note notes IH]; simpl; constructor; [|exact IH].
  unfold HTMLToMarkdownConverter.convert_one.
  destruct (convert_total self
              (default EmptyString (HTMLToMarkdownConverter.batch_html_content note))
              (default HTMLToMarkdownConverter.no_info
                 (HTMLToMarkdownConverter.batch_info note))
              (default [] (HTMLToMarkdownConverter.batch_resources note)))
    as [[md ex] E].
  rewrite E. now exists md, ex.
Qed.

(** ** Relations that every step of a run keeps *)

Section Through_download_note.

Variable R : NoteDownloader.t -> NoteDownloader.t -> Prop.
Hypothesis R_refl : forall a, R a a.
Hypothesis R_trans : forall a b c, R a b -> R b c -> R a c.
Hypothesis R_save_note :
  forall self folder_path note_info content format,
    R self (NoteDownloader.with_storage self
              (snd (LocalStorage.save_note (NoteDownloader.storage self)
                      (NoteDownloader.kb_name self) folder_path note_info content format
                      (NoteDownloader.clock self)))).
Hypothesis R_save_extracted :
  forall note_path self resource,
    R self (NoteDownloader.save_extracted note_path self resource).
Hypothesis R_after_save :
  forall self note_guid note_path,
    R self (snd (NoteDownloader.after_save self note_guid note_path)).

Lemma through_fold {B : Type} (f : NoteDownloader.t -> B -> NoteDownloader.t) (l : list B) :
  (forall a b, R a (f a b)) -> forall a, R a (fold_left f l a).
Proof.
  intros H. induction l as [|b l IH]; intros a; simpl; [apply R_refl|].
  exact (R_trans _ _ _ (H a b) (IH (f a b))).
Qed.

Lemma through_save_then_after (self : NoteDownloader.t)
    (folder_path note_guid content format : string) (note_info : Note.t) :
  R self
    (snd (match LocalStorage.save_note (NoteDownloader.storage self)
                  (NoteDownloader.kb_name self) folder_path note_info content format
                  (NoteDownloader.clock self) with
          | (Raise _, s) => (false, NoteDownloader.with_storage self s)
          | (Ok note_path, s) =>
              NoteDownloader.after_save (NoteDownloader.with_storage self s)
                note_guid note_path
          end)).
Proof.
  pose proof (R_save_note self folder_path note_info content format) as H.
  destruct (LocalStorage.save_note _ _ _ _ _ _ _) as [[note_path|e] s]; [|exact H].
  exact (R_trans _ _ _ H (R_after_save _ _ _)).
Qed.

Lemma through_store_content (self : NoteDownloader.t)
    (folder_path note_guid html_content : string) (note_info : Note.t) :
  R self (snd (NoteDownloader.store_content self folder_path note_guid html_content
                 note_info)).
Proof.
  unfold NoteDownloader.store_content.
  destruct (NoteDownloader.converter self) as [conv|];
    [|apply through_save_then_after].
  destruct (convert_to_markdown _); [|apply through_save_then_after].
  destruct (HTMLToMarkdownConverter.convert _ _ _ _) as [[md extracted]|];
    [|apply R_refl].
  pose proof (R_save_note self folder_path note_info md "md") as H.
  destruct (LocalStorage.save_note _ _ _ _ _ _ _) as [[note_path|e] s]; [|exact H].
  apply (R_trans _ _ _ H). destruct note_path as [p|]; [|apply R_after_save].
  exact (R_trans _ _ _ (through_fold _ extracted (R_save_extracted p) _)
           (R_after_save _ _ _)).
Qed.

Lemma through_download_note (self : NoteDownloader.t) (folder_path : string)
    (note_info : Note.t) :
  R self (snd (NoteDownloader._download_note self folder_path note_info)).
Proof.
  unfold NoteDownloader._download_note.
  destruct (get_note_info _ _) as [full|]; [|apply R_refl].
  destruct (download_note _ _) as [[html|]|]; [|apply R_refl|apply R_refl].
  destruct (String.eqb html EmptyString).
  - destruct (get_note_html _ _) as [html'|]; [|apply R_refl].
    destruct (String.eqb html' EmptyString); [apply R_refl|].
    pose proof (through_store_content self folder_path (Note.the_guid note_info) html'
                  (NoteDownloader.normalize
                     match full with
                     | Some f => NoteDownloader.update note_info f
                     | None => note_info
                     end)) as H.
    now destruct (NoteDownloader.store_content _ _ _ _ _).
  - pose proof (through_store_content self folder_path (Note.the_guid note_info) html
                  (NoteDownloader.normalize
                     match full with
                     | Some f => NoteDownloader.update note_info f
                     | None => note_info
                     end)) as H.
    now destruct (NoteDownloader.store_content _ _ _ _ _).
Qed.

End Through_download_note.

Section Through_download_all.

Variable R : NoteDownloader.t -> NoteDownloader.t -> Prop.
Hypothesis R_refl : forall a, R a a.
Hypothesis R_trans : forall a b c, R a b -> R b c -> R a c.
Hypothesis R_download_note :
  forall self folder_path note_info,
    R self (snd (NoteDownloader._download_note self folder_path note_info)).
Hypothesis R_note_counters :
  forall self s,
    total_attachments s = total_attachments (NoteDownloader.stat self) ->
    downloaded_attachments s = downloaded_attachments (NoteDownloader.stat self) ->
    failed_attachments s = failed_attachments (NoteDownloader.stat self) ->
    R self (NoteDownloader.with_stat self s).

Lemma through_complete_note (folder_path : string) (self : NoteDownloader.t)
    (note : Note.t) :
  R self (NoteDownloader.complete_note folder_path self note).
Proof.
  unfold NoteDownloader.complete_note.
  pose proof (R_download_note self folder_path note) as H.
  destruct (download_note_never_raises self folder_path note) as (ok & n & s & E).
  rewrite E in *. simpl in H. apply (R_trans _ _ _ H).
  destruct ok; now apply R_note_counters.
Qed.

Lemma through_select_notes (notes : list Note.t) :
  forall (acc : list Note.t) (self : NoteDownloader.t),
    R self (snd (fold_left NoteDownloader.select_note notes (acc, self))).
Proof.
  induction notes as [|n notes IH]; intros acc self; [apply R_refl|].
  cbn [fold_left]. unfold NoteDownloader.select_note at 2.
  destruct (_ && _); [|apply IH].
  refine (R_trans _ _ _ _ (IH _ _)). now apply R_note_counters.
Qed.

Lemma through_complete_notes (folder_path : string) (notes : list Note.t) :
  forall self, R self (fold_left (NoteDownloader.complete_note folder_path) notes self).
Proof.
  induction notes as [|n notes IH]; intros self; [apply R_refl|].
  exact (R_trans _ _ _ (through_complete_note folder_path self n) (IH _)).
Qed.

Lemma through_download_folder (self : NoteDownloader.t) (folder_path : string) :
  R self (NoteDownloader._download_folder self folder_path).
Proof.
  unfold NoteDownloader._download_folder.
  destruct (get_all_notes_in_folder _ _) as [|n notes]; [apply R_refl|].
  pose proof (through_select_notes (n :: notes) []
                (NoteDownloader.with_stat self
                   (NoteDownloader.add_total_notes (length (n :: notes))
                      (NoteDownloader.stat self)))) as H.
  destruct (fold_left NoteDownloader.select_note _ _) as [to_download self'].
  simpl in H.
  refine (R_trans _ _ _ _ (R_trans _ _ _ H (through_complete_notes _ _ _))).
  now apply R_note_counters.
Qed.

Lemma through_download_all (self : NoteDownloader.t) (folders_filter : list string) :
  R self (NoteDownloader.download_all self folders_filter).
Proof.
  unfold NoteDownloader.download_all.
  destruct (get_all_folders _); [apply R_refl|].
  generalize (match folders_filter with
              | [] => match exclude_folders (NoteDownloader.cfg self) with
                      | [] => s :: l
                      | _ :: _ =>
                          filter (fun f => existsb (fun ex => Py.startswith f ex)
                                             (exclude_folders (NoteDownloader.cfg self))
                                           = false) (s :: l)
                      end
              | _ :: _ => filter (fun f => f ∈ folders_filter) (s :: l)
              end).
  intros folders. revert self.
  induction folders as [|f folders IH]; intros self; [apply R_refl|].
  exact (R_trans _ _ _ (through_download_folder self f) (IH _)).
Qed.

End Through_download_all.

(** ** The counters of a run *)

Lemma one_attachment_counters (note_guid note_path : string) (self : NoteDownloader.t)
    (attachment : Attachment.t) :
  settled_attachments
    (NoteDownloader.stat
       (NoteDownloader.download_one_attachment note_guid note_path self attachment))
  = settled_attachments (NoteDownloader.stat self)
    + (if has_identity attachment then 1 else 0)
  /\ total_attachments
       (NoteDownloader.stat
          (NoteDownloader.download_one_attachment note_guid note_path self attachment))
     = total_attachments (NoteDownloader.stat self)
  /\ note_counters
       (NoteDownloader.stat
          (NoteDownloader.download_one_attachment note_guid note_path self attachment))
     = note_counters (NoteDownloader.stat self)
  /\ NoteDownloader.api
       (NoteDownloader.download_one_attachment note_guid note_path self attachment)
     = NoteDownloader.api self.
Proof.
  unfold NoteDownloader.download_one_attachment, has_identity, settled_attachments.
  destruct (String.eqb _ EmptyString); simpl; [repeat split; lia|].
  destruct (download_attachment _ _ _) as [content|e]; simpl; [|repeat split; lia].
  destruct (Py.truthy content); simpl; [|repeat split; lia].
  destruct (LocalStorage.save_attachment _ _ _ _). simpl. repeat split; lia.
Qed.

Lemma download_attachments_counters :
  forall (self : NoteDownloader.t) (note_guid note_path : string)
         (attachments : list Attachment.t),
    settled_attachments
      (NoteDownloader.stat
         (NoteDownloader._download_attachments self note_guid note_path attachments))
    = settled_attachments (NoteDownloader.stat self)
      + length (List.filter has_identity attachments)
    /\ total_attachments
         (NoteDownloader.stat
            (NoteDownloader._download_attachments self note_guid note_path attachments))
       = total_attachments (NoteDownloader.stat self)
    /\ note_counters
         (NoteDownloader.stat
            (NoteDownloader._download_attachments self note_guid note_path attachments))
       = note_counters (NoteDownloader.stat self).
Proof.
  intros self note_guid note_path attachments. unfold NoteDownloader._download_attachments.
  revert self. induction attachments as [|a attachments IH]; intros self; simpl.
  - repeat split; lia.
  - destruct (IH (NoteDownloader.download_one_attachment note_guid note_path self a))
      as (H1 & H2 & H3).
    destruct (one_attachment_counters note_guid note_path self a) as (K1 & K2 & K3 & _).
    rewrite H1, H2, H3, K1, K2, K3.
    destruct (has_identity a); simpl; repeat split; lia.
Qed.

(** X14: [_download_attachments] settles every attachment that has an
    identity exactly once, as downloaded or as failed, and passes over
    those that have none; it changes neither the total of the attachments
    nor the counters of the notes. *)
Theorem download_attachments_accounting :
  forall (self : NoteDownloader.t) (note_guid note_path : string)
         (attachments : list Attachment.t),
    downloaded_attachments
      (NoteDownloader.stat
         (NoteDownloader._download_attachments self note_guid note_path attachments))
    + failed_attachments
        (NoteDownloader.stat
           (NoteDownloader._download_attachments self note_guid note_path attachments))
    = downloaded_attachments (NoteDownloader.stat self)
      + failed_attachments (NoteDownloader.stat self)
      + length (List.filter has_identity attachments)
    /\ total_attachments
         (NoteDownloader.stat
            (NoteDownloader._download_attachments self note_guid note_path attachments))
       = total_attachments (NoteDownloader.stat self)
    /\ note_counters
         (NoteDownloader.stat
            (NoteDownloader._download_attachments self note_guid note_path attachments))
       = note_counters (NoteDownloader.stat self).
Proof.
  intros self note_guid note_path attachments.
  destruct (download_attachments_counters self note_guid note_path attachments)
    as (H1 & H2 & H3).
  unfold settled_attachments in H1. repeat split; assumption.
Qed.

Lemma save_extracted_stat (note_path : string) (self : NoteDownloader.t)
    (resource : Resource.t) :
  NoteDownloader.stat (NoteDownloader.save_extracted note_path self resource)
  = NoteDownloader.stat self.
Proof.
  unfold NoteDownloader.save_extracted. destruct (_ && _); [|reflexivity].
  unfold LocalStorage.save_resource. now destruct (LocalStorage.save_attachment _ _ _ _).
Qed.

Lemma length_filter_le {A : Type} (f : A -> bool) (l : list A) :
  length (List.filter f l) <= length l.
Proof. induction l as [|x l IH]; simpl; [lia|]. destruct (f x); simpl; lia. Qed.

Lemma after_save_counters (self : NoteDownloader.t) (note_guid : string)
    (note_path : option string) :
  note_counters (NoteDownloader.stat (snd (NoteDownloader.after_save self note_guid note_path)))
  = note_counters (NoteDownloader.stat self)
  /\ attachments_within_total (NoteDownloader.stat self)
       (NoteDownloader.stat (snd (NoteDownloader.after_save self note_guid note_path))).
Proof.
  unfold NoteDownloader.after_save, attachments_within_total.
  destruct note_path as [p|]; [|split; [reflexivity|simpl; lia]].
  destruct (get_attachments _ _) as [attachments|]; [|split; [reflexivity|simpl; lia]].
  destruct (_ && _); [|split; [reflexivity|simpl; lia]]. simpl.
  destruct (download_attachments_counters
              (NoteDownloader.with_stat self
                 (NoteDownloader.add_total_attachments (length attachments)
                    (NoteDownloader.stat self)))
              note_guid p attachments) as (H1 & H2 & H3).
  rewrite H1, H2, H3. simpl. split; [reflexivity|].
  pose proof (length_filter_le has_identity attachments).
  unfold settled_attachments. simpl. lia.
Qed.

Lemma download_note_counters (self : NoteDownloader.t) (folder_path : string)
    (note_info : Note.t) :
  note_counters (NoteDownloader.stat
                   (snd (NoteDownloader._download_note self folder_path note_info)))
  = note_counters (NoteDownloader.stat self).
Proof.
  apply (through_download_note
           (fun a b => note_counters (NoteDownloader.stat b)
                       = note_counters (NoteDownloader.stat a))).
  - reflexivity.
  - intros a b c H1 H2. now rewrite H2.
  - reflexivity.
  - intros note_path s resource. now rewrite save_extracted_stat.
  - intros s note_guid note_path. apply after_save_counters.
Qed.

Lemma complete_note_counters (folder_path : string) (self : NoteDownloader.t)
    (note : Note.t) :
  settled_notes (NoteDownloader.stat (NoteDownloader.complete_note folder_path self note))
  = settled_notes (NoteDownloader.stat self) + 1
  /\ total_notes (NoteDownloader.stat (NoteDownloader.complete_note folder_path self note))
     = total_notes (NoteDownloader.stat self).
Proof.
  unfold NoteDownloader.complete_note.
  pose proof (download_note_counters self folder_path note) as H.
  destruct (download_note_never_raises self folder_path note) as (ok & n & s & E).
  rewrite E in *. simpl in H. unfold note_counters in H. injection H as H1 H2 H3 H4.
  unfold settled_notes. destruct ok; simpl; split; lia.
Qed.

Lemma complete_notes_counters (folder_path : string) (notes : list Note.t) :
  forall self : NoteDownloader.t,
    settled_notes
      (NoteDownloader.stat (fold_left (NoteDownloader.complete_note folder_path) notes self))
    = settled_notes (NoteDownloader.stat self) + length notes
    /\ total_notes
         (NoteDownloader.stat (fold_left (NoteDownloader.complete_note folder_path) notes self))
       = total_notes (NoteDownloader.stat self).
Proof.
  induction notes as [|n notes IH]; intros self; simpl; [split; lia|].
  destruct (IH (NoteDownloader.complete_note folder_path self n)) as [H1 H2].
  destruct (complete_note_counters folder_path self n) as [K1 K2].
  rewrite H1, H2, K1, K2. split; lia.
Qed.

Lemma select_notes_counters (notes : list Note.t) :
  forall (acc : list Note.t) (self : NoteDownloader.t),
    length (fst (fold_left NoteDownloader.select_note notes (acc, self)))
    + settled_notes
        (NoteDownloader.stat (snd (fold_left NoteDownloader.select_note notes (acc, self))))
    = length acc + settled_notes (NoteDownloader.stat self) + length notes
    /\ total_notes
         (NoteDownloader.stat (snd (fold_left NoteDownloader.select_note notes (acc, self))))
       = total_notes (NoteDownloader.stat self).
Proof.
  induction notes as [|n notes IH]; intros acc self; [simpl; split; lia|].
  cbn [fold_left]. unfold NoteDownloader.select_note at 2 4 6.
  destruct (_ && _).
  - destruct (IH acc (NoteDownloader.with_stat self
                        (NoteDownloader.add_skipped_notes (NoteDownloader.stat self))))
      as [H1 H2].
    rewrite H1, H2. unfold settled_notes. simpl. split; lia.
  - destruct (IH (acc ++ [n]) self) as [H1 H2].
    rewrite H1, H2, List.length_app. simpl. split; lia.
Qed.

Lemma download_folder_counters (self : NoteDownloader.t) (folder_path : string) :
  settled_notes (NoteDownloader.stat (NoteDownloader._download_folder self folder_path))
  + total_notes (NoteDownloader.stat self)
  = settled_notes (NoteDownloader.stat self)
    + total_notes (NoteDownloader.stat (NoteDownloader._download_folder self folder_path)).
Proof.
  unfold NoteDownloader._download_folder.
  destruct (get_all_notes_in_folder _ _) as [|n notes]; [lia|].
  destruct (select_notes_counters (n :: notes) []
              (NoteDownloader.with_stat self
                 (NoteDownloader.add_total_notes (length (n :: notes))
                    (NoteDownloader.stat self)))) as [H1 H2].
  destruct (fold_left NoteDownloader.select_note _ _) as [to_download self'].
  destruct (complete_notes_counters folder_path to_download self') as [K1 K2].
  rewrite K1, K2. simpl in *. unfold settled_notes in *. simpl in *. lia.
Qed.

Lemma download_all_counters :
  forall (self : NoteDownloader.t) (folders_filter : list string),
    settled_notes (NoteDownloader.stat (NoteDownloader.download_all self folders_filter))
    + total_notes (NoteDownloader.stat self)
    = settled_notes (NoteDownloader.stat self)
      + total_notes (NoteDownloader.stat (NoteDownloader.download_all self folders_filter)).
Proof.
  intros self folders_filter. unfold NoteDownloader.download_all.
  destruct (get_all_folders _); [lia|].
  generalize (match folders_filter with
              | [] => match exclude_folders (NoteDownloader.cfg self) with
                      | [] => s :: l
                      | _ :: _ =>
                          filter (fun f => existsb (fun ex => Py.startswith f ex)
                                             (exclude_folders (NoteDownloader.cfg self))
                                           = false) (s :: l)
                      end
              | _ :: _ => filter (fun f => f ∈ folders_filter) (s :: l)
              end).
  intros folders. revert self.
  induction folders as [|f folders IH]; intros self; simpl; [lia|].
  pose proof (download_folder_counters self f). specialize (IH (NoteDownloader._download_folder self f)).
  lia.
Qed.

(** X15: in a run every note that a folder lists is settled exactly once:
    the counters of the downloaded, the failed and the skipped notes grow
    together by as much as the counter of all notes. *)
Theorem download_all_settles_every_note :
  forall (self : NoteDownloader.t) (folders_filter : list string),
    downloaded_notes (NoteDownloader.stat (NoteDownloader.download_all self folders_filter))
    + failed_notes (NoteDownloader.stat (NoteDownloader.download_all self folders_filter))
    + skipped_notes (NoteDownloader.stat (NoteDownloader.download_all self folders_filter))
    + total_notes (NoteDownloader.stat self)
    = downloaded_notes (NoteDownloader.stat self) + failed_notes (NoteDownloader.stat self)
      + skipped_notes (NoteDownloader.stat self)
      + total_notes (NoteDownloader.stat (NoteDownloader.download_all self folders_filter)).
Proof.
  intros self folders_filter.
  pose proof (download_all_counters self folders_filter) as H.
  unfold settled_notes in H. exact H.
Qed.

(** X16: in a run the attachments that are counted as downloaded or as
    failed grow by no more than the total of the attachments. *)
Theorem download_all_attachments_within_total :
  forall (self : NoteDownloader.t) (folders_filter : list string),
    downloaded_attachments
      (NoteDownloader.stat (NoteDownloader.download_all self folders_filter))
    + failed_attachments
        (NoteDownloader.stat (NoteDownloader.download_all self folders_filter))
    + total_attachments (NoteDownloader.stat self)
    <= downloaded_attachments (NoteDownloader.stat self)
       + failed_attachments (NoteDownloader.stat self)
       + total_attachments
           (NoteDownloader.stat (NoteDownloader.download_all self folders_filter)).
Proof.
  intros self folders_filter.
  change (attachments_within_total (NoteDownloader.stat self)
            (NoteDownloader.stat (NoteDownloader.download_all self folders_filter))).
  apply (through_download_all
           (fun a b => attachments_within_total (NoteDownloader.stat a)
                         (NoteDownloader.stat b))).
  - intros a. unfold attachments_within_total. lia.
  - intros a b c. unfold attachments_within_total. lia.
  - apply (through_download_note
             (fun a b => attachments_within_total (NoteDownloader.stat a)
                           (NoteDownloader.stat b))).
    + intros a. unfold attachments_within_total. lia.
    + intros a b c. unfold attachments_within_total. lia.
    + intros. unfold attachments_within_total. simpl. lia.
    + intros note_path s resource. rewrite save_extracted_stat.
      unfold attachments_within_total. lia.
    + intros s note_guid note_path. apply after_save_counters.
  - intros s st H1 H2 H3. unfold attachments_within_total, settled_attachments. simpl. lia.
Qed.

(** ** A run removes nothing *)

Lemma nothing_removed_refl (s : LocalStorage.t) : nothing_removed s s.
Proof. unfold nothing_removed. repeat split; auto. Qed.

Lemma nothing_removed_trans (a b c : LocalStorage.t) :
  nothing_removed a b -> nothing_removed b c -> nothing_removed a c.
Proof.
  unfold nothing_removed. intros (H1 & H2 & H3) (K1 & K2 & K3).
  split; [|split]; [now transitivity (dom (LocalStorage.files b))
                   | now transitivity (LocalStorage.dirs b) | auto].
Qed.

Lemma dict_set_keeps_keys {V : Type} (k g : string) (v : V) (d : list (string * V)) :
  is_Some (Dict.get g d) -> is_Some (Dict.get g (Dict.set k v d)).
Proof.
  intros H. destruct (String.eqb_spec g k) as [->|N].
  - rewrite dict_get_set_same. eauto.
  - now rewrite dict_get_set_other.
Qed.

Lemma mkdir_frame (self self1 : LocalStorage.t) (d : string) :
  LocalStorage.mkdir self d = Ok self1 ->
  LocalStorage.files self1 = LocalStorage.files self
  /\ LocalStorage.note_index self1 = LocalStorage.note_index self
  /\ LocalStorage.dirs self ⊆ LocalStorage.dirs self1.
Proof.
  unfold LocalStorage.mkdir.
  destruct (LocalStorage.is_dir self d); [intros H; injection H as <-; auto|].
  destruct (LocalStorage.is_file self d); [discriminate|].
  destruct (LocalStorage.is_dir self (Path.parent d)); [|discriminate].
  intros H. injection H as <-. simpl. repeat split. apply union_subseteq_r.
Qed.

Lemma write_file_nothing_removed (self self1 : LocalStorage.t) (p content : string) :
  LocalStorage.write_file self p content = Ok self1 -> nothing_removed self self1.
Proof.
  intros H. destruct (write_file_files _ _ _ _ H) as (Hf & Hd & Hi).
  unfold nothing_removed. rewrite Hf, Hd, Hi, dom_insert_L.
  split; [apply union_subseteq_r | split; auto].
Qed.

Lemma save_note_nothing_removed (self : LocalStorage.t) (team_name folder_path : string)
    (note : Note.t) (content format now : string) :
  nothing_removed self
    (snd (LocalStorage.save_note self team_name folder_path note content format now)).
Proof.
  unfold LocalStorage.save_note.
  destruct (Note.title note) as [title|]; [|apply nothing_removed_refl].
  destruct (Note.guid note) as [guid|]; [|apply nothing_removed_refl].
  destruct (LocalStorage.get_note_path self team_name folder_path title guid)
    as [[file_path self1]|] eqn:Hp; [|apply nothing_removed_refl].
  destruct (get_note_path_frame _ _ _ _ _ _ _ Hp) as (Hf1 & Hi1 & Hd1).
  assert (H1 : nothing_removed self self1).
  { unfold nothing_removed. rewrite Hf1, Hi1. auto. }
  destruct (LocalStorage.write_file self1 file_path content) as [self2|] eqn:Hw;
    [|exact H1].
  apply (nothing_removed_trans _ _ _ H1).
  apply (nothing_removed_trans _ _ _ (write_file_nothing_removed _ _ _ _ Hw)).
  unfold nothing_removed. simpl. repeat split; auto.
  intros g. apply dict_set_keeps_keys.
Qed.

Lemma save_attachment_nothing_removed (self : LocalStorage.t)
    (note_path attachment_name content : string) :
  nothing_removed self
    (snd (LocalStorage.save_attachment self note_path attachment_name content)).
Proof.
  unfold LocalStorage.save_attachment.
  destruct (LocalStorage.mkdir self _) as [self1|] eqn:Hmk; [|apply nothing_removed_refl].
  destruct (mkdir_frame _ _ _ Hmk) as (Hf & Hi & Hd).
  assert (H1 : nothing_removed self self1).
  { unfold nothing_removed. rewrite Hf, Hi. auto. }
  destruct (LocalStorage.free_attachment_path self1 _ _) as [p|]; [|exact H1].
  destruct (LocalStorage.write_file self1 p content) as [self2|] eqn:Hw; [|exact H1].
  exact (nothing_removed_trans _ _ _ H1 (write_file_nothing_removed _ _ _ _ Hw)).
Qed.

Lemma one_attachment_nothing_removed (note_guid note_path : string)
    (self : NoteDownloader.t) (attachment : Attachment.t) :
  nothing_removed (NoteDownloader.storage self)
    (NoteDownloader.storage
       (NoteDownloader.download_one_attachment note_guid note_path self attachment)).
Proof.
  unfold NoteDownloader.download_one_attachment.
  destruct (String.eqb _ EmptyString); [apply nothing_removed_refl|].
  destruct (download_attachment _ _ _) as [content|e]; [|apply nothing_removed_refl].
  destruct (Py.truthy content); [|apply nothing_removed_refl].
  pose proof (save_attachment_nothing_removed (NoteDownloader.storage self) note_path
                (default "attachment" (Attachment.name attachment))
                (default EmptyString content)) as H.
  now destruct (LocalStorage.save_attachment _ _ _ _).
Qed.

Lemma download_note_nothing_removed (self : NoteDownloader.t) (folder_path : string)
    (note_info : Note.t) :
  nothing_removed (NoteDownloader.storage self)
    (NoteDownloader.storage (snd (NoteDownloader._download_note self folder_path note_info))).
Proof.
  apply (through_download_note
           (fun a b => nothing_removed (NoteDownloader.storage a) (NoteDownloader.storage b))).
  - intros a. apply nothing_removed_refl.
  - intros a b c. apply nothing_removed_trans.
  - intros s folder note content format. apply save_note_nothing_removed.
  - intros note_path s resource. unfold NoteDownloader.save_extracted.
    destruct (_ && _); [|apply nothing_removed_refl].
    unfold LocalStorage.save_resource.
    pose proof (save_attachment_nothing_removed (NoteDownloader.storage s) note_path
                  (Resource.filename resource)
                  (default EmptyString (Resource.data resource))) as H.
    now destruct (LocalStorage.save_attachment _ _ _ _).
  - intros s note_guid note_path. unfold NoteDownloader.after_save.
    destruct note_path as [p|]; [|apply nothing_removed_refl].
    destruct (get_attachments _ _) as [attachments|]; [|apply nothing_removed_refl].
    destruct (_ && _); [|apply nothing_removed_refl]. simpl.
    unfold NoteDownloader._download_attachments.
    apply (through_fold
             (fun a b => nothing_removed (NoteDownloader.storage a)
                           (NoteDownloader.storage b))
             (fun a => nothing_removed_refl _)
             (fun a b c => nothing_removed_trans _ _ _)
             _ attachments (one_attachment_nothing_removed note_guid p)
             (NoteDownloader.with_stat s
                (NoteDownloader.add_total_attachments (length attachments)
                   (NoteDownloader.stat s)))).
Qed.

(** X17: a run removes nothing from the storage: every file and every
    directory that was there before [download_all] is there after it, and
    every identity that the index held is still in the index. *)
Theorem download_all_removes_nothing :
  forall (self : NoteDownloader.t) (folders_filter : list string),
    dom (LocalStorage.files (NoteDownloader.storage self))
    ⊆ dom (LocalStorage.files
             (NoteDownloader.storage (NoteDownloader.download_all self folders_filter)))
    /\ LocalStorage.dirs (NoteDownloader.storage self)
       ⊆ LocalStorage.dirs
           (NoteDownloader.storage (NoteDownloader.download_all self folders_filter))
    /\ forall guid,
         is_Some (Dict.get guid (LocalStorage.note_index (NoteDownloader.storage self))) ->
         is_Some (Dict.get guid
                    (LocalStorage.note_index
                       (NoteDownloader.storage
                          (NoteDownloader.download_all self folders_filter)))).
Proof.
  intros self folders_filter.
  apply (through_download_all
           (fun a b => nothing_removed (NoteDownloader.storage a) (NoteDownloader.storage b))).
  - intros a. apply nothing_removed_refl.
  - intros a b c. apply nothing_removed_trans.
  - apply download_note_nothing_removed.
  - intros s st _ _ _. apply nothing_removed_refl.
Qed.

Lemma download_all_removes_nothing_witness :
  dom (LocalStorage.files
         (NoteDownloader.storage
            (sample_downloader (Some "2024-01-02") "none" true store_with_attachments "t2")))
  ⊆ dom (LocalStorage.files
           (NoteDownloader.storage
              (NoteDownloader.download_all
                 (sample_downloader (Some "2024-01-02") "none" true
                    store_with_attachments "t2") [])))
  /\ LocalStorage.dirs
       (NoteDownloader.storage
          (sample_downloader (Some "2024-01-02") "none" true store_with_attachments "t2"))
     ⊆ LocalStorage.dirs
         (NoteDownloader.storage
            (NoteDownloader.download_all
               (sample_downloader (Some "2024-01-02") "none" true
                  store_with_attachments "t2") []))
  /\ forall guid,
       is_Some (Dict.get guid
                  (LocalStorage.note_index
                     (NoteDownloader.storage
                        (sample_downloader (Some "2024-01-02") "none" true
                           store_with_attachments "t2")))) ->
       is_Some (Dict.get guid
                  (LocalStorage.note_index
                     (NoteDownloader.storage
                        (NoteDownloader.download_all
                           (sample_downloader (Some "2024-01-02") "none" true
                              store_with_attachments "t2") [])))).
Proof.
  exact (download_all_removes_nothing
           (sample_downloader (Some "2024-01-02") "none" true store_with_attachments "t2")
           []).
Defined.

(** ** The normalisation of the note in [_download_note] *)

(** X18: the four assignments that give both names to the identity and to
    the modification time of a note change neither the identity nor the
    time that the downloader reads from it, leave [guid] and [docGuid]
    either both present or both absent, and likewise [modified] and
    [dataModified]; done again, they change nothing. *)
Theorem normalize_spec :
  forall n : Note.t,
    Note.the_guid (NoteDownloader.normalize n) = Note.the_guid n
    /\ Note.the_modified (NoteDownloader.normalize n) = Note.the_modified n
    /\ (Note.guid (NoteDownloader.normalize n) = None
        <-> Note.docGuid (NoteDownloader.normalize n) = None)
    /\ (Note.modified (NoteDownloader.normalize n) = None
        <-> Note.dataModified (NoteDownloader.normalize n) = None)
    /\ NoteDownloader.normalize (NoteDownloader.normalize n) = NoteDownloader.normalize n.
Proof.
  intros [docGuid guid title dataModified modified created tags author].
  unfold NoteDownloader.normalize, Note.the_guid, Note.the_modified. simpl.
  destruct docGuid, guid, dataModified, modified; simpl;
    repeat split; intros; congruence.
Qed.

(** ** [_extract_resources_from_html] *)

Lemma rfind_tail_absent (c : ascii) (p : string) :
  match Py.rfind c p with
  | Some i => contains_char c (Py.drop (S i) p) = false
  | None => contains_char c p = false
  end.
Proof.
  induction p as [|a r IH]; simpl; [reflexivity|].
  destruct (Py.rfind c r) as [i|].
  - exact IH.
  - destruct (Ascii.eqb a c) eqn:E; simpl.
    + destruct r; exact IH.
    + now rewrite IH.
Qed.

Lemma basename_no_slash (p : string) :
  contains_char "/"%char (NoteDownloader.basename p) = false.
Proof.
  unfold NoteDownloader.basename.
  pose proof (rfind_tail_absent "/"%char p) as H.
  now destruct (Py.rfind "/"%char p).
Qed.

Lemma add_resources_spec (sources : list string) :
  forall resources : list string,
    NoDup resources ->
    NoDup (fold_left NoteDownloader.add_resource sources resources)
    /\ forall name,
         name ∈ fold_left NoteDownloader.add_resource sources resources
         <-> name ∈ resources
             \/ exists src, src ∈ sources /\ NoteDownloader.is_external src = false
                            /\ NoteDownloader.basename src = name /\ name <> EmptyString.
Proof.
  induction sources as [|src sources IH]; intros resources Hnd; simpl.
  - split; [exact Hnd|]. intros name. split; [now left|].
    intros [H|(s & Hs & _)]; [exact H | now apply elem_of_nil in Hs].
  - assert (Hstep : NoDup (NoteDownloader.add_resource resources src)
                    /\ forall name,
                         name ∈ NoteDownloader.add_resource resources src
                         <-> name ∈ resources
                             \/ (NoteDownloader.is_external src = false
                                 /\ NoteDownloader.basename src = name
                                 /\ name <> EmptyString)).
    { unfold NoteDownloader.add_resource.
      destruct (NoteDownloader.is_external src); simpl.
      { split; [exact Hnd|]. intros name. split; [now left|].
        intros [H|(H & _)]; [exact H | discriminate H]. }
      destruct (String.eqb_spec (NoteDownloader.basename src) EmptyString) as [E|E]; simpl.
      { split; [exact Hnd|]. intros name. split; [now left|].
        intros [H|(_ & H1 & H2)]; [exact H | congruence]. }
      destruct (bool_decide_reflect (NoteDownloader.basename src ∈ resources)) as [M|M];
        simpl.
      { split; [exact Hnd|]. intros name. split; [now left|].
        intros [H|(_ & <- & _)]; [exact H | exact M]. }
      split.
      - apply NoDup_app. split; [exact Hnd|]. split; [|apply NoDup_singleton].
        intros x Hx Hx'. apply list_elem_of_singleton in Hx'. now subst x.
      - intros name. rewrite elem_of_app, list_elem_of_singleton. split.
        + intros [H | ->]; [now left | right; auto].
        + intros [H|(_ & <- & _)]; [now left | now right]. }
    destruct Hstep as [Hnd1 Hin1]. destruct (IH _ Hnd1) as [Hnd2 Hin2].
    split; [exact Hnd2|]. intros name. rewrite Hin2, Hin1. split.
    + intros [[H|(H1 & H2 & H3)]|(s & Hs & H)]; [now left| |].
      * right. exists src. split; [apply elem_of_cons; now left | auto].
      * right. exists s. split; [apply elem_of_cons; now right | exact H].
    + intros [H|(s & Hs & H)]; [now left; left|].
      apply elem_of_cons in Hs as [->|Hs]; [left; now right | right; now exists s].
Qed.

(** X19: the list that [_extract_resources_from_html] returns holds no
    name twice, no empty name and no name with a separator; a name is in
    it exactly when it is the last component, not empty, of the source of
    an image tag that starts with none of [http://], [https://] and
    [data:]. *)
Theorem extract_resources_from_html_spec :
  forall html_content : string,
    NoDup (NoteDownloader._extract_resources_from_html html_content)
    /\ (forall name,
          name ∈ NoteDownloader._extract_resources_from_html html_content
          <-> exists src,
                src ∈ NoteDownloader.img_sources 0 html_content
                /\ NoteDownloader.is_external src = false
                /\ NoteDownloader.basename src = name /\ name <> EmptyString)
    /\ Forall (fun name => name <> EmptyString /\ contains_char "/"%char name = false)
         (NoteDownloader._extract_resources_from_html html_content).
Proof.
  intros html_content. unfold NoteDownloader._extract_resources_from_html.
  destruct (add_resources_spec (NoteDownloader.img_sources 0 html_content) []
              NoDup_nil_2) as [Hnd Hin].
  assert (Hiff : forall name,
             name ∈ fold_left NoteDownloader.add_resource
                      (NoteDownloader.img_sources 0 html_content) []
             <-> exists src,
                   src ∈ NoteDownloader.img_sources 0 html_content
                   /\ NoteDownloader.is_external src = false
                   /\ NoteDownloader.basename src = name /\ name <> EmptyString).
  { intros name. rewrite Hin. split; [|now right].
    intros [H|H]; [now apply elem_of_nil in H | exact H]. }
  split; [exact Hnd|]. split; [exact Hiff|].
  apply Forall_forall. intros name Hname.
  apply Hiff in Hname as (src & _ & _ & <- & Hne).
  split; [exact Hne | apply basename_no_slash].
Qed.

(** ** A run that is not incremental *)

Lemma one_attachment_cfg (note_guid note_path : string) (self : NoteDownloader.t)
    (attachment : Attachment.t) :
  NoteDownloader.cfg (NoteDownloader.download_one_attachment note_guid note_path self attachment)
  = NoteDownloader.cfg self.
Proof.
  unfold NoteDownloader.download_one_attachment.
  destruct (String.eqb _ EmptyString); [reflexivity|].
  destruct (download_attachment _ _ _) as [content|e]; [|reflexivity].
  destruct (Py.truthy content); [|reflexivity].
  now destruct (LocalStorage.save_attachment _ _ _ _).
Qed.

Lemma download_note_cfg (self : NoteDownloader.t) (folder_path : string)
    (note_info : Note.t) :
  NoteDownloader.cfg (snd (NoteDownloader._download_note self folder_path note_info))
  = NoteDownloader.cfg self.
Proof.
  apply (through_download_note (fun a b => NoteDownloader.cfg b = NoteDownloader.cfg a)).
  - reflexivity.
  - intros a b c H1 H2. now rewrite H2.
  - reflexivity.
  - intros note_path s resource. unfold NoteDownloader.save_extracted.
    destruct (_ && _); [|reflexivity].
    unfold LocalStorage.save_resource. now destruct (LocalStorage.save_attachment _ _ _ _).
  - intros s note_guid note_path. unfold NoteDownloader.after_save.
    destruct note_path as [p|]; [|reflexivity].
    destruct (get_attachments _ _) as [attachments|]; [|reflexivity].
    destruct (_ && _); [|reflexivity]. simpl.
    unfold NoteDownloader._download_attachments.
    now rewrite (fold_left_preserves NoteDownloader.cfg _ _ (one_attachment_cfg note_guid p)).
Qed.

Lemma complete_note_skips_nothing (folder_path : string) (self : NoteDownloader.t)
    (note : Note.t) :
  NoteDownloader.cfg (NoteDownloader.complete_note folder_path self note)
  = NoteDownloader.cfg self
  /\ skipped_notes (NoteDownloader.stat (NoteDownloader.complete_note folder_path self note))
     = skipped_notes (NoteDownloader.stat self).
Proof.
  unfold NoteDownloader.complete_note.
  pose proof (download_note_counters self folder_path note) as H.
  pose proof (download_note_cfg self folder_path note) as C.
  destruct (download_note_never_raises self folder_path note) as (ok & n & s & E).
  rewrite E in *. simpl in H, C. unfold note_counters in H. injection H as H1 H2 H3 H4.
  destruct ok; simpl; split; assumption.
Qed.

Lemma select_notes_full (notes : list Note.t) :
  forall (acc : list Note.t) (self : NoteDownloader.t),
    incremental (NoteDownloader.cfg self) = false ->
    fold_left NoteDownloader.select_note notes (acc, self) = (acc ++ notes, self).
Proof.
  induction notes as [|n notes IH]; intros acc self Hinc; simpl.
  - now rewrite app_nil_r.
  - rewrite Hinc. simpl. rewrite IH by exact Hinc. now rewrite <- app_assoc.
Qed.

Lemma complete_notes_skip_nothing (folder_path : string) (notes : list Note.t) :
  forall self : NoteDownloader.t,
    NoteDownloader.cfg (fold_left (NoteDownloader.complete_note folder_path) notes self)
    = NoteDownloader.cfg self
    /\ skipped_notes
         (NoteDownloader.stat (fold_left (NoteDownloader.complete_note folder_path) notes self))
       = skipped_notes (NoteDownloader.stat self).
Proof.
  induction notes as [|n notes IH]; intros self; simpl; [now split|].
  destruct (IH (NoteDownloader.complete_note folder_path self n)) as [H1 H2].
  destruct (complete_note_skips_nothing folder_path self n) as [K1 K2].
  split; congruence.
Qed.

Lemma download_folder_skips_nothing (self : NoteDownloader.t) (folder_path : string) :
  incremental (NoteDownloader.cfg self) = false ->
  NoteDownloader.cfg (NoteDownloader._download_folder self folder_path)
  = NoteDownloader.cfg self
  /\ skipped_notes (NoteDownloader.stat (NoteDownloader._download_folder self folder_path))
     = skipped_notes (NoteDownloader.stat self).
Proof.
  intros Hinc. unfold NoteDownloader._download_folder.
  destruct (get_all_notes_in_folder _ _) as [|n notes]; [now split|].
  rewrite select_notes_full by exact Hinc.
  destruct (complete_notes_skip_nothing folder_path ([] ++ n :: notes)
              (NoteDownloader.with_stat self
                 (NoteDownloader.add_total_notes (length (n :: notes))
                    (NoteDownloader.stat self)))) as [H1 H2].
  rewrite H1, H2. now split.
Qed.

(** X20: when the configuration is not incremental, a run skips no note:
    the counter of the skipped notes stays as it was, so that every listed
    note is counted as downloaded or as failed. *)
Theorem full_run_skips_nothing :
  forall (self : NoteDownloader.t) (folders_filter : list string),
    incremental (NoteDownloader.cfg self) = false ->
    skipped_notes (NoteDownloader.stat (NoteDownloader.download_all self folders_filter))
    = skipped_notes (NoteDownloader.stat self)
    /\ downloaded_notes (NoteDownloader.stat (NoteDownloader.download_all self folders_filter))
       + failed_notes (NoteDownloader.stat (NoteDownloader.download_all self folders_filter))
       + total_notes (NoteDownloader.stat self)
       = downloaded_notes (NoteDownloader.stat self) + failed_notes (NoteDownloader.stat self)
         + total_notes (NoteDownloader.stat (NoteDownloader.download_all self folders_filter)).
Proof.
  intros self folders_filter Hinc.
  assert (H : skipped_notes
                (NoteDownloader.stat (NoteDownloader.download_all self folders_filter))
              = skipped_notes (NoteDownloader.stat self)).
  { unfold NoteDownloader.download_all.
    destruct (get_all_folders _); [reflexivity|].
    generalize (match folders_filter with
                | [] => match exclude_folders (NoteDownloader.cfg self) with
                        | [] => s :: l
                        | _ :: _ =>
                            filter (fun f => existsb (fun ex => Py.startswith f ex)
                                               (exclude_folders (NoteDownloader.cfg self))
                                             = false) (s :: l)
                        end
                | _ :: _ => filter (fun f => f ∈ folders_filter) (s :: l)
                end).
    intros folders. revert self Hinc.
    induction folders as [|f folders IH]; intros self Hinc; simpl; [reflexivity|].
    destruct (download_folder_skips_nothing self f Hinc) as [K1 K2].
    rewrite IH by congruence. exact K2. }
  split; [exact H|].
  pose proof (download_all_counters self folders_filter) as A.
  unfold settled_notes in A. lia.
Qed.

Lemma full_run_skips_nothing_witness :
  skipped_notes (NoteDownloader.stat
                   (NoteDownloader.download_all
                      (sample_downloader (Some "2024-01-01") "g2" false
                         (LocalStorage.init "out" true) "t1") []))
  = skipped_notes (NoteDownloader.stat
                     (sample_downloader (Some "2024-01-01") "g2" false
                        (LocalStorage.init "out" true) "t1"))
  /\ downloaded_notes (NoteDownloader.stat
                         (NoteDownloader.download_all
                            (sample_downloader (Some "2024-01-01") "g2" false
                               (LocalStorage.init "out" true) "t1") []))
     + failed_notes (NoteDownloader.stat
                       (NoteDownloader.download_all
                          (sample_downloader (Some "2024-01-01") "g2" false
                             (LocalStorage.init "out" true) "t1") []))
     + total_notes (NoteDownloader.stat
                      (sample_downloader (Some "2024-01-01") "g2" false
                         (LocalStorage.init "out" true) "t1"))
     = downloaded_notes (NoteDownloader.stat
                           (sample_downloader (Some "2024-01-01") "g2" false
                              (LocalStorage.init "out" true) "t1"))
       + failed_notes (NoteDownloader.stat
                         (sample_downloader (Some "2024-01-01") "g2" false
                            (LocalStorage.init "out" true) "t1"))
       + total_notes (NoteDownloader.stat
                        (NoteDownloader.download_all
                           (sample_downloader (Some "2024-01-01") "g2" false
                              (LocalStorage.init "out" true) "t1") [])).
Proof.
  apply (full_run_skips_nothing
           (sample_downloader (Some "2024-01-01") "g2" false
              (LocalStorage.init "out" true) "t1") []).
  reflexivity.
Defined.

(** ** [save_note]: when it succeeds *)















(** ** [_clean_markdown] leaves no tag *)

Lemma re_sub_skip (m : string -> option nat) (repl : string) (s : string) :
  forall k, re_sub m repl k s = re_sub m repl 0 (Py.drop k s).
Proof.
  induction s as [|c r IH]; intros [|k]; try reflexivity.
  simpl Py.drop. rewrite <- IH. reflexivity.
Qed.

Lemma re_sub_0 (m : string -> option nat) (repl : string) (c : ascii) (r : string) :
  re_sub m repl 0 (String c r)
  = match m (String c r) with
    | Some (S len) => repl +:+ re_sub m repl 0 (Py.drop len r)
    | _ => String c (re_sub m repl 0 r)
    end.
Proof.
  simpl. destruct (m (String c r)) as [[|len]|]; try reflexivity.
  now rewrite re_sub_skip.
Qed.

Lemma re_sub_empty_absent (m : string -> option nat) (c : ascii) (s : string) :
  forall k, contains_char c s = false ->
            contains_char c (re_sub m EmptyString k s) = false.
Proof.
  induction s as [|a r IH]; intros k H; [reflexivity|].
  simpl in H. apply orb_false_elim in H as [Ha Hr]. simpl.
  destruct k as [|k]; [|now apply IH].
  destruct (m (String a r)) as [[|len]|]; simpl; rewrite ?Ha; now apply IH.
Qed.

Lemma span_prefix (p : ascii -> bool) (s : string) :
  s = HTMLToMarkdownConverter.span p s
      +:+ Py.drop (String.length (HTMLToMarkdownConverter.span p s)) s.
Proof.
  induction s as [|c r IH]; simpl; [reflexivity|].
  destruct (p c); [|reflexivity]. simpl. rewrite app_cons. f_equal. exact IH.
Qed.

Lemma span_stop (p : ascii -> bool) (s : string) :
  Py.drop (String.length (HTMLToMarkdownConverter.span p s)) s = EmptyString
  \/ exists c r, Py.drop (String.length (HTMLToMarkdownConverter.span p s)) s = String c r
                 /\ p c = false.
Proof.
  induction s as [|c r IH]; simpl; [now left|].
  destruct (p c) eqn:E; simpl; [exact IH|]. right. now exists c, r.
Qed.

Lemma span_all (p : ascii -> bool) (s : string) :
  Forall (fun c => p c = true)
    (String.list_ascii_of_string (HTMLToMarkdownConverter.span p s)).
Proof.
  induction s as [|c r IH]; simpl; [constructor|].
  destruct (p c) eqn:E; simpl; [now constructor | constructor].
Qed.

Lemma span_not_char_absent (a : ascii) (s : string) :
  contains_char a (HTMLToMarkdownConverter.span (not_char a) s) = false.
Proof.
  induction s as [|c r IH]; simpl; [reflexivity|]. unfold not_char at 1.
  destruct (Ascii.eqb c a) eqn:E; simpl; [reflexivity | now rewrite E].
Qed.

Lemma startswith_cons (c a : ascii) (r : string) :
  Py.startswith (String c r) (String a EmptyString) = Ascii.eqb c a.
Proof. unfold Py.startswith. apply prefix_char. Qed.

Lemma startswith_char (s : string) (a : ascii) :
  Py.startswith s (String a EmptyString) = true -> exists r, s = String a r.
Proof.
  destruct s as [|c r]; [discriminate|]. unfold Py.startswith. rewrite prefix_char.
  intros E. apply Ascii.eqb_eq in E. subst c. now exists r.
Qed.

Lemma length_drop_le (k : nat) (s : string) : String.length (Py.drop k s) <= String.length s.
Proof.
  revert s; induction k as [|k IH]; intros [|c r]; simpl; try lia.
  specialize (IH r). lia.
Qed.

Lemma match_tag_cons (c : ascii) (r : string) :
  match_tag (String c r)
  = if Ascii.eqb c "<"%char then
      if String.eqb (HTMLToMarkdownConverter.span (not_char ">"%char) r) EmptyString
      then None
      else if Py.startswith
                (Py.drop (String.length (HTMLToMarkdownConverter.span (not_char ">"%char) r)) r)
                ">"
           then Some (S (String.length (HTMLToMarkdownConverter.span (not_char ">"%char) r) + 1))
           else None
    else None.
Proof.
  unfold match_tag. destruct (Ascii.eqb c "<"%char); [|reflexivity]. cbv zeta.
  destruct (String.eqb _ EmptyString); [reflexivity|].
  destruct (Py.startswith _ ">"); [|reflexivity]. f_equal. lia.
Qed.

Lemma tag_free_cons (c : ascii) (r : string) :
  tag_free (String c r)
  = (if Ascii.eqb c "<"%char
     then Py.startswith r ">" || negb (contains_char ">"%char r)
     else true)
    && tag_free r.
Proof. reflexivity. Qed.

Lemma tag_free_re_sub (n : nat) :
  forall s, String.length s <= n -> tag_free (re_sub match_tag EmptyString 0 s) = true.
Proof.
  induction n as [|n IH]; intros [|c r] Hlen; try reflexivity; [simpl in Hlen; lia|].
  simpl in Hlen. assert (Hr : String.length r <= n) by lia.
  rewrite re_sub_0, match_tag_cons.
  destruct (Ascii.eqb c "<"%char) eqn:Ec;
    [|rewrite tag_free_cons, Ec; now apply IH].
  set (inner := HTMLToMarkdownConverter.span (not_char ">"%char) r).
  destruct (String.eqb_spec inner EmptyString) as [Ei|Ei].
  - rewrite tag_free_cons, Ec, (IH r Hr), andb_true_r.
    destruct r as [|x r']; [reflexivity|].
    unfold inner in Ei. simpl in Ei. unfold not_char in Ei.
    destruct (Ascii.eqb x ">"%char) eqn:Ex; [|discriminate Ei].
    apply Ascii.eqb_eq in Ex. subst x. rewrite re_sub_0, match_tag_cons.
    change (Ascii.eqb ">"%char "<"%char) with false. cbv iota.
    now rewrite startswith_cons.
  - destruct (Py.startswith (Py.drop (String.length inner) r) ">") eqn:Es.
    + change (EmptyString +:+ ?x) with x. apply IH.
      pose proof (length_drop_le (String.length inner + 1) r). lia.
    + rewrite tag_free_cons, Ec, (IH r Hr), andb_true_r.
      assert (Hno : contains_char ">"%char r = false).
      { rewrite (span_prefix (not_char ">"%char) r). fold inner.
        rewrite contains_char_app. unfold inner at 1. rewrite span_not_char_absent.
        destruct (span_stop (not_char ">"%char) r) as [E|(x & r' & E & Hx)];
          fold inner in E; rewrite E; [reflexivity|].
        unfold not_char in Hx. apply negb_false_iff, Ascii.eqb_eq in Hx. subst x.
        rewrite E in Es. unfold Py.startswith in Es. rewrite prefix_char in Es.
        discriminate Es. }
      rewrite (re_sub_empty_absent _ _ _ 0 Hno). apply orb_true_r.
Qed.

Lemma tag_free_drop (k : nat) (s : string) :
  tag_free s = true -> tag_free (Py.drop k s) = true.
Proof.
  revert s; induction k as [|k IH]; intros [|c r] H; try exact H.
  simpl in H. apply andb_true_iff in H as [_ H]. now apply IH.
Qed.

Lemma tag_free_no_match (s : string) : tag_free s = true -> match_tag s = None.
Proof.
  destruct s as [|c r]; [reflexivity|]. simpl.
  destruct (Ascii.eqb c "<"%char); [|reflexivity].
  intros H. apply andb_true_iff in H as [H _]. apply orb_true_iff in H as [H|H].
  - apply startswith_char in H as [r' ->]. reflexivity.
  - apply negb_true_iff in H.
    destruct (String.eqb _ EmptyString); [reflexivity|].
    destruct (Py.startswith (Py.drop _ r) ">") eqn:E; [|reflexivity].
    apply startswith_char in E as [r' E].
    pose proof (contains_char_drop ">"%char
                  (String.length (HTMLToMarkdownConverter.span (not_char ">"%char) r)) r H)
      as Hd.
    rewrite E in Hd. discriminate Hd.
Qed.

Lemma del_space_absent (c : ascii) (s t : string) :
  del_space s t -> contains_char c s = false -> contains_char c t = false.
Proof.
  induction 1 as [|x s t _ IH|x s t _ _ IH]; simpl; intros H; [reflexivity| |].
  - apply orb_false_elim in H as [Hx Hs]. now rewrite Hx, IH.
  - apply orb_false_elim in H as [_ Hs]. now apply IH.
Qed.

Lemma del_space_tag_free (s t : string) :
  del_space s t -> tag_free s = true -> tag_free t = true.
Proof.
  induction 1 as [|c s t Hst IH|c s t Hc Hst IH]; simpl; intros H; [reflexivity| |].
  - apply andb_true_iff in H as [Hhead Hs]. rewrite (IH Hs), andb_true_r.
    destruct (Ascii.eqb c "<"%char); [|reflexivity].
    apply orb_true_iff in Hhead as [Hh|Hh].
    + apply startswith_char in Hh as [s' ->].
      inversion Hst as [|x a b Hab|x a b Hx Hab]; subst;
        [now rewrite startswith_cons | discriminate Hx].
    + apply negb_true_iff in Hh. rewrite (del_space_absent _ _ _ Hst Hh). apply orb_true_r.
  - apply andb_true_iff in H as [_ Hs]. now apply IH.
Qed.

Lemma del_space_refl (s : string) : del_space s s.
Proof. induction s; constructor; auto. Qed.

Lemma del_space_app (a b c d : string) :
  del_space a b -> del_space c d -> del_space (a +:+ c) (b +:+ d).
Proof.
  intros Hab Hcd. induction Hab as [|x s t _ IH|x s t Hx _ IH].
  - exact Hcd.
  - rewrite !app_cons. now constructor.
  - rewrite app_cons. now constructor.
Qed.

Lemma del_lf_space (s t : string) : del_lf s t -> del_space s t.
Proof.
  induction 1 as [|c s t _ IH|s t _ IH]; [constructor | now constructor|].
  now apply dsp_drop.
Qed.

Lemma del_space_lstrip (s : string) : del_space s (Py.lstrip Py.isspace s).
Proof.
  induction s as [|c r IH]; simpl; [constructor|].
  destruct (Py.isspace c) eqn:E; [now apply dsp_drop | apply del_space_refl].
Qed.

Lemma del_space_rstrip (s : string) : del_space s (Py.rstrip Py.isspace s).
Proof.
  induction s as [|c r IH]; [constructor|]. rewrite rstrip_cons.
  destruct (Py.rstrip Py.isspace r) as [|a r'].
  - destruct (Py.isspace c) eqn:E; [now apply dsp_drop | now constructor].
  - now constructor.
Qed.

Lemma del_all_space (s : string) :
  Forall (fun c => Py.isspace c = true) (String.list_ascii_of_string s) ->
  del_space s EmptyString.
Proof.
  induction s as [|c r IH]; simpl; intros H; [constructor|].
  inversion H; subst. apply dsp_drop; auto.
Qed.

Lemma del_space_to_newline (s : string) :
  Forall (fun c => Py.isspace c = true) (String.list_ascii_of_string s) ->
  contains_char LF s = true -> del_space s nl.
Proof.
  induction s as [|c r IH]; simpl; intros H Hc; [discriminate|].
  inversion H as [|? ? Hs Hr]; subst.
  destruct (Ascii.eqb_spec c LF) as [->|N].
  - apply dsp_keep. now apply del_all_space.
  - apply dsp_drop; [exact Hs|]. apply IH; [exact Hr|]. exact Hc.
Qed.

Lemma drop_drop (a b : nat) (s : string) : Py.drop a (Py.drop b s) = Py.drop (b + a) s.
Proof.
  revert s; induction b as [|b IH]; intros s; [reflexivity|].
  destruct s as [|c r]; [now destruct a | apply IH].
Qed.

Lemma del_space_empty_fences (n : nat) :
  forall s, String.length s <= n ->
            del_space s (re_sub match_empty_fence ("```" +:+ nl +:+ "```") 0 s).
Proof.
  induction n as [|n IH]; intros [|c r] Hlen;
    [apply dsp_nil | simpl in Hlen; lia | apply dsp_nil |].
  simpl in Hlen. assert (Hr : String.length r <= n) by lia.
  rewrite re_sub_0.
  destruct (match_empty_fence (String c r)) as [[|len]|] eqn:Em;
    [apply dsp_keep; now apply IH | | apply dsp_keep; now apply IH].
  unfold match_empty_fence in Em.
  destruct (Py.startswith (String c r) "```") eqn:E1; [|discriminate].
  set (space := HTMLToMarkdownConverter.span Py.isspace (Py.drop 3 (String c r))) in *.
  destruct (contains_char LF space) eqn:E2; [|discriminate].
  destruct (Py.startswith (Py.drop (3 + String.length space) (String c r)) "```") eqn:E3;
    [|discriminate].
  simpl in Em. injection Em as Em.
  apply prefix_app in E1 as [rest1 E1].
  assert (D3 : Py.drop 3 (String c r) = rest1)
    by (rewrite E1; exact (drop_app_length "```" rest1)).
  pose proof (span_prefix Py.isspace (Py.drop 3 (String c r))) as Hsp. fold space in Hsp.
  set (rest2 := Py.drop (String.length space) (Py.drop 3 (String c r))) in *.
  assert (D2 : Py.drop (3 + String.length space) (String c r) = rest2)
    by (unfold rest2; now rewrite drop_drop).
  rewrite D2 in E3. apply prefix_app in E3 as [rest3 E3].
  assert (Hs : String c r = "```" +:+ space +:+ "```" +:+ rest3).
  { rewrite E1 at 1. rewrite <- D3, Hsp. now rewrite E3. }
  assert (Hd : Py.drop len r = rest3).
  { change (Py.drop len r) with (Py.drop (S len) (String c r)).
    rewrite Hs, <- Em.
    replace (String.length space + 6) with (3 + (String.length space + 3)) by lia.
    rewrite <- drop_drop.
    replace (Py.drop 3 ("```" +:+ space +:+ "```" +:+ rest3))
      with (space +:+ "```" +:+ rest3) by reflexivity.
    rewrite <- drop_drop, drop_app_length. reflexivity. }
  rewrite Hd, Hs.
  replace (("```" +:+ nl +:+ "```") +:+ re_sub match_empty_fence ("```" +:+ nl +:+ "```") 0 rest3)
    with ("```" +:+ nl +:+ "```" +:+ re_sub match_empty_fence ("```" +:+ nl +:+ "```") 0 rest3)
    by reflexivity.
  apply (del_space_app "```" "```"); [apply del_space_refl|].
  apply del_space_app; [apply del_space_to_newline; [apply span_all | exact E2]|].
  apply (del_space_app "```" "```"); [apply del_space_refl|].
  apply IH.
  assert (L : String.length (String c r) = String.length ("```" +:+ space +:+ "```" +:+ rest3))
    by (now rewrite Hs).
  simpl in L. rewrite !length_app in L. simpl in L. lia.
Qed.

Lemma tag_free_app_nl (s : string) : tag_free s = true -> tag_free (s +:+ nl) = true.
Proof.
  induction s as [|c r IH]; [reflexivity|]. rewrite app_cons. simpl.
  intros H. apply andb_true_iff in H as [Hh Hr]. rewrite (IH Hr), andb_true_r.
  destruct (Ascii.eqb c "<"%char); [|reflexivity].
  apply orb_true_iff in Hh as [Hh|Hh].
  - apply startswith_char in Hh as [r' ->]. rewrite app_cons. now rewrite startswith_cons.
  - apply negb_true_iff in Hh. rewrite contains_char_app, Hh. simpl. apply orb_true_r.
Qed.

(** X22: the text that [_clean_markdown] returns holds no match of the tag
    pattern [<[^>]+>] any more: the pattern matches at none of its
    positions, so that a second removal of the tags would find nothing. *)
Theorem clean_markdown_leaves_no_tag :
  forall (content : string) (k : nat),
    match_tag (Py.drop k (DirectMarkdownHandler._clean_markdown content)) = None.
Proof.
  intros content k. apply tag_free_no_match, tag_free_drop.
  unfold DirectMarkdownHandler._clean_markdown. apply tag_free_app_nl.
  unfold Py.strip.
  apply (del_space_tag_free _ _ (del_space_rstrip _)).
  apply (del_space_tag_free _ _ (del_space_lstrip _)).
  apply (del_space_tag_free _ _ (del_space_empty_fences _ _ (Nat.le_refl _))).
  apply (del_space_tag_free _ _ (del_lf_space _ _ (collapse_newlines_del _))).
  exact (tag_free_re_sub _ _ (Nat.le_refl _)).
Qed.

(** ** A note that was downloaded is in the index *)

Lemma index_kept_refl (s : LocalStorage.t) : index_kept s s.
Proof. split; reflexivity. Qed.

Lemma index_kept_trans (a b c : LocalStorage.t) :
  index_kept a b -> index_kept b c -> index_kept a c.
Proof.
  intros [H1 H2] [K1 K2]. split; [congruence|].
  now transitivity (dom (LocalStorage.files b)).
Qed.

Lemma save_attachment_index_kept (self : LocalStorage.t)
    (note_path attachment_name content : string) :
  index_kept self (snd (LocalStorage.save_attachment self note_path attachment_name content)).
Proof.
  unfold LocalStorage.save_attachment.
  destruct (LocalStorage.mkdir self _) as [self1|] eqn:Hmk; [|apply index_kept_refl].
  destruct (mkdir_frame _ _ _ Hmk) as (Hf & Hi & _).
  assert (H1 : index_kept self self1) by (split; [exact Hi | now rewrite Hf]).
  destruct (LocalStorage.free_attachment_path self1 _ _) as [p|]; [|exact H1].
  destruct (LocalStorage.write_file self1 p content) as [self2|] eqn:Hw; [|exact H1].
  destruct (write_file_files _ _ _ _ Hw) as (Hf2 & _ & Hi2).
  apply (index_kept_trans _ _ _ H1). simpl. split; [exact Hi2|].
  rewrite Hf2, dom_insert_L. apply union_subseteq_r.
Qed.

Lemma one_attachment_index_kept (note_guid note_path : string)
    (self : NoteDownloader.t) (attachment : Attachment.t) :
  index_kept (NoteDownloader.storage self)
    (NoteDownloader.storage
       (NoteDownloader.download_one_attachment note_guid note_path self attachment)).
Proof.
  unfold NoteDownloader.download_one_attachment.
  destruct (String.eqb _ EmptyString); [apply index_kept_refl|].
  destruct (download_attachment _ _ _) as [content|e]; [|apply index_kept_refl].
  destruct (Py.truthy content); [|apply index_kept_refl].
  pose proof (save_attachment_index_kept (NoteDownloader.storage self) note_path
                (default "attachment" (Attachment.name attachment))
                (default EmptyString content)) as H.
  now destruct (LocalStorage.save_attachment _ _ _ _).
Qed.

Lemma save_extracted_index_kept (note_path : string) (self : NoteDownloader.t)
    (resource : Resource.t) :
  index_kept (NoteDownloader.storage self)
    (NoteDownloader.storage (NoteDownloader.save_extracted note_path self resource)).
Proof.
  unfold NoteDownloader.save_extracted.
  destruct (_ && _); [|apply index_kept_refl].
  unfold LocalStorage.save_resource.
  pose proof (save_attachment_index_kept (NoteDownloader.storage self) note_path
                (Resource.filename resource)
                (default EmptyString (Resource.data resource))) as H.
  now destruct (LocalStorage.save_attachment _ _ _ _).
Qed.

Lemma index_kept_fold {B : Type} (f : NoteDownloader.t -> B -> NoteDownloader.t)
    (l : list B) :
  (forall a b, index_kept (NoteDownloader.storage a) (NoteDownloader.storage (f a b))) ->
  forall a, index_kept (NoteDownloader.storage a) (NoteDownloader.storage (fold_left f l a)).
Proof.
  intros H. induction l as [|b l IH]; intros a; simpl; [apply index_kept_refl|].
  exact (index_kept_trans _ _ _ (H a b) (IH (f a b))).
Qed.

Lemma after_save_index_kept (self : NoteDownloader.t) (note_guid : string)
    (note_path : option string) :
  index_kept (NoteDownloader.storage self)
    (NoteDownloader.storage (snd (NoteDownloader.after_save self note_guid note_path)))
  /\ (fst (NoteDownloader.after_save self note_guid note_path) = true ->
      is_Some note_path).
Proof.
  unfold NoteDownloader.after_save.
  destruct note_path as [p|]; [|split; [apply index_kept_refl | discriminate]].
  split; [|eauto].
  destruct (get_attachments _ _) as [attachments|]; [|apply index_kept_refl].
  destruct (_ && _); [|apply index_kept_refl]. simpl.
  unfold NoteDownloader._download_attachments.
  apply (index_kept_fold _ attachments (one_attachment_index_kept note_guid p)
           (NoteDownloader.with_stat self
              (NoteDownloader.add_total_attachments (length attachments)
                 (NoteDownloader.stat self)))).
Qed.

(** When [store_content] answers [True], [save_note] returned a path, and
    what follows kept the index and the files. *)
Lemma store_content_success (self : NoteDownloader.t)
    (folder_path note_guid html_content : string) (note_info : Note.t) :
  fst (NoteDownloader.store_content self folder_path note_guid html_content note_info)
  = true ->
  exists content format p s,
    LocalStorage.save_note (NoteDownloader.storage self) (NoteDownloader.kb_name self)
      folder_path note_info content format (NoteDownloader.clock self)
    = (Ok (Some p), s)
    /\ index_kept s
         (NoteDownloader.storage
            (snd (NoteDownloader.store_content self folder_path note_guid html_content
                    note_info))).
Proof.
  unfold NoteDownloader.store_content.
  assert (Hplain : forall content format,
             fst (match LocalStorage.save_note (NoteDownloader.storage self)
                          (NoteDownloader.kb_name self) folder_path note_info content format
                          (NoteDownloader.clock self) with
                  | (Raise _, s) => (false, NoteDownloader.with_storage self s)
                  | (Ok note_path, s) =>
                      NoteDownloader.after_save (NoteDownloader.with_storage self s)
                        note_guid note_path
                  end) = true ->
             exists content' format' p s,
               LocalStorage.save_note (NoteDownloader.storage self)
                 (NoteDownloader.kb_name self) folder_path note_info content' format'
                 (NoteDownloader.clock self) = (Ok (Some p), s)
               /\ index_kept s
                    (NoteDownloader.storage
                       (snd (match LocalStorage.save_note (NoteDownloader.storage self)
                                     (NoteDownloader.kb_name self) folder_path note_info
                                     content format (NoteDownloader.clock self) with
                             | (Raise _, s) => (false, NoteDownloader.with_storage self s)
                             | (Ok note_path, s) =>
                                 NoteDownloader.after_save
                                   (NoteDownloader.with_storage self s) note_guid note_path
                             end)))).
  { intros content format.
    destruct (LocalStorage.save_note _ _ _ _ content format _) as [[note_path|e] s] eqn:Es;
      [|discriminate].
    destruct (after_save_index_kept (NoteDownloader.with_storage self s) note_guid note_path)
      as [Hk Hsome].
    intros Hok. destruct (Hsome Hok) as [p ->].
    exists content, format, p, s. split; [exact Es | exact Hk]. }
  destruct (NoteDownloader.converter self) as [conv|]; [|apply Hplain].
  destruct (convert_to_markdown _); [|apply Hplain].
  destruct (HTMLToMarkdownConverter.convert _ _ _ _) as [[md extracted]|]; [|discriminate].
  destruct (LocalStorage.save_note _ _ _ _ md "md" _) as [[note_path|e] s] eqn:Es;
    [|discriminate].
  destruct note_path as [p|]; [|discriminate].
  destruct (after_save_index_kept
              (fold_left (NoteDownloader.save_extracted p) extracted
                 (NoteDownloader.with_storage self s)) note_guid (Some p)) as [Hk _].
  intros _. exists md, "md", p, s. split; [exact Es|].
  refine (index_kept_trans _ _ _ _ Hk).
  exact (index_kept_fold _ extracted (save_extracted_index_kept p)
           (NoteDownloader.with_storage self s)).
Qed.

(** X23: when [_download_note] returns [True], the note, as the method
    leaves it, has a title and a [guid], and the index of the storage
    holds under that [guid] an entry with the title, the modification time
    and the name of the knowledge base as team, whose file exists. *)
Theorem download_note_success_recorded :
  forall (self self' : NoteDownloader.t) (folder_path : string)
         (note_info note : Note.t),
    NoteDownloader._download_note self folder_path note_info = (Ok true, note, self') ->
    exists title guid info,
      Note.title note = Some title /\ Note.guid note = Some guid
      /\ Dict.get guid (LocalStorage.note_index (NoteDownloader.storage self')) = Some info
      /\ Entry.title info = title
      /\ Entry.modified info = Note.modified note
      /\ Entry.team info = NoteDownloader.kb_name self
      /\ Entry.folder info = folder_path
      /\ is_Some (LocalStorage.files (NoteDownloader.storage self') !! Entry.file_path info).
Proof.
  intros self self' folder_path note_info note.
  assert (Hstore : forall html merged ok s',
             NoteDownloader.store_content self folder_path (Note.the_guid note_info)
               html merged = (ok, s') ->
             (Ok ok, merged, s') = (Ok true, note, self') ->
             exists title guid info,
               Note.title note = Some title /\ Note.guid note = Some guid
               /\ Dict.get guid (LocalStorage.note_index (NoteDownloader.storage self'))
                  = Some info
               /\ Entry.title info = title
               /\ Entry.modified info = Note.modified note
               /\ Entry.team info = NoteDownloader.kb_name self
               /\ Entry.folder info = folder_path
               /\ is_Some (LocalStorage.files (NoteDownloader.storage self')
                           !! Entry.file_path info)).
  { intros html merged ok s' Es E. injection E as -> -> ->.
    pose proof (store_content_success self folder_path (Note.the_guid note_info)
                  html note) as H.
    rewrite Es in H. destruct (H eq_refl) as (content & format & p & s & Hsave & Hi & Hf).
    simpl in Hi, Hf.
    destruct (save_note_inv _ _ _ _ _ _ _ _ _ Hsave)
      as (title & guid & s1 & s2 & Ht & Hg & _ & Hw & ->).
    destruct (write_file_files _ _ _ _ Hw) as (Hf2 & _ & _).
    exists title, guid. eexists. split; [exact Ht|]. split; [exact Hg|].
    split; [rewrite Hi; simpl; apply dict_get_set_same|].
    simpl. repeat split.
    apply elem_of_dom. apply Hf. simpl. rewrite Hf2, dom_insert_L.
    apply elem_of_union. left. now apply elem_of_singleton. }
  unfold NoteDownloader._download_note.
  destruct (get_note_info _ _) as [full|]; [|discriminate].
  destruct (download_note _ _) as [[html|]|]; [|discriminate|discriminate].
  destruct (String.eqb html EmptyString).
  - destruct (get_note_html _ _) as [html'|]; [|discriminate].
    destruct (String.eqb html' EmptyString); [discriminate|].
    destruct (NoteDownloader.store_content _ _ _ _ _) as [ok s'] eqn:Es.
    exact (Hstore _ _ _ _ Es).
  - destruct (NoteDownloader.store_content _ _ _ _ _) as [ok s'] eqn:Es.
    exact (Hstore _ _ _ _ Es).
Qed.

Lemma download_note_success_recorded_witness :
  exists title guid info,
    Note.title (snd (fst downloaded_beta)) = Some title
    /\ Note.guid (snd (fst downloaded_beta)) = Some guid
    /\ Dict.get guid (LocalStorage.note_index (NoteDownloader.storage (snd downloaded_beta)))
       = Some info
    /\ Entry.title info = title
    /\ Entry.modified info = Note.modified (snd (fst downloaded_beta))
    /\ Entry.team info
       = NoteDownloader.kb_name
           (sample_downloader (Some "2024-01-01") "none" false
              (LocalStorage.init "out" true) "t1")
    /\ Entry.folder info = "/Notes/Work/"
    /\ is_Some (LocalStorage.files (NoteDownloader.storage (snd downloaded_beta))
                !! Entry.file_path info).
Proof.
  apply (download_note_success_recorded
           (sample_downloader (Some "2024-01-01") "none" false
              (LocalStorage.init "out" true) "t1")
           (snd downloaded_beta) "/Notes/Work/"
           (sample_note "g2" "Beta" (Some "2024-01-01")) (snd (fst downloaded_beta))).
  by_compute.
Defined.

(** ** Outcomes that the counters do not tell *)

(** X24: an attachment whose content was fetched is counted as downloaded
    even when [save_attachment] could not store it: the result of
    [save_attachment] is not looked at, so the counter of the downloaded
    attachments and the total size grow while no file is written, and
    nothing is added to the failure list. *)
Theorem attachment_counted_though_not_saved :
  forall (self : NoteDownloader.t) (note_guid note_path att_guid content : string)
         (attachment : Attachment.t),
    Attachment.guid attachment = Some att_guid ->
    att_guid <> EmptyString ->
    download_attachment (NoteDownloader.api self) note_guid att_guid = Ok (Some content) ->
    content <> EmptyString ->
    fst (LocalStorage.save_attachment (NoteDownloader.storage self) note_path
           (default "attachment" (Attachment.name attachment)) content) = None ->
    downloaded_attachments
      (NoteDownloader.stat
         (NoteDownloader._download_attachments self note_guid note_path [attachment]))
    = downloaded_attachments (NoteDownloader.stat self) + 1
    /\ total_size
         (NoteDownloader.stat
            (NoteDownloader._download_attachments self note_guid note_path [attachment]))
       = total_size (NoteDownloader.stat self) + String.length content
    /\ failed_attachments
         (NoteDownloader.stat
            (NoteDownloader._download_attachments self note_guid note_path [attachment]))
       = failed_attachments (NoteDownloader.stat self)
    /\ NoteDownloader.failed_items
         (NoteDownloader._download_attachments self note_guid note_path [attachment])
       = NoteDownloader.failed_items self
    /\ LocalStorage.files
         (NoteDownloader.storage
            (NoteDownloader._download_attachments self note_guid note_path [attachment]))
       = LocalStorage.files (NoteDownloader.storage self).
Proof.
  intros self note_guid note_path att_guid content attachment Hg Hne Hdl Hc Hsave.
  assert (Hstep :
            NoteDownloader._download_attachments self note_guid note_path [attachment]
            = NoteDownloader.with_stat
                (NoteDownloader.with_storage self
                   (snd (LocalStorage.save_attachment (NoteDownloader.storage self) note_path
                           (default "attachment" (Attachment.name attachment)) content)))
                (NoteDownloader.add_downloaded_attachment (String.length content)
                   (NoteDownloader.stat self))).
  { unfold NoteDownloader._download_attachments. cbn [fold_left].
    unfold NoteDownloader.download_one_attachment. rewrite Hg.
    change (default EmptyString (Some att_guid)) with att_guid.
    destruct (String.eqb_spec att_guid EmptyString) as [E|_]; [contradiction|].
    rewrite Hdl.
    assert (Ht : Py.truthy (Some content) = true)
      by (destruct content; [contradiction|reflexivity]).
    rewrite Ht. change (default EmptyString (Some content)) with content.
    now destruct (LocalStorage.save_attachment _ _ _ _). }
  rewrite Hstep. simpl.
  destruct (save_attachment_cases (NoteDownloader.storage self) note_path
              (default "attachment" (Attachment.name attachment)) content)
    as [[_ Hfiles]|(s1 & p & _ & _ & Hp & _)]; [|rewrite Hp in Hsave; discriminate Hsave].
  repeat split. exact Hfiles.
Qed.

Lemma attachment_counted_though_not_saved_witness :
  downloaded_attachments
    (NoteDownloader.stat
       (NoteDownloader._download_attachments blocked_downloader "g1" "out/Personal/T.md"
          [Attachment.Build (Some "a1") (Some "a.txt")]))
  = downloaded_attachments (NoteDownloader.stat blocked_downloader) + 1
  /\ total_size
       (NoteDownloader.stat
          (NoteDownloader._download_attachments blocked_downloader "g1" "out/Personal/T.md"
             [Attachment.Build (Some "a1") (Some "a.txt")]))
     = total_size (NoteDownloader.stat blocked_downloader) + String.length "bytes"
  /\ failed_attachments
       (NoteDownloader.stat
          (NoteDownloader._download_attachments blocked_downloader "g1" "out/Personal/T.md"
             [Attachment.Build (Some "a1") (Some "a.txt")]))
     = failed_attachments (NoteDownloader.stat blocked_downloader)
  /\ NoteDownloader.failed_items
       (NoteDownloader._download_attachments blocked_downloader "g1" "out/Personal/T.md"
          [Attachment.Build (Some "a1") (Some "a.txt")])
     = NoteDownloader.failed_items blocked_downloader
  /\ LocalStorage.files
       (NoteDownloader.storage
          (NoteDownloader._download_attachments blocked_downloader "g1" "out/Personal/T.md"
             [Attachment.Build (Some "a1") (Some "a.txt")]))
     = LocalStorage.files (NoteDownloader.storage blocked_downloader).
Proof.
  apply (attachment_counted_though_not_saved blocked_downloader "g1" "out/Personal/T.md"
           "a1" "bytes" (Attachment.Build (Some "a1") (Some "a.txt"))).
  - reflexivity.
  - intros E; discriminate E.
  - reflexivity.
  - intros E; discriminate E.
  - by_compute.
Defined.

Lemma save_extracted_api (note_path : string) (self : NoteDownloader.t)
    (resource : Resource.t) :
  NoteDownloader.api (NoteDownloader.save_extracted note_path self resource)
  = NoteDownloader.api self.
Proof.
  unfold NoteDownloader.save_extracted. destruct (_ && _); [|reflexivity].
  unfold LocalStorage.save_resource. now destruct (LocalStorage.save_attachment _ _ _ _).
Qed.

Lemma after_save_unlisted (self : NoteDownloader.t) (note_guid e : string)
    (note_path : option string) :
  get_attachments (NoteDownloader.api self) note_guid = Raise e ->
  NoteDownloader.after_save self note_guid note_path = (false, self).
Proof.
  intros H. unfold NoteDownloader.after_save. destruct note_path; [|reflexivity].
  now rewrite H.
Qed.

Lemma store_content_unlisted (self : NoteDownloader.t)
    (folder_path note_guid html_content e : string) (note_info : Note.t) :
  get_attachments (NoteDownloader.api self) note_guid = Raise e ->
  fst (NoteDownloader.store_content self folder_path note_guid html_content note_info) = false
  /\ NoteDownloader.stat
       (snd (NoteDownloader.store_content self folder_path note_guid html_content note_info))
     = NoteDownloader.stat self.
Proof.
  intros H. unfold NoteDownloader.store_content.
  assert (Hplain : forall content format,
             fst (match LocalStorage.save_note (NoteDownloader.storage self)
                          (NoteDownloader.kb_name self) folder_path note_info content format
                          (NoteDownloader.clock self) with
                  | (Raise _, s) => (false, NoteDownloader.with_storage self s)
                  | (Ok note_path, s) =>
                      NoteDownloader.after_save (NoteDownloader.with_storage self s)
                        note_guid note_path
                  end) = false
             /\ NoteDownloader.stat
                  (snd (match LocalStorage.save_note (NoteDownloader.storage self)
                                (NoteDownloader.kb_name self) folder_path note_info content
                                format (NoteDownloader.clock self) with
                        | (Raise _, s) => (false, NoteDownloader.with_storage self s)
                        | (Ok note_path, s) =>
                            NoteDownloader.after_save (NoteDownloader.with_storage self s)
                              note_guid note_path
                        end))
                = NoteDownloader.stat self).
  { intros content fmt.
    destruct (LocalStorage.save_note _ _ _ _ content fmt _) as [[note_path|x] s];
      [|now split].
    rewrite (after_save_unlisted _ _ e) by exact H. now split. }
  destruct (NoteDownloader.converter self) as [conv|]; [|apply Hplain].
  destruct (convert_to_markdown _); [|apply Hplain].
  destruct (HTMLToMarkdownConverter.convert _ _ _ _) as [[md extracted]|]; [|now split].
  destruct (LocalStorage.save_note _ _ _ _ md "md" _) as [[note_path|x] s]; [|now split].
  destruct note_path as [p|]; [|now split].
  rewrite (after_save_unlisted _ _ e).
  - simpl. split; [reflexivity|].
    now rewrite (fold_left_preserves NoteDownloader.stat _ _ (save_extracted_stat p)).
  - now rewrite (fold_left_preserves NoteDownloader.api _ _ (save_extracted_api p)).
Qed.

(** X25: when the request for the attachments of a note fails,
    [_download_note] returns [False] whatever else the API answers, also
    when the note itself was saved before; the counters stay as they
    were. *)
Theorem download_note_fails_when_attachments_unlisted :
  forall (self : NoteDownloader.t) (folder_path e : string) (note_info : Note.t),
    get_attachments (NoteDownloader.api self) (Note.the_guid note_info) = Raise e ->
    fst (fst (NoteDownloader._download_note self folder_path note_info)) = Ok false
    /\ NoteDownloader.stat (snd (NoteDownloader._download_note self folder_path note_info))
       = NoteDownloader.stat self.
Proof.
  intros self folder_path e note_info H. unfold NoteDownloader._download_note.
  destruct (get_note_info _ _) as [full|]; [|now split].
  destruct (download_note _ _) as [[html|]|]; [|now split|now split].
  destruct (String.eqb html EmptyString).
  - destruct (get_note_html _ _) as [html'|]; [|now split].
    destruct (String.eqb html' EmptyString); [now split|].
    pose proof (store_content_unlisted self folder_path (Note.the_guid note_info) html' e
                  (NoteDownloader.normalize
                     match full with
                     | Some f => NoteDownloader.update note_info f
                     | None => note_info
                     end) H) as K.
    destruct (NoteDownloader.store_content _ _ _ _ _) as [ok s]. simpl in *.
    destruct K as [-> K]. now split.
  - pose proof (store_content_unlisted self folder_path (Note.the_guid note_info) html e
                  (NoteDownloader.normalize
                     match full with
                     | Some f => NoteDownloader.update note_info f
                     | None => note_info
                     end) H) as K.
    destruct (NoteDownloader.store_content _ _ _ _ _) as [ok s]. simpl in *.
    destruct K as [-> K]. now split.
Qed.

Lemma download_note_fails_when_attachments_unlisted_witness :
  fst (fst (NoteDownloader._download_note unlisted_downloader "/Notes/Work/"
              (sample_note "g1" "Alpha" (Some "2024-01-01")))) = Ok false
  /\ NoteDownloader.stat
       (snd (NoteDownloader._download_note unlisted_downloader "/Notes/Work/"
               (sample_note "g1" "Alpha" (Some "2024-01-01"))))
     = NoteDownloader.stat unlisted_downloader.
Proof.
  apply (download_note_fails_when_attachments_unlisted unlisted_downloader "/Notes/Work/"
           "ConnectionError" (sample_note "g1" "Alpha" (Some "2024-01-01"))).
  reflexivity.
Defined.

(** In that run the note is on the disk and in the index all the same. *)
Lemma unlisted_note_is_saved :
  is_Some (LocalStorage.files
             (NoteDownloader.storage
                (snd (NoteDownloader._download_note unlisted_downloader "/Notes/Work/"
                        (sample_note "g1" "Alpha" (Some "2024-01-01")))))
           !! "out/Personal/Notes/Work/Alpha.md")
  /\ is_Some (Dict.get "g1"
                (LocalStorage.note_index
                   (NoteDownloader.storage
                      (snd (NoteDownloader._download_note unlisted_downloader "/Notes/Work/"
                              (sample_note "g1" "Alpha" (Some "2024-01-01"))))))).
Proof. split; by_decide. Qed.
